(** * AI-assisted document authoring platform: client handlers and the
      refinement / revision subsystem

    The React client (api.js, authStore.js, App.js, WordBuilder.js,
    PPTBuilder.js, RefinementEditor.js) is embedded function by function.
    Promises are modelled by passing the outcome of each awaited request to
    the handler; a handler returns the component state it leaves behind
    together with the effects (requests, navigation, alerts) it issued, in
    order.  The server-side refinement / revision subsystem is modelled as a
    store with fallible, state-passing operations. *)

From Stdlib Require Import NArith ZArith String Ascii List Lia.
From Stdlib Require Import DecimalString DecimalPos.
From stdpp Require Import gmap list strings sorting.

Set Warnings "-register-all".

Local Open Scope list_scope.

(** ** JavaScript strings and values *)

Module Js.

(** A JavaScript string is a sequence of UTF-16 code units. *)
Definition jsstring : Type := list N.

(** String literals of the source (all of them ASCII). *)
Definition lit (s : string) : jsstring :=
  map N_of_ascii (list_ascii_of_string s).

(** ECMAScript [WhiteSpace]: TAB, VT, FF, ZWNBSP and category Zs. *)
Definition is_white_space (c : N) : bool :=
  N.eqb c 0x0009 || N.eqb c 0x000B || N.eqb c 0x000C || N.eqb c 0xFEFF
  || N.eqb c 0x0020 || N.eqb c 0x00A0 || N.eqb c 0x1680
  || (N.leb 0x2000 c && N.leb c 0x200A)
  || N.eqb c 0x202F || N.eqb c 0x205F || N.eqb c 0x3000.

(** ECMAScript [LineTerminator]: LF, CR, LS, PS. *)
Definition is_line_terminator (c : N) : bool :=
  N.eqb c 0x000A || N.eqb c 0x000D || N.eqb c 0x2028 || N.eqb c 0x2029.

(** The code units that [String.prototype.trim] strips. *)
Definition is_trimmed (c : N) : bool :=
  is_white_space c || is_line_terminator c.

Fixpoint trimStart (s : jsstring) : jsstring :=
  match s with
  | [] => []
  | c :: s' => if is_trimmed c then trimStart s' else s
  end.

Definition trimEnd (s : jsstring) : jsstring :=
  rev (trimStart (rev s)).

(** [s.trim()] *)
Definition trim (s : jsstring) : jsstring :=
  trimEnd (trimStart s).

(** [s === ''] on strings. *)
Definition is_empty_string (s : jsstring) : bool :=
  match s with [] => true | _ => false end.

(** The JavaScript values that flow through the handlers.  Numbers are only
    ever HTTP statuses and record ids here, so integers suffice.  The
    Numbers of JavaScript are the doubles: [Num n] stands for a value of
    the program when [n] is one, that is, when [round_to_double] below
    leaves it as it is (every integer up to 2^53 in absolute value is). *)
Inductive value : Type :=
| Undefined
| Null
| Bool (b : bool)
| Num (n : Z)
| Str (s : jsstring)
| Arr (l : list value)
| Obj (fields : list (string * value)).

(** ToBoolean. *)
Definition truthy (v : value) : bool :=
  match v with
  | Undefined | Null => false
  | Bool b => b
  | Num n => negb (Z.eqb n 0)
  | Str s => negb (is_empty_string s)
  | Arr _ | Obj _ => true
  end.

(** [a || b] *)
Definition or_else (a b : value) : value :=
  if truthy a then a else b.

(** Own-property lookup in an object literal / parsed JSON object; the last
    binding of a key wins, as in an object literal. *)
Fixpoint field (k : string) (fields : list (string * value)) : option value :=
  match fields with
  | [] => None
  | (k', v) :: rest =>
      match field k rest with
      | Some w => Some w
      | None => if String.eqb k k' then Some v else None
      end
  end.

(** [v.k]: a TypeError ([None]) on undefined and null, [undefined] for a
    missing property and on the primitives used here. *)
Definition get (v : value) (k : string) : option value :=
  match v with
  | Undefined | Null => None
  | Obj fields => Some (default Undefined (field k fields))
  | _ => Some Undefined
  end.

(** [v?.k] *)
Definition get_opt (v : value) (k : string) : value :=
  default Undefined (get v k).

(** [arr.filter(cb)] on an array that may have holes ([None]).  Holes are
    skipped without calling the callback, the result is dense; a callback
    that throws ([None]) aborts the whole call. *)
Fixpoint filter_from (cb : value -> nat -> option bool) (i : nat)
    (arr : list (option value)) : option (list value) :=
  match arr with
  | [] => Some []
  | None :: rest => filter_from cb (S i) rest
  | Some v :: rest =>
      match cb v i with
      | None => None
      | Some keep =>
          match filter_from cb (S i) rest with
          | None => None
          | Some out => Some (if keep then v :: out else out)
          end
      end
  end.

Definition array_filter (cb : value -> nat -> option bool)
    (arr : list (option value)) : option (list value) :=
  filter_from cb 0 arr.

(** The number of entries of an array that are not holes. *)
Definition present (arr : list (option value)) : nat :=
  length (List.filter (fun e => match e with Some _ => true | None => false end) arr).

(** What the array handlers of the builders maintain: some entry is
    present, and an array longer than one has at least two present entries
    (holes only ever appear together with the entry whose assignment
    created them). *)
Definition well_filled (arr : list (option value)) : Prop :=
  1 <= present arr /\ (1 < length arr -> 2 <= present arr).

(** [[...arr]]: iteration reads a hole as [undefined]. *)
Definition spread (arr : list (option value)) : list value :=
  map (default Undefined) arr.

(** A dense array seen as an array value. *)
Definition dense (l : list value) : list (option value) := map Some l.

(** [arr[i] = v] on a dense copy: in range it overwrites, out of range the
    array grows to length [i + 1] and the skipped indices are holes. *)
Definition assign (l : list value) (i : nat) (v : value) : list (option value) :=
  if Nat.ltb i (length l) then <[i := Some v]> (dense l)
  else dense l ++ replicate (i - length l) None ++ [Some v].

(** Template-literal concatenation. *)
Definition cat (parts : list jsstring) : jsstring := concat parts.

(** The settled state of an awaited promise. *)
Inductive promise (A E : Type) : Type :=
| Resolved (a : A)
| Rejected (e : E).
Arguments Resolved {A E} a.
Arguments Rejected {A E} e.

(** The Number value for an integer: the nearest double, ties going to the
    even significand of 53 bits; [None] is an infinity. *)
Definition round_to_double (n : Z) : option Z :=
  let a := Z.abs n in
  let k := (Z.log2 a - 52)%Z in
  let r :=
    if (k <=? 0)%Z then a
    else
      let q := Z.shiftr a k in
      let rest := Z.land a (Z.ones k) in
      let half := Z.shiftl 1 (k - 1) in
      let q' :=
        if (half <? rest)%Z || ((rest =? half)%Z && Z.odd q) then (q + 1)%Z else q in
      Z.shiftl q' k in
  if (Z.shiftl 1 1024 <=? r)%Z then None else Some (Z.sgn n * r)%Z.

(** The digits of an integer. *)
Definition decimal (n : Z) : jsstring := lit (NilZero.string_of_int (Z.to_int n)).

(** Whether [c * unit] reads back as the double [x]. *)
Definition reads_back (x c unit : Z) : bool :=
  match round_to_double (c * unit) with
  | Some y => Z.eqb y x
  | None => false
  end.

(** The multiple of [unit] that reads back as [x], if one does: of the two
    around [x] the closer one, the even one when they are as close. *)
Definition candidate (x unit : Z) : option Z :=
  let lo := (x / unit)%Z in
  let hi := (lo + 1)%Z in
  match reads_back x lo unit, reads_back x hi unit with
  | true, true =>
      let below := (x - lo * unit)%Z in
      let above := (hi * unit - x)%Z in
      Some (if (below <? above)%Z then lo
            else if (above <? below)%Z then hi
            else if Z.even lo then lo else hi)
  | true, false => Some lo
  | false, true => Some hi
  | false, false => None
  end.

(** The fewest significant digits that read back as the double [x], which
    has [d] digits: the significand and the number of digits dropped.
    Seventeen digits always suffice for a double. *)
Fixpoint shortest (x : Z) (d : nat) (ks : list nat) : Z * nat :=
  match ks with
  | [] => (x, 0)
  | k :: rest =>
      match candidate x (10 ^ Z.of_nat (d - k)) with
      | Some s => (s, d - k)
      | None => shortest x d rest
      end
  end.

Fixpoint drop_zeros (s : jsstring) : jsstring :=
  match s with
  | [] => []
  | c :: rest => if N.eqb c 48 then drop_zeros rest else s
  end.

(** Number::toString on an integer.  Up to 2^53 every integer is a double
    and its shortest digits are its own.  Above, the shortest digits that
    read back are printed, followed by zeros while the number has at most
    21 digits and in exponent form from 10^21 on. *)
Definition number_to_string (n : Z) : jsstring :=
  if (Z.abs n <=? 2 ^ 53)%Z then decimal n
  else
    let x := Z.abs n in
    let '(s, e) := shortest x (length (decimal x)) (seq 1 17) in
    let point := length (decimal s) + e in
    let ds := rev (drop_zeros (rev (decimal s))) in
    let sign := if (n <? 0)%Z then lit "-" else [] in
    let body :=
      if Nat.leb point 21 then ds ++ replicate (point - length ds) 48%N
      else
        match ds with
        | [] => []
        | c :: [] => c :: lit "e+" ++ decimal (Z.of_nat (point - 1))
        | c :: rest => c :: 46%N :: rest ++ lit "e+" ++ decimal (Z.of_nat (point - 1))
        end in
    sign ++ body.

(** [String(v)] / template-literal conversion.  An array joins its elements
    with commas, [undefined] and [null] elements printing as nothing. *)
Fixpoint join (sep : jsstring) (parts : list jsstring) : jsstring :=
  match parts with
  | [] => []
  | [x] => x
  | x :: rest => x ++ sep ++ join sep rest
  end.

Fixpoint to_string (v : value) : jsstring :=
  match v with
  | Undefined => lit "undefined"
  | Null => lit "null"
  | Bool true => lit "true"
  | Bool false => lit "false"
  | Num n => number_to_string n
  | Str s => s
  | Arr l =>
      join (lit ",")
        (List.map (fun x => match x with
                            | Undefined | Null => []
                            | _ => to_string x
                            end) l)
  | Obj _ => lit "[object Object]"
  end.

(** [v === 'literal'] *)
Definition is_string (v : value) (s : jsstring) : bool :=
  match v with
  | Str x => bool_decide (x = s)
  | _ => false
  end.

(** The value of a digit or letter as [parseInt] reads it. *)
Definition digit_value (c : N) : option N :=
  if N.leb 48 c && N.leb c 57 then Some (c - 48)%N
  else if N.leb 97 c && N.leb c 122 then Some (c - 87)%N
  else if N.leb 65 c && N.leb c 90 then Some (c - 55)%N
  else None.

(** The longest prefix of digits below the radix; [acc] is [None] until a
    digit has been read. *)
Fixpoint digits (radix : N) (s : jsstring) (acc : option N) : option N :=
  match s with
  | [] => acc
  | c :: rest =>
      match digit_value c with
      | Some d =>
          if N.ltb d radix
          then digits radix rest (Some (default 0 acc * radix + d)%N)
          else acc
      | None => acc
      end
  end.

(** What [parseInt] returns: an integer that is a double, an infinity or
    NaN. *)
Inductive number : Type :=
| NaN
| Infinite (negative : bool)
| Integer (n : Z).

(** The Number value for an integer. *)
Definition number_for (z : Z) : number :=
  match round_to_double z with
  | Some r => Integer r
  | None => Infinite (z <? 0)%Z
  end.

(** [parseInt(s)] with no radix: leading white space, a sign, an optional
    [0x] / [0X] prefix, then the digits; the result is the Number value for
    the integer they spell. *)
Definition parseInt (s : jsstring) : number :=
  let s := trimStart s in
  let '(negative, s) :=
    match s with
    | c :: rest =>
        if N.eqb c 45 then (true, rest)
        else if N.eqb c 43 then (false, rest)
        else (false, s)
    | [] => (false, s)
    end in
  let '(radix, s) :=
    match s with
    | c0 :: c1 :: rest =>
        if N.eqb c0 48 && (N.eqb c1 120 || N.eqb c1 88) then (16%N, rest)
        else (10%N, s)
    | _ => (10%N, s)
    end in
  match digits radix s None with
  | Some n => number_for (if negative then (- Z.of_N n)%Z else Z.of_N n)
  | None => NaN
  end.

(** The code units of a printed decimal number. *)
Definition is_decimal (c : N) : bool := N.leb 48 c && N.leb c 57.

(** [v === n] for a Number [n]; NaN equals nothing, and no value here is
    an infinity. *)
Definition is_number (v : value) (n : number) : bool :=
  match v, n with
  | Num a, Integer b => Z.eqb a b
  | _, _ => false
  end.

(** The array index a property key spells, if it is one: a canonical
    numeric string below 2^32 - 1. *)
Definition array_index (k : string) : option N :=
  match lit k with
  | [] => None
  | c :: rest =>
      if forallb is_decimal (c :: rest)
         && (negb (N.eqb c 48) || Nat.eqb (length rest) 0)
      then
        match digits 10 (c :: rest) None with
        | Some n => if N.leb n 4294967294 then Some n else None
        | None => None
        end
      else None
  end.

(** Writing a key that the object has, or a new key that goes last. *)
Fixpoint overwrite (k : string) (v : value) (fields : list (string * value))
    : list (string * value) :=
  match fields with
  | [] => [(k, v)]
  | (k', w) :: rest =>
      if String.eqb k k' then (k, v) :: rest
      else (k', w) :: overwrite k v rest
  end.

(** A new array index goes among the indices, which come first and in
    ascending order. *)
Fixpoint insert_index (i : N) (k : string) (v : value)
    (fields : list (string * value)) : list (string * value) :=
  match fields with
  | [] => [(k, v)]
  | (k', w) :: rest =>
      match array_index k' with
      | Some j =>
          if N.ltb j i then (k', w) :: insert_index i k v rest
          else (k, v) :: fields
      | None => (k, v) :: fields
      end
  end.

(** [{...obj, [k]: v}] on an object with distinct keys: an existing key
    keeps its place and takes the new value; a new key goes last, unless it
    is an array index. *)
Definition set_field (k : string) (v : value) (fields : list (string * value))
    : list (string * value) :=
  match array_index k, field k fields with
  | Some i, None => insert_index i k v fields
  | _, _ => overwrite k v fields
  end.

(** [arr.find(cb)] on a dense array: the first element the callback
    accepts, [undefined] when there is none; a callback that throws
    ([None]) aborts the call. *)
Fixpoint array_find (cb : value -> option bool) (l : list value) : option value :=
  match l with
  | [] => Some Undefined
  | x :: rest =>
      match cb x with
      | None => None
      | Some true => Some x
      | Some false => array_find cb rest
      end
  end.

End Js.
Import Js.

(** ** services/api.js *)

Module Api.

(** What the response interceptor reads of a failed request. *)
Record RequestConfig : Type := { silent : value }.

Record ErrorResponse : Type := { status : Z; data : value }.

Record AxiosError : Type := {
  config : option RequestConfig;
  response : option ErrorResponse
}.

(** The part of the browser the client touches. *)
Record Window : Type := {
  localStorage : gmap jsstring jsstring;
  location_href : jsstring
}.

(** [api.interceptors.response.use(onFulfilled, onRejected)] *)
Definition onFulfilled (response : value) : value := response.

Definition onRejected (error : AxiosError) (w : Window)
    : Window * promise value AxiosError :=
  let config := default {| silent := Undefined |} (config error) in
  let isSilent := match silent config with Bool true => true | _ => false end in
  let status := status <$> response error in
  if bool_decide (status = Some 401%Z) then
    ({| localStorage := delete (lit "auth-storage") (localStorage w);
        location_href := lit "/login" |},
     Rejected error)
  else if isSilent
          && (bool_decide (status = Some 404%Z) || bool_decide (status = Some 400%Z))
  then (w, Rejected error)
  else (w, Rejected error).

(** What the server answers to one request. *)
Inductive reply : Type :=
| Ok (data : value)
| Fail (error : AxiosError).

(** A request as its caller sees it settle, after the response interceptor. *)
Definition settle (r : reply) (w : Window) : Window * promise value AxiosError :=
  match r with
  | Ok d => (w, Resolved (onFulfilled d))
  | Fail e => onRejected e w
  end.

(** What a [catch (err)] clause of a handler can receive. *)
Inductive thrown : Type :=
| AxiosErr (e : AxiosError)
| TypeError.

(** The window as a failed request leaves it: by the time the caller's
    catch clause runs, the response interceptor has handled the error. *)
Definition intercepted (err : thrown) (w : Window) : Window :=
  match err with
  | AxiosErr e => (onRejected e w).1
  | TypeError => w
  end.

(** [err.response?.data?.detail] *)
Definition detail (err : thrown) : value :=
  match err with
  | AxiosErr e =>
      match response e with
      | Some r => get_opt (data r) "detail"
      | None => Undefined
      end
  | TypeError => Undefined
  end.

(** Requests and the other outward effects of a handler, in order. *)
Inductive effect : Type :=
| Get (url : jsstring)
| Post (url : jsstring) (body : value)
| NavigateTo (url : jsstring)
| Alert (msg : jsstring).

Definition is_request (e : effect) : bool :=
  match e with
  | Get _ | Post _ _ => true
  | _ => false
  end.

(** The request interceptor: [JSON_parse] is the platform's [JSON.parse],
    [None] when it throws.  Only the headers of the request config are
    touched. *)
Definition onRequest (JSON_parse : jsstring -> option value) (w : Window)
    (headers : gmap string jsstring) : gmap string jsstring :=
  match localStorage w !! lit "auth-storage" with
  | Some authStorage =>
      if truthy (Str authStorage) then
        match JSON_parse authStorage with
        | Some parsed =>
            match get parsed "token" with
            | Some tok =>
                if truthy tok
                then <["Authorization"%string := lit "Bearer " ++ to_string tok]> headers
                else headers
            | None => headers
            end
        | None => headers
        end
      else headers
  | None => headers
  end.

End Api.

(** ** What the pages do to the browser *)

Module Dom.

(** Requests and the other outward effects of the remaining pages, in
    order.  [PostForm] carries the pairs appended to the [URLSearchParams]
    whose serialization is the body; [Download] stands for the anchor
    element that is created, clicked and removed. *)
Inductive event : Type :=
| Api (e : Api.effect)
| PostForm (url : jsstring) (fields : list (jsstring * jsstring))
| Delete (url : jsstring)
| GetBlob (url : jsstring)
| Download (filename : jsstring) (data : value)
| Confirm (msg : jsstring)
| Warn (args : list value)
| PreventDefault.

Definition is_request (e : event) : bool :=
  match e with
  | Api e => Api.is_request e
  | PostForm _ _ | Delete _ | GetBlob _ => true
  | _ => false
  end.

(** [err.response?.status] *)
Definition status_of (err : Api.thrown) : value :=
  match err with
  | Api.AxiosErr e =>
      match Api.response e with
      | Some r => Num (Api.status r)
      | None => Undefined
      end
  | Api.TypeError => Undefined
  end.

End Dom.

(** ** store/authStore.js *)

Module AuthStore.

Record AuthState : Type := {
  user : value;
  token : value;
  isAuthenticated : value
}.

(** The store, the axios default headers and the (possibly absent) window. *)
Record Client : Type := {
  headers_common : gmap string jsstring;
  auth : AuthState;
  window : option Api.Window
}.

Definition logout (c : Client) : Client :=
  let state := {| user := Null; token := Null; isAuthenticated := Bool false |} in
  {| headers_common := delete "Authorization"%string (headers_common c);
     auth := state;
     window :=
       (fun w => {| Api.localStorage :=
                      delete (lit "auth-storage") (Api.localStorage w);
                    Api.location_href := Api.location_href w |})
       <$> window c |}.

(** The store as [create] builds it. *)
Definition initial : AuthState :=
  {| user := Null; token := Null; isAuthenticated := Bool false |}.

(** zustand's [set(partial)] with an object: its own keys are merged into
    the state.  Of the state only the three data fields are represented;
    the callers here always pass an object. *)
Definition set (partial : value) (a : AuthState) : AuthState :=
  match partial with
  | Obj fields =>
      {| user := default (user a) (field "user" fields);
         token := default (token a) (field "token" fields);
         isAuthenticated := default (isAuthenticated a) (field "isAuthenticated" fields) |}
  | _ => a
  end.

Definition with_header (tok : value) (c : Client) : Client :=
  {| headers_common :=
       <["Authorization"%string := lit "Bearer " ++ to_string tok]> (headers_common c);
     auth := auth c; window := window c |}.

(** The client after a request of its [api] instance has failed. *)
Definition after_failure (err : Api.thrown) (c : Client) : Client :=
  {| headers_common := headers_common c; auth := auth c;
     window := Api.intercepted err <$> window c |}.

(** [login]: [post] and [get] are how the awaited requests settle, should
    [login] reach them; [JSON_stringify] is the platform's.  Returns the
    client it leaves behind, the object it resolves with and the requests
    it issued.  A request that fails has gone through the response
    interceptor before [login] catches the error. *)
Definition login (JSON_stringify : value -> jsstring)
    (username password : jsstring) (c : Client)
    (post get : promise value Api.thrown) : Client * value * list Dom.event :=
  let request :=
    Dom.PostForm (lit "/auth/login")
      [(lit "username", username); (lit "password", password)] in
  let failed err :=
    Obj [("success"%string, Bool false);
         ("error"%string, or_else (Api.detail err) (Str (lit "Login failed")))] in
  match post with
  | Rejected err => (after_failure err c, failed err, [request])
  | Resolved data =>
      match Js.get data "access_token" with
      | None => (c, failed Api.TypeError, [request])
      | Some access_token =>
          let c := with_header access_token c in
          let me := Dom.Api (Api.Get (lit "/auth/me")) in
          match get with
          | Rejected err => (after_failure err c, failed err, [request; me])
          | Resolved userData =>
              let state :=
                Obj [("token"%string, access_token);
                     ("user"%string, userData);
                     ("isAuthenticated"%string, Bool true)] in
              ({| headers_common := headers_common c;
                  auth := set state (auth c);
                  window :=
                    (fun w => {| Api.localStorage :=
                                   <[lit "auth-storage" := JSON_stringify state]>
                                     (Api.localStorage w);
                                 Api.location_href := Api.location_href w |})
                    <$> window c |},
               Obj [("success"%string, Bool true)], [request; me])
          end
      end
  end.

Definition register (userData : value) (post : promise value Api.thrown)
    : value * list Dom.event :=
  let request := Dom.Api (Api.Post (lit "/auth/register") userData) in
  match post with
  | Resolved _ => (Obj [("success"%string, Bool true)], [request])
  | Rejected err =>
      (Obj [("success"%string, Bool false);
            ("error"%string,
             or_else (Api.detail err) (Str (lit "Registration failed")))],
       [request])
  end.

Definition forget_storage (c : Client) : Client :=
  {| headers_common := headers_common c; auth := auth c;
     window :=
       (fun w => {| Api.localStorage :=
                      delete (lit "auth-storage") (Api.localStorage w);
                    Api.location_href := Api.location_href w |})
       <$> window c |}.

(** [initializeAuth]: [JSON_parse] is the platform's, [None] when it
    throws. *)
Definition initializeAuth (JSON_parse : jsstring -> option value) (c : Client)
    : Client :=
  match window c with
  | None => c
  | Some w =>
      match Api.localStorage w !! lit "auth-storage" with
      | Some stored =>
          if truthy (Str stored) then
            match JSON_parse stored with
            | Some state =>
                match Js.get state "token" with
                | Some tok =>
                    if truthy tok then
                      let c := with_header tok c in
                      {| headers_common := headers_common c;
                         auth := set state (auth c); window := window c |}
                    else c
                | None => forget_storage c
                end
            | None => forget_storage c
            end
          else c
      | None => c
      end
  end.

(** Loading the module in a page: a fresh store and fresh default headers,
    then "Initialize auth on load". *)
Definition load (JSON_parse : jsstring -> option value)
    (defaults : gmap string jsstring) (w : option Api.Window) : Client :=
  match w with
  | Some _ =>
      initializeAuth JSON_parse
        {| headers_common := defaults; auth := initial; window := w |}
  | None => {| headers_common := defaults; auth := initial; window := w |}
  end.

End AuthStore.

(** ** components/Navbar.js *)

Module Navbar.

Inductive item : Type :=
| Link (to label : jsstring)
| UserName (shown : value)
| LogoutButton.

(** The target of the logo link. *)
Definition logo (store : AuthStore.AuthState) : jsstring :=
  if truthy (AuthStore.isAuthenticated store) then lit "/dashboard" else lit "/login".

(** The right-hand side of the bar. *)
Definition right (store : AuthStore.AuthState) : list item :=
  if truthy (AuthStore.isAuthenticated store) then
    [ Link (lit "/dashboard") (lit "Dashboard");
      Link (lit "/projects/create") (lit "New Project");
      UserName (or_else (get_opt (AuthStore.user store) "username")
                  (get_opt (AuthStore.user store) "email"));
      LogoutButton ]
  else
    [ Link (lit "/login") (lit "Login");
      Link (lit "/signup") (lit "Sign Up") ].

Definition handleLogout (c : AuthStore.Client) : AuthStore.Client * list Dom.event :=
  (AuthStore.logout c, [Dom.Api (Api.NavigateTo (lit "/login"))]).

End Navbar.

(** ** pages/Login.js *)

Module Login.

Record State : Type := {
  username : jsstring;
  password : jsstring;
  error : value;
  loading : bool
}.

Definition initial : State :=
  {| username := []; password := []; error := Str []; loading := false |}.

Definition setError (e : value) (st : State) : State :=
  {| username := username st; password := password st; error := e;
     loading := loading st |}.

Definition setLoading (b : bool) (st : State) : State :=
  {| username := username st; password := password st; error := error st;
     loading := b |}.

(** [handleSubmit]: [login] is the store's action, given as what calling
    it issues and how it settles. *)
Definition handleSubmit
    (login : jsstring -> jsstring -> promise value Api.thrown * list Dom.event)
    (st : State) : State * list Dom.event :=
  let st := setLoading true (setError (Str []) st) in
  let '(result, issued) := login (username st) (password st) in
  let events := Dom.PreventDefault :: issued in
  let threw :=
    (setLoading false (setError (Str (lit "An error occurred during login")) st),
     events) in
  match result with
  | Resolved r =>
      match Js.get r "success" with
      | Some ok =>
          if truthy ok then
            (setLoading false st,
             events ++ [Dom.Api (Api.NavigateTo (lit "/dashboard"))])
          else
            (setLoading false
               (setError (or_else (get_opt r "error") (Str (lit "Login failed"))) st),
             events)
      | None => threw
      end
  | Rejected _ => threw
  end.

(** The page wired to the store: [handleSubmit] with [AuthStore.login]. *)
Definition submit (JSON_stringify : value -> jsstring) (st : State)
    (c : AuthStore.Client) (post get : promise value Api.thrown)
    : State * AuthStore.Client * list Dom.event :=
  let '(c', r, issued) :=
    AuthStore.login JSON_stringify (username st) (password st) c post get in
  let '(st', events) := handleSubmit (fun _ _ => (Resolved r, issued)) st in
  (st', c', events).

End Login.

(** ** pages/CreateProject.js *)

Module CreateProject.

Record State : Type := {
  formData : list (string * value);
  error : value;
  loading : bool
}.

Definition initial : State :=
  {| formData := [("name"%string, Str []); ("description"%string, Str []);
                  ("project_type"%string, Str (lit "word"))];
     error := Str []; loading := false |}.

Definition setFormData (f : list (string * value)) (st : State) : State :=
  {| formData := f; error := error st; loading := loading st |}.

Definition setError (e : value) (st : State) : State :=
  {| formData := formData st; error := e; loading := loading st |}.

Definition setLoading (b : bool) (st : State) : State :=
  {| formData := formData st; error := error st; loading := b |}.

(** [handleChange]: [name] and [v] are [e.target.name] and
    [e.target.value]. *)
Definition handleChange (name : string) (v : jsstring) (st : State) : State :=
  setFormData (set_field name (Str v) (formData st)) st.

Definition handleSubmit (st : State) (post : promise value Api.thrown)
    : State * list Dom.event :=
  let st := setLoading true (setError (Str []) st) in
  let request := Dom.Api (Api.Post (lit "/projects") (Obj (formData st))) in
  let failed err :=
    (setLoading false
       (setError (or_else (Api.detail err) (Str (lit "Failed to create project"))) st),
     [Dom.PreventDefault; request]) in
  match post with
  | Resolved data =>
      match Js.get data "id" with
      | Some projectId =>
          let target :=
            if is_string (default Undefined (field "project_type" (formData st)))
                 (lit "word")
            then cat [lit "/projects/"; to_string projectId; lit "/word-builder"]
            else cat [lit "/projects/"; to_string projectId; lit "/ppt-builder"] in
          (setLoading false st,
           [Dom.PreventDefault; request; Dom.Api (Api.NavigateTo target)])
      | None => failed Api.TypeError
      end
  | Rejected err => failed err
  end.

End CreateProject.

(** ** pages/ProjectDetail.js *)

Module ProjectDetail.

Record State : Type := {
  project : value;
  sections : value;
  slides : value;
  loading : bool;
  generating : bool;
  error : value
}.

Definition initial : State :=
  {| project := Null; sections := Arr []; slides := Arr []; loading := true;
     generating := false; error := Str [] |}.

Definition setProject (v : value) (st : State) : State :=
  {| project := v; sections := sections st; slides := slides st;
     loading := loading st; generating := generating st; error := error st |}.

Definition setSections (v : value) (st : State) : State :=
  {| project := project st; sections := v; slides := slides st;
     loading := loading st; generating := generating st; error := error st |}.

Definition setSlides (v : value) (st : State) : State :=
  {| project := project st; sections := sections st; slides := v;
     loading := loading st; generating := generating st; error := error st |}.

Definition setLoading (b : bool) (st : State) : State :=
  {| project := project st; sections := sections st; slides := slides st;
     loading := b; generating := generating st; error := error st |}.

Definition setGenerating (b : bool) (st : State) : State :=
  {| project := project st; sections := sections st; slides := slides st;
     loading := loading st; generating := b; error := error st |}.

Definition setError (e : value) (st : State) : State :=
  {| project := project st; sections := sections st; slides := slides st;
     loading := loading st; generating := generating st; error := e |}.

Definition fetchProject (projectId : jsstring) (st : State)
    (get : promise value Api.thrown) : State * list Dom.event :=
  let request := Dom.Api (Api.Get (cat [lit "/projects/"; projectId])) in
  match get with
  | Resolved data => (setLoading false (setProject data st), [request])
  | Rejected _ =>
      (setLoading false (setError (Str (lit "Failed to load project")) st), [request])
  end.

(** [project.project_type]; [project] is truthy where this is read. *)
Definition project_type (st : State) : value := get_opt (project st) "project_type".

(** The catch clause of [fetchContent]: "Only log if it's not a 404 or
    400". *)
Definition warn_unless_expected (err : Api.thrown) : list Dom.event :=
  let status := Dom.status_of err in
  if negb (is_number status (Integer 404%Z)) && negb (is_number status (Integer 400%Z))
  then [Dom.Warn [Str (lit "Failed to fetch content:"); status]]
  else [].

Definition fetchContent (projectId : jsstring) (st : State)
    (get : promise value Api.thrown) : State * list Dom.event :=
  if negb (truthy (project st)) then (st, [])
  else if is_string (project_type st) (lit "word") then
    let request :=
      Dom.Api (Api.Get (cat [lit "/generation/project/"; projectId; lit "/sections"])) in
    match get with
    | Resolved data => (setSections (or_else data (Arr [])) st, [request])
    | Rejected err => (st, request :: warn_unless_expected err)
    end
  else if is_string (project_type st) (lit "powerpoint") then
    let request :=
      Dom.Api (Api.Get (cat [lit "/generation/project/"; projectId; lit "/slides"])) in
    match get with
    | Resolved data => (setSlides (or_else data (Arr [])) st, [request])
    | Rejected err => (st, request :: warn_unless_expected err)
    end
  else (st, []).

Definition handleGenerate (projectId : jsstring) (st : State)
    (post get : promise value Api.thrown) : State * list Dom.event :=
  let st := setGenerating true (setError (Str []) st) in
  let request :=
    Dom.Api
      (Api.Post (cat [lit "/generation/project/"; projectId; lit "/generate"])
         (Obj [("generate_all"%string, Bool true)])) in
  match post with
  | Resolved _ =>
      let '(st, fetched) := fetchContent projectId st get in
      (setGenerating false st, request :: fetched)
  | Rejected err =>
      (setGenerating false
         (setError (or_else (Api.detail err) (Str (lit "Failed to generate content"))) st),
       [request])
  end.

Definition handleExport (projectId : jsstring) (st : State)
    (get : promise value Api.thrown) : State * list Dom.event :=
  let failed := setError (Str (lit "Failed to export document")) st in
  match Js.get (project st) "project_type" with
  | None => (failed, [])
  | Some ty =>
      let word := is_string ty (lit "word") in
      let endpoint :=
        if word then cat [lit "/export/project/"; projectId; lit "/word"]
        else cat [lit "/export/project/"; projectId; lit "/powerpoint"] in
      match get with
      | Resolved data =>
          let filename :=
            cat [to_string (get_opt (project st) "name"); lit ".";
                 if word then lit "docx" else lit "pptx"] in
          (st, [Dom.GetBlob endpoint; Dom.Download filename data])
      | Rejected _ => (failed, [Dom.GetBlob endpoint])
      end
  end.

(** What a content item shows under its title. *)
Inductive body : Type :=
| NotGenerated
| Generated (preview : jsstring) (refine : jsstring).

(** [content ? content.substring(0, 200) + '...' : 'No content generated
    yet']; a TypeError ([None]) on truthy content that is not a string. *)
Definition preview_of (content : value) : option jsstring :=
  if truthy content then
    match content with
    | Str s => Some (take 200 s ++ lit "...")
    | _ => None
    end
  else Some (lit "No content generated yet").

(** The body of one entry of [sections.map] ([kind] is ['section']) or
    [slides.map] (['slide']); [None] when rendering throws. *)
Definition item_body (projectId kind : jsstring) (item : value) : option body :=
  match Js.get item "is_generated" with
  | None => None
  | Some flag =>
      if truthy flag then
        match preview_of (get_opt item "content") with
        | Some preview =>
            Some (Generated preview
                    (cat [lit "/projects/"; projectId; lit "/refine/"; kind; lit "/";
                          to_string (get_opt item "id")]))
        | None => None
        end
      else Some NotGenerated
  end.

End ProjectDetail.

(** ** pages/Dashboard.js *)

Module Dashboard.

Record State : Type := {
  projects : value;
  loading : bool;
  error : value
}.

Definition initial : State :=
  {| projects := Arr []; loading := true; error := Str [] |}.

Definition setProjects (v : value) (st : State) : State :=
  {| projects := v; loading := loading st; error := error st |}.

Definition setLoading (b : bool) (st : State) : State :=
  {| projects := projects st; loading := b; error := error st |}.

Definition setError (e : value) (st : State) : State :=
  {| projects := projects st; loading := loading st; error := e |}.

Definition fetchProjects (st : State) (get : promise value Api.thrown)
    : State * list Dom.event :=
  let request := Dom.Api (Api.Get (lit "/projects")) in
  match get with
  | Resolved data => (setLoading false (setProjects data st), [request])
  | Rejected _ =>
      (setLoading false (setError (Str (lit "Failed to load projects")) st), [request])
  end.

(** [handleDelete]: [confirmed] is what [window.confirm] returns; [del] and
    [get] are how the DELETE and the reload settle. *)
Definition handleDelete (projectId : value) (confirmed : bool) (st : State)
    (del get : promise value Api.thrown) : State * list Dom.event :=
  let asked := Dom.Confirm (lit "Are you sure you want to delete this project?") in
  if negb confirmed then (st, [asked])
  else
    let request := Dom.Delete (cat [lit "/projects/"; to_string projectId]) in
    match del with
    | Resolved _ =>
        let '(st, fetched) := fetchProjects st get in
        (st, asked :: request :: fetched)
    | Rejected _ =>
        (setError (Str (lit "Failed to delete project")) st, [asked; request])
    end.

End Dashboard.

(** ** App.js *)

Module App.

Inductive page : Type :=
| Login | Signup | Dashboard | CreateProject | ProjectDetail
| WordBuilder | PPTBuilder | RefinementEditor.

Inductive element : Type :=
| Page (p : page)
| Navigate (to : jsstring).

Definition PrivateRoute (store : AuthStore.AuthState) (children : element) : element :=
  if truthy (AuthStore.isAuthenticated store) then children
  else Navigate (lit "/login").

(** The [element] prop of a [Route]: given as is, or wrapped. *)
Inductive route_element : Type :=
| Plain (e : element)
| Private (children : element).

Definition routes : list (jsstring * route_element) :=
  [ (lit "/login", Plain (Page Login));
    (lit "/signup", Plain (Page Signup));
    (lit "/dashboard", Private (Page Dashboard));
    (lit "/projects/create", Private (Page CreateProject));
    (lit "/projects/:projectId", Private (Page ProjectDetail));
    (lit "/projects/:projectId/word-builder", Private (Page WordBuilder));
    (lit "/projects/:projectId/ppt-builder", Private (Page PPTBuilder));
    (lit "/projects/:projectId/refine/:type/:id", Private (Page RefinementEditor));
    (lit "/", Plain (Navigate (lit "/dashboard"))) ].

Definition render (store : AuthStore.AuthState) (r : route_element) : element :=
  match r with
  | Plain e => e
  | Private children => PrivateRoute store children
  end.

End App.

(** ** pages/WordBuilder.js *)

Module WordBuilder.

Record State : Type := {
  outline : list (option value);
  context : value;
  error : value;
  saving : bool
}.

(** [useState] initial values. *)
Definition initial : State :=
  {| outline := [Some (Str [])]; context := Str []; error := Str [];
     saving := false |}.

Definition setOutline (o : list (option value)) (st : State) : State :=
  {| outline := o; context := context st; error := error st; saving := saving st |}.

Definition setError (e : value) (st : State) : State :=
  {| outline := outline st; context := context st; error := e; saving := saving st |}.

Definition setSaving (b : bool) (st : State) : State :=
  {| outline := outline st; context := context st; error := error st; saving := b |}.

Definition handleAddSection (st : State) : State :=
  setOutline (dense (spread (outline st) ++ [Str []])) st.

Definition handleRemoveSection (index : nat) (st : State) : State :=
  if Nat.ltb 1 (length (outline st)) then
    match array_filter (fun _ i => Some (negb (Nat.eqb i index))) (outline st) with
    | Some kept => setOutline (dense kept) st
    | None => st
    end
  else st.

Definition handleSectionChange (index : nat) (v : value) (st : State) : State :=
  let newOutline := assign (spread (outline st)) index v in
  setOutline newOutline st.

(** The three handlers that edit the outline, as one user action each. *)
Inductive edit : Type :=
| AddSection
| RemoveSection (index : nat)
| SectionChange (index : nat) (v : value).

Definition apply_edit (st : State) (e : edit) : State :=
  match e with
  | AddSection => handleAddSection st
  | RemoveSection index => handleRemoveSection index st
  | SectionChange index v => handleSectionChange index v st
  end.

(** [s => s.trim() !== ''], a TypeError on anything but a string. *)
Definition not_blank (s : value) (_ : nat) : option bool :=
  match s with
  | Str s => Some (negb (is_empty_string (trim s)))
  | _ => None
  end.

(** [handleSave]: [post] is how the awaited [api.post] settles, should the
    handler reach it.  The third component is how the handler itself
    settles. *)
Definition handleSave (projectId : jsstring) (st : State)
    (post : promise value Api.thrown)
    : State * list Api.effect * promise unit Api.thrown :=
  let st := setSaving true (setError (Str []) st) in
  match array_filter not_blank (outline st) with
  | None => (st, [], Rejected Api.TypeError)
  | Some filteredOutline =>
      if Nat.eqb (length filteredOutline) 0 then
        (setSaving false (setError (Str (lit "Please add at least one section")) st),
         [], Resolved tt)
      else
        let request :=
          Api.Post (cat [lit "/documents/word/"; projectId; lit "/config"])
            (Obj [("outline"%string, Arr filteredOutline);
                  ("context"%string, context st)]) in
        match post with
        | Resolved _ =>
            (setSaving false st,
             [request; Api.NavigateTo (cat [lit "/projects/"; projectId])],
             Resolved tt)
        | Rejected err =>
            (setSaving false
               (setError (or_else (Api.detail err)
                            (Str (lit "Failed to save configuration"))) st),
             [request], Resolved tt)
        end
  end.

(** How the component stands after [fetchConfig]: a state that is not an
    array cannot be rendered ([outline.map] is not a function). *)
Inductive loaded : Type :=
| Rendered (st : State)
| Crashed.

Definition setContext (v : value) (st : State) : State :=
  {| outline := outline st; context := v; error := error st; saving := saving st |}.

(** [fetchConfig]: the catch clause is empty ("Config doesn't exist yet,
    that's okay"). *)
Definition fetchConfig (projectId : jsstring) (st : State)
    (get : promise value Api.thrown) : loaded * list Api.effect :=
  let request := Api.Get (cat [lit "/documents/word/"; projectId; lit "/config"]) in
  match get with
  | Resolved data =>
      match Js.get data "outline" with
      | Some o =>
          let ctx := or_else (get_opt data "context") (Str []) in
          match or_else o (Arr [Str []]) with
          | Arr l => (Rendered (setContext ctx (setOutline (dense l) st)), [request])
          | _ => (Crashed, [request])
          end
      | None => (Rendered st, [request])
      end
  | Rejected _ => (Rendered st, [request])
  end.

(** An edit as the rendered inputs can trigger it: the index is that of a
    rendered row and a changed value is the text of its input. *)
Definition from_inputs (st : State) (e : edit) : Prop :=
  match e with
  | AddSection => True
  | RemoveSection index => index < length (outline st)
  | SectionChange index v => index < length (outline st) /\ exists s, v = Str s
  end.

(** The states the page reaches from its initial state through its
    inputs. *)
Inductive reachable : State -> Prop :=
| reach_initial : reachable initial
| reach_edit (st : State) (e : edit) :
    reachable st -> from_inputs st e -> reachable (apply_edit st e).

End WordBuilder.

(** ** pages/PPTBuilder.js *)

Module PPTBuilder.

Record State : Type := {
  slideTitles : list (option value);
  context : value;
  error : value;
  saving : bool
}.

Definition initial : State :=
  {| slideTitles := [Some (Str [])]; context := Str []; error := Str [];
     saving := false |}.

Definition setSlideTitles (t : list (option value)) (st : State) : State :=
  {| slideTitles := t; context := context st; error := error st; saving := saving st |}.

Definition setError (e : value) (st : State) : State :=
  {| slideTitles := slideTitles st; context := context st; error := e;
     saving := saving st |}.

Definition setSaving (b : bool) (st : State) : State :=
  {| slideTitles := slideTitles st; context := context st; error := error st;
     saving := b |}.

Definition handleAddSlide (st : State) : State :=
  setSlideTitles (dense (spread (slideTitles st) ++ [Str []])) st.

Definition handleRemoveSlide (index : nat) (st : State) : State :=
  if Nat.ltb 1 (length (slideTitles st)) then
    match array_filter (fun _ i => Some (negb (Nat.eqb i index))) (slideTitles st) with
    | Some kept => setSlideTitles (dense kept) st
    | None => st
    end
  else st.

Definition handleSlideChange (index : nat) (v : value) (st : State) : State :=
  let newTitles := assign (spread (slideTitles st)) index v in
  setSlideTitles newTitles st.

Inductive edit : Type :=
| AddSlide
| RemoveSlide (index : nat)
| SlideChange (index : nat) (v : value).

Definition apply_edit (st : State) (e : edit) : State :=
  match e with
  | AddSlide => handleAddSlide st
  | RemoveSlide index => handleRemoveSlide index st
  | SlideChange index v => handleSlideChange index v st
  end.

Definition handleSave (projectId : jsstring) (st : State)
    (post : promise value Api.thrown)
    : State * list Api.effect * promise unit Api.thrown :=
  let st := setSaving true (setError (Str []) st) in
  match array_filter WordBuilder.not_blank (slideTitles st) with
  | None => (st, [], Rejected Api.TypeError)
  | Some filteredTitles =>
      if Nat.eqb (length filteredTitles) 0 then
        (setSaving false (setError (Str (lit "Please add at least one slide")) st),
         [], Resolved tt)
      else
        let request :=
          Api.Post (cat [lit "/documents/powerpoint/"; projectId; lit "/config"])
            (Obj [("slide_titles"%string, Arr filteredTitles);
                  ("context"%string, context st)]) in
        match post with
        | Resolved _ =>
            (setSaving false st,
             [request; Api.NavigateTo (cat [lit "/projects/"; projectId])],
             Resolved tt)
        | Rejected err =>
            (setSaving false
               (setError (or_else (Api.detail err)
                            (Str (lit "Failed to save configuration"))) st),
             [request], Resolved tt)
        end
  end.

Inductive loaded : Type :=
| Rendered (st : State)
| Crashed.

Definition setContext (v : value) (st : State) : State :=
  {| slideTitles := slideTitles st; context := v; error := error st;
     saving := saving st |}.

Definition fetchConfig (projectId : jsstring) (st : State)
    (get : promise value Api.thrown) : loaded * list Api.effect :=
  let request :=
    Api.Get (cat [lit "/documents/powerpoint/"; projectId; lit "/config"]) in
  match get with
  | Resolved data =>
      match Js.get data "slide_titles" with
      | Some o =>
          let ctx := or_else (get_opt data "context") (Str []) in
          match or_else o (Arr [Str []]) with
          | Arr l => (Rendered (setContext ctx (setSlideTitles (dense l) st)), [request])
          | _ => (Crashed, [request])
          end
      | None => (Rendered st, [request])
      end
  | Rejected _ => (Rendered st, [request])
  end.

Definition from_inputs (st : State) (e : edit) : Prop :=
  match e with
  | AddSlide => True
  | RemoveSlide index => index < length (slideTitles st)
  | SlideChange index v => index < length (slideTitles st) /\ exists s, v = Str s
  end.

Inductive reachable : State -> Prop :=
| reach_initial : reachable initial
| reach_edit (st : State) (e : edit) :
    reachable st -> from_inputs st e -> reachable (apply_edit st e).

End PPTBuilder.

(** ** pages/RefinementEditor.js *)

Module RefinementEditor.

(** [useParams()] *)
Record Params : Type := {
  projectId : jsstring;
  type : jsstring;
  id : jsstring
}.

Record State : Type := {
  content : value;
  prompt : jsstring;
  feedback : jsstring;
  comments : jsstring;
  loading : bool;
  saving : bool;
  refining : bool;
  error : value;
  refinements : value;
  revisions : value;
  showRevisions : bool
}.

Definition initial : State :=
  {| content := Str []; prompt := []; feedback := []; comments := [];
     loading := true; saving := false; refining := false; error := Str [];
     refinements := Arr []; revisions := Arr []; showRevisions := false |}.

Definition setContent (v : value) (st : State) : State :=
  {| content := v; prompt := prompt st; feedback := feedback st;
     comments := comments st; loading := loading st; saving := saving st;
     refining := refining st; error := error st; refinements := refinements st;
     revisions := revisions st; showRevisions := showRevisions st |}.

Definition setPrompt (s : jsstring) (st : State) : State :=
  {| content := content st; prompt := s; feedback := feedback st;
     comments := comments st; loading := loading st; saving := saving st;
     refining := refining st; error := error st; refinements := refinements st;
     revisions := revisions st; showRevisions := showRevisions st |}.

Definition setSaving (b : bool) (st : State) : State :=
  {| content := content st; prompt := prompt st; feedback := feedback st;
     comments := comments st; loading := loading st; saving := b;
     refining := refining st; error := error st; refinements := refinements st;
     revisions := revisions st; showRevisions := showRevisions st |}.

Definition setRefining (b : bool) (st : State) : State :=
  {| content := content st; prompt := prompt st; feedback := feedback st;
     comments := comments st; loading := loading st; saving := saving st;
     refining := b; error := error st; refinements := refinements st;
     revisions := revisions st; showRevisions := showRevisions st |}.

Definition setError (e : value) (st : State) : State :=
  {| content := content st; prompt := prompt st; feedback := feedback st;
     comments := comments st; loading := loading st; saving := saving st;
     refining := refining st; error := e; refinements := refinements st;
     revisions := revisions st; showRevisions := showRevisions st |}.

Definition setRefinements (v : value) (st : State) : State :=
  {| content := content st; prompt := prompt st; feedback := feedback st;
     comments := comments st; loading := loading st; saving := saving st;
     refining := refining st; error := error st; refinements := v;
     revisions := revisions st; showRevisions := showRevisions st |}.

Definition setRevisions (v : value) (st : State) : State :=
  {| content := content st; prompt := prompt st; feedback := feedback st;
     comments := comments st; loading := loading st; saving := saving st;
     refining := refining st; error := error st; refinements := refinements st;
     revisions := v; showRevisions := showRevisions st |}.

Definition is_section (p : Params) : bool :=
  bool_decide (type p = lit "section").

Definition refinements_endpoint (p : Params) : jsstring :=
  if is_section p
  then cat [lit "/refinement/section/"; id p; lit "/refinements"]
  else cat [lit "/refinement/slide/"; id p; lit "/refinements"].

Definition refine_endpoint (p : Params) : jsstring :=
  if is_section p
  then cat [lit "/refinement/section/"; id p; lit "/refine"]
  else cat [lit "/refinement/slide/"; id p; lit "/refine"].

(** [fetchRefinements]: the catch clause is empty. *)
Definition fetchRefinements (p : Params) (st : State)
    (get : promise value Api.thrown) : State * list Api.effect :=
  let request := Api.Get (refinements_endpoint p) in
  match get with
  | Resolved data => (setRefinements data st, [request])
  | Rejected _ => (st, [request])
  end.

Definition fetchRevisions (p : Params) (st : State)
    (get : promise value Api.thrown) : State * list Api.effect :=
  let request :=
    Api.Get (cat [lit "/refinement/project/"; projectId p; lit "/revisions"]) in
  match get with
  | Resolved data => (setRevisions data st, [request])
  | Rejected _ => (st, [request])
  end.

(** [handleRefine]: [post] and [get] are how the awaited [api.post] and the
    [api.get] of [fetchRefinements] settle, should the handler reach them. *)
Definition handleRefine (p : Params) (st : State)
    (post get : promise value Api.thrown) : State * list Api.effect :=
  if negb (truthy (Str (trim (prompt st)))) then
    (setError (Str (lit "Please enter a refinement prompt")) st, [])
  else
    let st := setRefining true (setError (Str []) st) in
    let request :=
      Api.Post (refine_endpoint p)
        (Obj [("prompt"%string, Str (prompt st));
              ("content"%string, content st);
              ("feedback"%string, or_else (Str (feedback st)) Null);
              ("comments"%string, or_else (Str (comments st)) Null)]) in
    let failed err :=
      setRefining false
        (setError (or_else (Api.detail err) (Str (lit "Failed to refine content"))) st) in
    match post with
    | Resolved data =>
        match Js.get data "content" with
        | Some c =>
            let '(st, fetched) := fetchRefinements p (setPrompt [] (setContent c st)) get in
            (setRefining false st, request :: fetched)
        | None => (failed Api.TypeError, [request])
        end
    | Rejected err => (failed err, [request])
    end.

Definition handleSave (p : Params) (st : State)
    (post get : promise value Api.thrown) : State * list Api.effect :=
  let st := setSaving true (setError (Str []) st) in
  let request :=
    Api.Post (refine_endpoint p)
      (Obj [("content"%string, content st);
            ("feedback"%string, or_else (Str (feedback st)) Null);
            ("comments"%string, or_else (Str (comments st)) Null)]) in
  match post with
  | Resolved _ =>
      let '(st, fetched) := fetchRefinements p st get in
      (setSaving false st,
       request :: fetched ++ [Api.NavigateTo (cat [lit "/projects/"; projectId p])])
  | Rejected err =>
      (setSaving false
         (setError (or_else (Api.detail err) (Str (lit "Failed to save"))) st),
       [request])
  end.

Definition handleCreateRevision (p : Params) (st : State)
    (post get : promise value Api.thrown) : State * list Api.effect :=
  let request :=
    Api.Post (cat [lit "/refinement/project/"; projectId p; lit "/revision"])
      Undefined in
  match post with
  | Resolved _ =>
      let '(st, fetched) := fetchRevisions p st get in
      (st, request :: fetched ++ [Api.Alert (lit "Revision created successfully")])
  | Rejected _ => (setError (Str (lit "Failed to create revision")) st, [request])
  end.

Definition setLoading (b : bool) (st : State) : State :=
  {| content := content st; prompt := prompt st; feedback := feedback st;
     comments := comments st; loading := b; saving := saving st;
     refining := refining st; error := error st; refinements := refinements st;
     revisions := revisions st; showRevisions := showRevisions st |}.

Definition content_endpoint (p : Params) : jsstring :=
  if is_section p
  then cat [lit "/generation/project/"; projectId p; lit "/sections"]
  else cat [lit "/generation/project/"; projectId p; lit "/slides"].

(** [item => item.id === parseInt(id)] *)
Definition has_id (p : Params) (item : value) : option bool :=
  match Js.get item "id" with
  | Some v => Some (is_number v (parseInt (id p)))
  | None => None
  end.

(** [fetchContent]: anything but an array has no [find]. *)
Definition fetchContent (p : Params) (st : State)
    (get : promise value Api.thrown) : State * list Api.effect :=
  let request := Api.Get (content_endpoint p) in
  let failed := setLoading false (setError (Str (lit "Failed to load content")) st) in
  match get with
  | Resolved (Arr l) =>
      match array_find (has_id p) l with
      | Some item =>
          if truthy item
          then (setLoading false
                  (setContent (or_else (get_opt item "content") (Str [])) st),
                [request])
          else (setLoading false st, [request])
      | None => (failed, [request])
      end
  | Resolved _ => (failed, [request])
  | Rejected _ => (failed, [request])
  end.

End RefinementEditor.

(** ** The refinement / revision subsystem (server side)

    Modelled from the spec: the server (backend/app/api/v1/endpoints/
    refinement.py, generation.py, documents.py and the database models) is
    not among the sources; its data model and operations follow sections 3
    and 4 of the written specification. *)

Module Backend.

Definition text : Type := jsstring.

Inductive ProjectType : Type := word | powerpoint.

Inductive Feedback : Type := none | like | dislike.

Inductive Error : Type :=
| NotFound | Forbidden | ValidationError | GenerationFailed | ConflictError.

Inductive result (A : Type) : Type :=
| Success (a : A)
| Failure (e : Error).
Arguments Success {A} a.
Arguments Failure {A} e.

(** Modelled from the spec: the records of the data model (section 3). *)
Record Project : Type := {
  name : text;
  description : text;
  project_type : ProjectType;
  owner : nat
}.

Record ContentItem : Type := {
  item_id : nat;
  project_id : nat;
  ordinal : nat;
  title : text;
  content : option text;
  is_generated : bool
}.

Record RefinementRecord : Type := {
  refinement_id : nat;
  content_item_id : nat;
  created_at : nat;
  prompt : option text;
  feedback : Feedback;
  comments : option text
}.

Record Revision : Type := {
  revision_project : nat;
  revision_number : nat;
  revision_created_at : nat;
  created_by : nat;
  snapshot : list (text * option text)
}.

Record Configuration : Type := {
  titles : list text;
  context : text
}.

(** Modelled from the spec: the persistent state behind the Content Store,
    the Refinement Log, the Revision Snapshotter and the Document
    Configuration store.  Tables are keyed by id; the two append-only logs
    are kept in insertion order. *)
Record Store : Type := {
  projects : gmap nat Project;
  configurations : gmap nat Configuration;
  items : gmap nat ContentItem;
  refinements : list RefinementRecord;
  revisions : list Revision;
  next_id : nat
}.

Definition empty_store : Store :=
  {| projects := ∅; configurations := ∅; items := ∅; refinements := [];
     revisions := []; next_id := 1 |}.

Definition set_items (m : gmap nat ContentItem) (s : Store) : Store :=
  {| projects := projects s; configurations := configurations s; items := m;
     refinements := refinements s; revisions := revisions s;
     next_id := next_id s |}.

(** Modelled from the spec: the external text-generation capability,
    [generate(prompt, context?) -> text] or a failure ([None]).  Its two
    uses are told apart by the inputs the spec lists for each. *)
Inductive GenInput : Type :=
| GenItem (item_title project_context : text) (ty : ProjectType)
| GenRefine (current_content refinement_prompt : text).

Definition Generator : Type := GenInput -> option text.

(** Modelled from the spec: [NotFound] when the project does not exist,
    [Forbidden] when the caller does not own it. *)
Definition authorize (caller pid : nat) (s : Store) : result Project :=
  match projects s !! pid with
  | None => Failure NotFound
  | Some p => if Nat.eqb (owner p) caller then Success p else Failure Forbidden
  end.

(** Modelled from the spec: content is "text, nullable until generated";
    it is empty while it is null or the empty text. *)
Definition has_content (c : option text) : bool :=
  match c with
  | Some (_ :: _) => true
  | _ => false
  end.

(** Modelled from the spec: the write of 4.1.  "Side effect of set_content:
    is_generated becomes true if content is non-empty"; nothing is said to
    reset the flag, so an empty text leaves it as it is. *)
Definition with_content (txt : text) (it : ContentItem) : ContentItem :=
  {| item_id := item_id it; project_id := project_id it; ordinal := ordinal it;
     title := title it; content := Some txt;
     is_generated := is_generated it || has_content (Some txt) |}.

(** Modelled from the spec: the write of the Generation Orchestrator
    (section 3), which "sets content, is_generated=true". *)
Definition generated_with (txt : text) (it : ContentItem) : ContentItem :=
  {| item_id := item_id it; project_id := project_id it; ordinal := ordinal it;
     title := title it; content := Some txt; is_generated := true |}.

Definition by_ordinal (a b : ContentItem) : Prop := ordinal a <= ordinal b.

#[global] Instance by_ordinal_dec : RelDecision by_ordinal :=
  fun a b => decide (ordinal a <= ordinal b).

Definition items_of (pid : nat) (s : Store) : list ContentItem :=
  merge_sort by_ordinal
    (List.filter (fun it => Nat.eqb (project_id it) pid)
       (snd <$> map_to_list (items s))).

(** Modelled from the spec: [get_items(project_id)], ordered by ordinal. *)
Definition get_items (caller pid : nat) (s : Store) : result (list ContentItem) :=
  match authorize caller pid s with
  | Failure e => Failure e
  | Success _ => Success (items_of pid s)
  end.

(** Modelled from the spec: [get_item(project_id, item_id)]. *)
Definition get_item (caller pid id : nat) (s : Store) : result ContentItem :=
  match authorize caller pid s with
  | Failure e => Failure e
  | Success _ =>
      match items s !! id with
      | Some it => if Nat.eqb (project_id it) pid then Success it else Failure NotFound
      | None => Failure NotFound
      end
  end.

(** Modelled from the spec: [set_content(item_id, text)]. *)
Definition set_content (caller id : nat) (txt : text) (s : Store)
    : result (ContentItem * Store) :=
  match items s !! id with
  | None => Failure NotFound
  | Some it =>
      match authorize caller (project_id it) s with
      | Failure e => Failure e
      | Success _ =>
          let it' := with_content txt it in
          Success (it', set_items (<[id := it']> (items s)) s)
      end
  end.

(** Modelled from the spec: [save_outline(project_id, titles, context)] of
    the Document Configuration store; an empty outline is a
    [ValidationError]. *)
Definition save_outline (caller pid : nat) (ts : list text) (ctx : text)
    (s : Store) : result Store :=
  match authorize caller pid s with
  | Failure e => Failure e
  | Success _ =>
      match ts with
      | [] => Failure ValidationError
      | _ =>
          Success
            {| projects := projects s;
               configurations :=
                 <[pid := {| titles := ts; context := ctx |}]> (configurations s);
               items := items s; refinements := refinements s;
               revisions := revisions s; next_id := next_id s |}
      end
  end.

(** Modelled from the spec: items are "unique per (project, ordinal)". *)
Definition find_item (pid ord : nat) (s : Store) : option ContentItem :=
  List.find (fun it => Nat.eqb (project_id it) pid && Nat.eqb (ordinal it) ord)
    (snd <$> map_to_list (items s)).

(** Modelled from the spec: 4.2 "Writes the returned text into the Content
    Store for that item's ordinal, creating the Content Item if it does not
    yet exist"; the item is left generated (section 3). *)
Definition write_item (pid ord : nat) (ttl txt : text) (s : Store) : Store :=
  match find_item pid ord s with
  | Some it => set_items (<[item_id it := generated_with txt it]> (items s)) s
  | None =>
      let it :=
        generated_with txt
          {| item_id := next_id s; project_id := pid; ordinal := ord;
             title := ttl; content := None; is_generated := false |} in
      {| projects := projects s; configurations := configurations s;
         items := <[next_id s := it]> (items s);
         refinements := refinements s; revisions := revisions s;
         next_id := S (next_id s) |}
  end.

(** Modelled from the spec: one configured item of a generation batch
    (4.2), generated "if generate_all is true or the item has no content
    yet".  The calls made so far, the per-item success map and the store
    are threaded through. *)
Definition generate_item (llm : Generator) (p : Project) (pid : nat)
    (ctx : text) (generate_all : bool)
    (acc : list GenInput * list (nat * bool) * Store) (entry : nat * text)
    : list GenInput * list (nat * bool) * Store :=
  let '(calls, report, s) := acc in
  let '(ord, ttl) := entry in
  if generate_all || negb (has_content (find_item pid ord s ≫= content)) then
    let request := GenItem ttl ctx (project_type p) in
    match llm request with
    | Some txt =>
        (calls ++ [request], report ++ [(ord, true)], write_item pid ord ttl txt s)
    | None => (calls ++ [request], report ++ [(ord, false)], s)
    end
  else acc.

(** Modelled from the spec: [generate(project_id, generate_all)].  A failed
    item does not abort the batch.  Returns the generation calls made and
    the per-item success map. *)
Definition generate (caller pid : nat) (generate_all : bool) (llm : Generator)
    (s : Store) : list GenInput * result (list (nat * bool) * Store) :=
  match authorize caller pid s with
  | Failure e => ([], Failure e)
  | Success p =>
      match configurations s !! pid with
      | None => ([], Failure ValidationError)
      | Some cfg =>
          let '(calls, report, s') :=
            fold_left (generate_item llm p pid (context cfg) generate_all)
              (imap (fun i ttl => (i, ttl)) (titles cfg)) ([], [], s) in
          (calls, Success (report, s'))
      end
  end.

(** Modelled from the spec: the Refinement Log is append-only. *)
Definition append_refinement (r : RefinementRecord) (s : Store) : Store :=
  {| projects := projects s; configurations := configurations s;
     items := items s; refinements := refinements s ++ [r];
     revisions := revisions s; next_id := S (next_id s) |}.

(** Modelled from the spec: the common tail of [refine], "update Content
    Item's content via 4.1, then append a new Refinement Record" with the
    caller's prompt, feedback and comments. *)
Definition write_and_log (caller id : nat) (prompt_ : option text)
    (feedback_ : option Feedback) (comments_ : option text) (now : nat)
    (txt : text) (s : Store) : result (ContentItem * RefinementRecord * Store) :=
  match set_content caller id txt s with
  | Failure e => Failure e
  | Success (it', s') =>
      let r :=
        {| refinement_id := next_id s'; content_item_id := id;
           created_at := now; prompt := prompt_;
           feedback := default none feedback_; comments := comments_ |} in
      Success (it', r, append_refinement r s')
  end.

(** Modelled from the spec: [refine(content_item_id, prompt?, content?,
    feedback?, comments?)].  With a prompt the new text comes from the
    generation capability; without one the caller's content is taken as it
    is and nothing is generated; with neither, an item that has content
    keeps it (only feedback and comments are logged) and an empty one is a
    [ValidationError].  Returns the generation calls made. *)
Definition refine (caller id : nat) (prompt_ content_ : option text)
    (feedback_ : option Feedback) (comments_ : option text) (now : nat)
    (llm : Generator) (s : Store)
    : list GenInput * result (ContentItem * RefinementRecord * Store) :=
  match items s !! id with
  | None => ([], Failure NotFound)
  | Some it =>
      match authorize caller (project_id it) s with
      | Failure e => ([], Failure e)
      | Success _ =>
          let finish := write_and_log caller id prompt_ feedback_ comments_ now in
          match prompt_ with
          | Some p =>
              let request := GenRefine (default [] (content it)) p in
              match llm request with
              | Some txt => ([request], finish txt s)
              | None => ([request], Failure GenerationFailed)
              end
          | None =>
              match content_ with
              | Some c => ([], finish c s)
              | None =>
                  if has_content (content it)
                  then ([], finish (default [] (content it)) s)
                  else ([], Failure ValidationError)
              end
          end
      end
  end.

(** Modelled from the spec: [list_refinements(content_item_id)], oldest
    first. *)
Definition list_refinements (caller id : nat) (s : Store)
    : result (list RefinementRecord) :=
  match items s !! id with
  | None => Failure NotFound
  | Some it =>
      match authorize caller (project_id it) s with
      | Failure e => Failure e
      | Success _ =>
          Success (List.filter (fun r => Nat.eqb (content_item_id r) id) (refinements s))
      end
  end.

Definition by_number (a b : Revision) : Prop :=
  revision_number a <= revision_number b.

#[global] Instance by_number_dec : RelDecision by_number :=
  fun a b => decide (revision_number a <= revision_number b).

(** Modelled from the spec: the Revision records of a project, in the
    order they were created. *)
Definition revisions_of (pid : nat) (s : Store) : list Revision :=
  List.filter (fun r => Nat.eqb (revision_project r) pid) (revisions s).

Definition revision_numbers (pid : nat) (s : Store) : list nat :=
  revision_number <$> revisions_of pid s.

(** Modelled from the spec: [create_revision(project_id, actor)].  The
    number is "max(existing revision_numbers for project) + 1 (1 if none
    exist)"; assignment and insert are one atomic step. *)
Definition create_revision (actor pid : nat) (now : nat) (s : Store)
    : result (Revision * Store) :=
  match get_items actor pid s with
  | Failure e => Failure e
  | Success its =>
      let existing := revision_numbers pid s in
      let number :=
        match existing with
        | [] => 1
        | _ => max_list existing + 1
        end in
      let rev :=
        {| revision_project := pid; revision_number := number;
           revision_created_at := now; created_by := actor;
           snapshot := (fun it => (title it, content it)) <$> its |} in
      Success
        (rev,
         {| projects := projects s; configurations := configurations s;
            items := items s; refinements := refinements s;
            revisions := revisions s ++ [rev]; next_id := next_id s |})
  end.

(** Modelled from the spec: [list_revisions(project_id)], by revision
    number ascending. *)
Definition list_revisions (caller pid : nat) (s : Store) : result (list Revision) :=
  match authorize caller pid s with
  | Failure e => Failure e
  | Success _ =>
      Success
        (merge_sort by_number (revisions_of pid s))
  end.

(** Modelled from the spec: fetching one revision of a project by its
    number, [NotFound] for a missing revision. *)
Definition get_revision (caller pid number : nat) (s : Store) : result Revision :=
  match list_revisions caller pid s with
  | Failure e => Failure e
  | Success revs =>
      match List.find (fun r => Nat.eqb (revision_number r) number) revs with
      | Some r => Success r
      | None => Failure NotFound
      end
  end.

(** Modelled from the spec: project creation and deletion; deleting a
    project "cascades to its Content Items and Revisions". *)
Definition create_project (caller : nat) (nm descr : text) (ty : ProjectType)
    (s : Store) : nat * Store :=
  (next_id s,
   {| projects :=
        <[next_id s := {| name := nm; description := descr; project_type := ty;
                          owner := caller |}]> (projects s);
      configurations := configurations s; items := items s;
      refinements := refinements s; revisions := revisions s;
      next_id := S (next_id s) |}).

Definition delete_project (caller pid : nat) (s : Store) : result Store :=
  match authorize caller pid s with
  | Failure e => Failure e
  | Success _ =>
      Success
        {| projects := delete pid (projects s);
           configurations := delete pid (configurations s);
           items := filter (fun kv => project_id kv.2 <> pid) (items s);
           refinements := refinements s;
           revisions :=
             List.filter (fun r => negb (Nat.eqb (revision_project r) pid))
               (revisions s);
           next_id := next_id s |}
  end.

(** Modelled from the spec: the requests of the HTTP surface (section 6)
    that touch the subsystem; each "runs to completion" against the store,
    so a concurrent execution is some sequence of them. *)
Inductive Op : Type :=
| CreateProject (caller : nat) (nm descr : text) (ty : ProjectType)
| DeleteProject (caller pid : nat)
| SaveOutline (caller pid : nat) (ts : list text) (ctx : text)
| Generate (caller pid : nat) (generate_all : bool) (llm : Generator)
| SetContent (caller id : nat) (txt : text)
| Refine (caller id : nat) (prompt_ content_ : option text)
    (feedback_ : option Feedback) (comments_ : option text) (now : nat)
    (llm : Generator)
| CreateRevision (actor pid : nat) (now : nat).

(** The store after one request; a failed request leaves it as it was. *)
Definition step (s : Store) (op : Op) : Store :=
  match op with
  | CreateProject caller nm descr ty => (create_project caller nm descr ty s).2
  | DeleteProject caller pid =>
      match delete_project caller pid s with Success s' => s' | Failure _ => s end
  | SaveOutline caller pid ts ctx =>
      match save_outline caller pid ts ctx s with Success s' => s' | Failure _ => s end
  | Generate caller pid generate_all llm =>
      match (generate caller pid generate_all llm s).2 with
      | Success (_, s') => s'
      | Failure _ => s
      end
  | SetContent caller id txt =>
      match set_content caller id txt s with Success (_, s') => s' | Failure _ => s end
  | Refine caller id prompt_ content_ feedback_ comments_ now llm =>
      match (refine caller id prompt_ content_ feedback_ comments_ now llm s).2 with
      | Success (_, _, s') => s'
      | Failure _ => s
      end
  | CreateRevision actor pid now =>
      match create_revision actor pid now s with Success (_, s') => s' | Failure _ => s end
  end.

(** The store after a sequence of requests, handled in order. *)
Definition run (ops : list Op) (s : Store) : Store := fold_left step ops s.

(** *** Invariants of the store *)

(** The tables a content write leaves alone. *)
Definition same_logs (s s' : Store) : Prop :=
  projects s' = projects s /\ revisions s' = revisions s
  /\ next_id s <= next_id s'.

(** How one request changes the projects table, the revision log and the
    id counter. *)
Inductive log_change (s s' : Store) : Prop :=
| change_none : same_logs s s' -> log_change s s'
| change_project (caller : nat) (p : Project) :
    projects s' = <[next_id s := p]> (projects s) ->
    revisions s' = revisions s ->
    next_id s' = S (next_id s) ->
    log_change s s'
| change_delete (pid : nat) :
    is_Some (projects s !! pid) ->
    projects s' = delete pid (projects s) ->
    revisions s'
    = List.filter (fun r => negb (Nat.eqb (revision_project r) pid)) (revisions s) ->
    next_id s' = next_id s ->
    log_change s s'
| change_revision (actor pid now : nat) (rev : Revision) :
    create_revision actor pid now s = Success (rev, s') ->
    log_change s s'.

(** The revisions of every project are numbered 1, 2, 3, ... in the order
    they were created. *)
Definition numbered (s : Store) : Prop :=
  forall pid, revision_numbers pid s = seq 1 (length (revisions_of pid s)).

(** Ids handed out so far lie below the counter. *)
Definition fresh_ids (s : Store) : Prop :=
  forall pid, is_Some (projects s !! pid) -> pid < next_id s.

(** A revision of a project is kept for as long as its project exists. *)
Definition kept_revision (pid : nat) (p : Project) (rev : Revision) (s : Store)
    : Prop :=
  fresh_ids s /\ pid < next_id s
  /\ (projects s !! pid = None
      \/ (projects s !! pid = Some p /\ In rev (revisions s))).


End Backend.

(** ** The requests the handlers are to send *)

(** A title that is not blank after trimming. *)
Definition non_blank (s : jsstring) : bool := negb (is_empty_string (trim s)).

(** The configuration POST of each builder, for the titles it keeps. *)
Definition word_config_request (projectId : jsstring) (kept : list jsstring)
    (ctx : value) : Api.effect :=
  Api.Post (cat [lit "/documents/word/"; projectId; lit "/config"])
    (Obj [("outline"%string, Arr (Str <$> kept)); ("context"%string, ctx)]).

Definition ppt_config_request (projectId : jsstring) (kept : list jsstring)
    (ctx : value) : Api.effect :=
  Api.Post (cat [lit "/documents/powerpoint/"; projectId; lit "/config"])
    (Obj [("slide_titles"%string, Arr (Str <$> kept)); ("context"%string, ctx)]).

(** The refine POST of the AI-refinement path. *)
Definition refine_request (p : RefinementEditor.Params)
    (st : RefinementEditor.State) : Api.effect :=
  Api.Post (RefinementEditor.refine_endpoint p)
    (Obj [("prompt"%string, Str (RefinementEditor.prompt st));
          ("content"%string, RefinementEditor.content st);
          ("feedback"%string, or_else (Str (RefinementEditor.feedback st)) Null);
          ("comments"%string, or_else (Str (RefinementEditor.comments st)) Null)]).

(** The body of the refine POST of the manual-edit path. *)
Definition save_fields (st : RefinementEditor.State) : list (string * value) :=
  [("content"%string, RefinementEditor.content st);
   ("feedback"%string, or_else (Str (RefinementEditor.feedback st)) Null);
   ("comments"%string, or_else (Str (RefinementEditor.comments st)) Null)].

(** The requests of the project page. *)
Definition sections_request (projectId : jsstring) : Dom.event :=
  Dom.Api (Api.Get (cat [lit "/generation/project/"; projectId; lit "/sections"])).

Definition slides_request (projectId : jsstring) : Dom.event :=
  Dom.Api (Api.Get (cat [lit "/generation/project/"; projectId; lit "/slides"])).

Definition generate_request (projectId : jsstring) : Dom.event :=
  Dom.Api
    (Api.Post (cat [lit "/generation/project/"; projectId; lit "/generate"])
       (Obj [("generate_all"%string, Bool true)])).

(** The Authorization header for a token. *)
Definition bearer (tok : value) : jsstring := lit "Bearer " ++ to_string tok.

(** The window once the response interceptor has handled a 401: the stored
    session is gone and the browser is sent to the login page. *)
Definition redirected (w : Api.Window) : Api.Window :=
  {| Api.localStorage := delete (lit "auth-storage") (Api.localStorage w);
     Api.location_href := lit "/login" |}.

(** The state object that [login] stores and persists. *)
Definition login_state (tok u : value) : value :=
  Obj [("token"%string, tok); ("user"%string, u); ("isAuthenticated"%string, Bool true)].

Definition login_request (username password : jsstring) : Dom.event :=
  Dom.PostForm (lit "/auth/login")
    [(lit "username", username); (lit "password", password)].

(** The keys of an object, in order. *)
Definition keys (fields : list (string * value)) : list string := fst <$> fields.

(** One change event of the project form: the input's name and its text. *)
Definition type_in (st : CreateProject.State) (entry : string * jsstring)
    : CreateProject.State :=
  CreateProject.handleChange entry.1 entry.2 st.

(** The names of the inputs of the project form. *)
Definition form_keys : list string :=
  ["name"%string; "description"%string; "project_type"%string].

(** ** Scenarios *)

Module Scenario.

(** A window with a stored session, on some page of the application. *)
Definition signed_in_window : Api.Window :=
  {| Api.localStorage := {[ lit "auth-storage" := lit "{}" ]};
     Api.location_href := lit "/dashboard" |}.

Definition error_with (flag : value) (code : Z) : Api.AxiosError :=
  {| Api.config := Some {| Api.silent := flag |};
     Api.response := Some {| Api.status := code; Api.data := Null |} |}.

(** A signed-in client. *)
Definition signed_in_client : AuthStore.Client :=
  {| AuthStore.headers_common :=
       {[ "Authorization"%string := lit "Bearer t";
          "Accept"%string := lit "application/json" ]};
     AuthStore.auth := {| AuthStore.user := Obj [("username"%string, Str (lit "ann"))];
                AuthStore.token := Str (lit "t"); AuthStore.isAuthenticated := Bool true |};
     AuthStore.window := Some signed_in_window |}.

(** The editor of section 2 of project 1. *)
Definition section_params : RefinementEditor.Params :=
  {| RefinementEditor.projectId := lit "1"; RefinementEditor.type := lit "section";
     RefinementEditor.id := lit "2" |}.

Definition editor_with (text_ prompt_ feedback_ : string) : RefinementEditor.State :=
  RefinementEditor.setContent (Str (lit text_))
    {| RefinementEditor.content := Str []; RefinementEditor.prompt := lit prompt_;
       RefinementEditor.feedback := lit feedback_; RefinementEditor.comments := [];
       RefinementEditor.loading := false; RefinementEditor.saving := false;
       RefinementEditor.refining := false; RefinementEditor.error := Str [];
       RefinementEditor.refinements := Arr []; RefinementEditor.revisions := Arr [];
       RefinementEditor.showRevisions := false |}.

Definition word_outline (titles : list string) : WordBuilder.State :=
  WordBuilder.setOutline (dense (Str <$> (lit <$> titles))) WordBuilder.initial.

Definition ppt_titles (titles : list string) : PPTBuilder.State :=
  PPTBuilder.setSlideTitles (dense (Str <$> (lit <$> titles))) PPTBuilder.initial.

(** A generator for tests: "<title> content" for an item, "shortened: " in
    front of the current content for a refinement. *)
Definition mock : Backend.Generator :=
  fun input =>
    match input with
    | Backend.GenItem ttl _ _ => Some (ttl ++ lit " content")
    | Backend.GenRefine current _ => Some (lit "shortened: " ++ current)
    end.

(** A generator that answers with the empty text. *)
Definition mute : Backend.Generator := fun _ => Some [].

(** User 7 creates project 1, a Word document with three sections, and
    generates all of them (items 2, 3, 4). *)
Definition setup (llm : Backend.Generator) : list Backend.Op :=
  [ Backend.CreateProject 7 (lit "Report") [] Backend.word;
    Backend.SaveOutline 7 1 [lit "Intro"; lit "Body"; lit "Conclusion"] [];
    Backend.Generate 7 1 true llm ].

(** Later edits: an AI refinement of item 2, a manual clearing of item 3,
    another revision, and a second project. *)
Definition edits : list Backend.Op :=
  [ Backend.Refine 7 2 (Some (lit "shorten")) None None None 6 mock;
    Backend.SetContent 7 3 [];
    Backend.CreateRevision 7 1 8;
    Backend.CreateProject 9 (lit "Deck") [] Backend.powerpoint ].

(** Project pages with a project loaded. *)
Definition word_project : ProjectDetail.State :=
  ProjectDetail.setProject (Obj [("name"%string, Str (lit "Report"));
                   ("project_type"%string, Str (lit "word"))]) ProjectDetail.initial.

Definition other_project : ProjectDetail.State :=
  ProjectDetail.setProject (Obj [("name"%string, Str (lit "Sheet"));
                   ("project_type"%string, Str (lit "excel"))]) ProjectDetail.initial.

(** A stand-in for the platform's JSON functions that knows one session
    text and the text of [null]. *)
Definition ann : value := Obj [("username"%string, Str (lit "ann"))].

Definition stringify_sample (v : value) : jsstring := lit "<session of ann>".

Definition parse_sample (s : jsstring) : option value :=
  if bool_decide (s = lit "<session of ann>") then Some (login_state (Str (lit "t")) ann)
  else if bool_decide (s = lit "null") then Some Null
  else if bool_decide (s = lit "<token only>")
       then Some (Obj [("token"%string, Str (lit "t"))])
  else None.

Definition window_storing (text_ : string) : Api.Window :=
  {| Api.localStorage := {[ lit "auth-storage" := lit text_ ]};
     Api.location_href := lit "/dashboard" |}.

(** A client just loaded, signed out, in a browser with empty storage. *)
Definition fresh_client : AuthStore.Client :=
  {| AuthStore.headers_common := {[ "Accept"%string := lit "application/json" ]};
     AuthStore.auth := AuthStore.initial;
     AuthStore.window :=
       Some {| Api.localStorage := ∅; Api.location_href := lit "/login" |} |}.

Definition token_reply : value := Obj [("access_token"%string, Str (lit "t"))].

End Scenario.

(** * Properties *)

(** ** Strings and arrays *)

Section JsFacts.

Lemma trimStart_nil_iff (s : jsstring) :
  trimStart s = [] <-> forallb is_trimmed s = true.
Proof.
  induction s as [|c s IH]; simpl; [tauto|].
  destruct (is_trimmed c); simpl; [exact IH|].
  split; discriminate.
Qed.

Lemma trimStart_suffix (s : jsstring) :
  exists pre, s = pre ++ trimStart s /\ forallb is_trimmed pre = true.
Proof.
  induction s as [|c s [pre [E F]]]; simpl.
  - exists []. auto.
  - destruct (is_trimmed c) eqn:Hc.
    + exists (c :: pre). simpl. rewrite Hc, F. split; [congruence | reflexivity].
    + exists []. auto.
Qed.

(** A string trims to the empty string exactly when every code unit of it
    is white space or a line terminator. *)
Lemma trim_nil_iff (s : jsstring) :
  trim s = [] <-> forallb is_trimmed s = true.
Proof.
  unfold trim, trimEnd. split.
  - intros H.
    assert (Hr : trimStart (rev (trimStart s)) = []).
    { apply (f_equal (@rev N)) in H. rewrite rev_involutive in H. exact H. }
    apply trimStart_nil_iff in Hr.
    destruct (trimStart_suffix s) as [pre [E F]].
    rewrite E, forallb_app, F. simpl.
    rewrite forallb_forall in Hr. apply forallb_forall.
    intros x Hx. apply Hr. apply in_rev. rewrite rev_involutive. exact Hx.
  - intros H. apply trimStart_nil_iff in H. rewrite H. reflexivity.
Qed.

Lemma truthy_trim (s : jsstring) :
  truthy (Str (trim s)) = false <-> trim s = [].
Proof. simpl. destruct (trim s); simpl; split; congruence. Qed.

Lemma length_spread (arr : list (option value)) :
  length (spread arr) = length arr.
Proof. unfold spread. apply length_map. Qed.

Lemma length_dense (l : list value) : length (dense l) = length l.
Proof. unfold dense. apply length_map. Qed.

(** Assignment never shrinks the array and leaves at least one entry. *)
Lemma length_assign (l : list value) (i : nat) (v : value) :
  length (assign l i v) = Nat.max (length l) (S i).
Proof.
  unfold assign. destruct (Nat.ltb_spec i (length l)).
  - rewrite length_insert, length_dense. lia.
  - rewrite !length_app, length_replicate, length_dense. simpl. lia.
Qed.

Lemma present_dense (l : list value) : present (dense l) = length l.
Proof.
  unfold present, dense. induction l; simpl; [reflexivity|]. now rewrite IHl.
Qed.

Lemma present_app (a b : list (option value)) :
  present (a ++ b) = present a + present b.
Proof. unfold present. now rewrite List.filter_app, length_app. Qed.

Lemma present_le_length (arr : list (option value)) : present arr <= length arr.
Proof. unfold present. apply List.filter_length_le. Qed.

Lemma present_cons (e : option value) (arr : list (option value)) :
  present (e :: arr) = match e with Some _ => 1 | None => 0 end + present arr.
Proof. unfold present. destruct e; reflexivity. Qed.

(** Past the removed index, removal by index keeps every present entry. *)
Lemma filter_from_remove_after (index : nat) (arr : list (option value)) :
  forall i, index < i ->
    exists kept,
      filter_from (fun _ j => Some (negb (Nat.eqb j index))) i arr = Some kept
      /\ length kept = present arr.
Proof.
  induction arr as [|e arr IH]; intros i Hi; simpl.
  - exists []. auto.
  - destruct (IH (S i)) as [kept [E L]]; [lia|].
    rewrite present_cons. destruct e as [v|].
    + rewrite E. replace (Nat.eqb i index) with false
        by (symmetry; apply Nat.eqb_neq; lia).
      exists (v :: kept). simpl. auto.
    + exists kept. auto.
Qed.

(** Removal by index drops at most one of the entries that are present. *)
Lemma filter_from_remove (index : nat) (arr : list (option value)) :
  forall i,
    exists kept,
      filter_from (fun _ j => Some (negb (Nat.eqb j index))) i arr = Some kept
      /\ present arr <= S (length kept) /\ length kept <= present arr.
Proof.
  induction arr as [|e arr IH]; intros i; simpl.
  - exists []. unfold present. simpl. auto.
  - rewrite present_cons. destruct e as [v|].
    + destruct (Nat.eqb_spec i index) as [->|Hne]; simpl.
      * destruct (filter_from_remove_after index arr (S index)) as [kept [E L]];
          [lia|].
        rewrite E. exists kept. split; [reflexivity | lia].
      * destruct (IH (S i)) as [kept [E [L1 L2]]]. rewrite E.
        exists (v :: kept). simpl. split; [reflexivity | lia].
    + destruct (IH (S i)) as [kept [E [L1 L2]]]. exists kept. auto.
Qed.

End JsFacts.

(** ** The outline editors: the list is never empty *)

Section OutlineInvariant.

Lemma well_filled_length (arr : list (option value)) :
  well_filled arr -> 1 <= length arr.
Proof. intros [H _]. pose proof (present_le_length arr). lia. Qed.

Lemma well_filled_dense (l : list value) :
  1 <= length l -> well_filled (dense l).
Proof.
  intros H. unfold well_filled. rewrite present_dense, length_dense. lia.
Qed.

Lemma well_filled_initial : well_filled [Some (Str [])].
Proof. unfold well_filled, present. simpl. lia. Qed.

Lemma well_filled_add (arr : list (option value)) :
  well_filled (dense (spread arr ++ [Str []])).
Proof. apply well_filled_dense. rewrite length_app. simpl. lia. Qed.

Lemma well_filled_remove (index : nat) (arr : list (option value)) :
  well_filled arr ->
  well_filled
    (if Nat.ltb 1 (length arr) then
       match array_filter (fun _ i => Some (negb (Nat.eqb i index))) arr with
       | Some kept => dense kept
       | None => arr
       end
     else arr).
Proof.
  intros [H1 H2]. destruct (Nat.ltb_spec 1 (length arr)) as [Hlen|Hlen].
  - unfold array_filter.
    destruct (filter_from_remove index arr 0) as [kept [E [L1 L2]]].
    rewrite E. apply well_filled_dense. specialize (H2 Hlen). lia.
  - split; assumption.
Qed.

Lemma present_replicate_hole (n : nat) : present (replicate n None) = 0.
Proof. induction n; [reflexivity|]. simpl. rewrite present_cons. exact IHn. Qed.

Lemma well_filled_assign (arr : list (option value)) (i : nat) (v : value) :
  well_filled arr -> well_filled (assign (spread arr) i v).
Proof.
  intros H. apply well_filled_length in H. rewrite <- length_spread in H.
  unfold assign. destruct (Nat.ltb_spec i (length (spread arr))) as [Hi|Hi].
  - unfold dense. rewrite <- list_fmap_insert. apply well_filled_dense.
    rewrite length_insert. exact H.
  - unfold well_filled.
    rewrite !present_app, present_dense, present_replicate_hole.
    rewrite present_cons. simpl. lia.
Qed.

Lemma word_edit_well_filled (st : WordBuilder.State) (e : WordBuilder.edit) :
  well_filled (WordBuilder.outline st) ->
  well_filled (WordBuilder.outline (WordBuilder.apply_edit st e)).
Proof.
  intros H. destruct e as [|index|index v]; simpl.
  - apply well_filled_add.
  - unfold WordBuilder.handleRemoveSection.
    pose proof (well_filled_remove index _ H) as R.
    destruct (Nat.ltb 1 (length (WordBuilder.outline st))); [|exact H].
    destruct (array_filter _ (WordBuilder.outline st)); exact R.
  - apply well_filled_assign. exact H.
Qed.

Lemma ppt_edit_well_filled (st : PPTBuilder.State) (e : PPTBuilder.edit) :
  well_filled (PPTBuilder.slideTitles st) ->
  well_filled (PPTBuilder.slideTitles (PPTBuilder.apply_edit st e)).
Proof.
  intros H. destruct e as [|index|index v]; simpl.
  - apply well_filled_add.
  - unfold PPTBuilder.handleRemoveSlide.
    pose proof (well_filled_remove index _ H) as R.
    destruct (Nat.ltb 1 (length (PPTBuilder.slideTitles st))); [|exact H].
    destruct (array_filter _ (PPTBuilder.slideTitles st)); exact R.
  - apply well_filled_assign. exact H.
Qed.

Lemma word_edits_well_filled (edits : list WordBuilder.edit) :
  forall st, well_filled (WordBuilder.outline st) ->
    well_filled (WordBuilder.outline (fold_left WordBuilder.apply_edit edits st)).
Proof.
  induction edits as [|e edits IH]; intros st H; simpl; [exact H|].
  apply IH, word_edit_well_filled, H.
Qed.

Lemma ppt_edits_well_filled (edits : list PPTBuilder.edit) :
  forall st, well_filled (PPTBuilder.slideTitles st) ->
    well_filled (PPTBuilder.slideTitles (fold_left PPTBuilder.apply_edit edits st)).
Proof.
  induction edits as [|e edits IH]; intros st H; simpl; [exact H|].
  apply IH, ppt_edit_well_filled, H.
Qed.

(** C9. In the Word builder and in the PowerPoint builder the outline
    (slide-title) list is never empty: from the initial state [['']], after
    any sequence of add, remove and change actions (at any index, so also
    an assignment past the end, which leaves holes) the list has length at
    least 1; and a remove that shortens the list was applied to a list of
    more than one element. *)
Theorem outline_never_empty :
  (forall edits : list WordBuilder.edit,
      1 <= length (WordBuilder.outline
                     (fold_left WordBuilder.apply_edit edits WordBuilder.initial)))
  /\ (forall edits : list PPTBuilder.edit,
      1 <= length (PPTBuilder.slideTitles
                     (fold_left PPTBuilder.apply_edit edits PPTBuilder.initial)))
  /\ (forall (st : WordBuilder.State) (index : nat),
      WordBuilder.handleRemoveSection index st <> st ->
      1 < length (WordBuilder.outline st))
  /\ (forall (st : PPTBuilder.State) (index : nat),
      PPTBuilder.handleRemoveSlide index st <> st ->
      1 < length (PPTBuilder.slideTitles st)).
Proof.
  repeat split.
  - intros edits. apply well_filled_length, word_edits_well_filled.
    exact well_filled_initial.
  - intros edits. apply well_filled_length, ppt_edits_well_filled.
    exact well_filled_initial.
  - intros st index. unfold WordBuilder.handleRemoveSection.
    destruct (Nat.ltb_spec 1 (length (WordBuilder.outline st))); [auto|].
    intros Hne. now elim Hne.
  - intros st index. unfold PPTBuilder.handleRemoveSlide.
    destruct (Nat.ltb_spec 1 (length (PPTBuilder.slideTitles st))); [auto|].
    intros Hne. now elim Hne.
Qed.

Lemma outline_never_empty_witness :
  1 <= length (WordBuilder.outline
                 (fold_left WordBuilder.apply_edit
                    [WordBuilder.SectionChange 2 (Str (lit "x"));
                     WordBuilder.RemoveSection 0; WordBuilder.RemoveSection 0]
                    WordBuilder.initial))
  /\ 1 < length (WordBuilder.outline
                   (WordBuilder.handleAddSection WordBuilder.initial))
  /\ 1 < length (PPTBuilder.slideTitles
                   (PPTBuilder.handleAddSlide PPTBuilder.initial)).
Proof.
  destruct outline_never_empty as [W [_ [RW RP]]].
  split; [apply W|]. split.
  - apply (RW _ 0). vm_compute. discriminate.
  - apply (RP _ 0). vm_compute. discriminate.
Defined.

End OutlineInvariant.

(** ** The response interceptor *)

Section Interceptor.

Import Api.

(** Whatever the error, the interceptor rejects with that same error. *)
Lemma onRejected_rejects (error : AxiosError) (w : Window) :
  (onRejected error w).2 = Rejected error.
Proof.
  unfold onRejected.
  destruct (bool_decide _); [reflexivity|].
  destruct (_ && _); reflexivity.
Qed.

(** Outside status 401 the window is left alone. *)
Lemma onRejected_window (error : AxiosError) (w : Window) :
  status <$> response error <> Some 401%Z -> (onRejected error w).1 = w.
Proof.
  intros H. unfold onRejected.
  rewrite bool_decide_eq_false_2 by exact H.
  destruct (_ && _); reflexivity.
Qed.

(** C8. For every response error with HTTP status 401, and only for status
    401, the response interceptor removes the 'auth-storage' key from
    localStorage and sets the location to '/login' before rejecting with
    the error; an error with any other status (or with no response at all)
    is rejected with the window untouched. *)
Theorem interceptor_401_only (error : AxiosError) (w : Window) :
  (status <$> response error = Some 401%Z ->
     onRejected error w =
       ({| localStorage := delete (lit "auth-storage") (localStorage w);
           location_href := lit "/login" |},
        Rejected error)
     /\ localStorage (onRejected error w).1 !! lit "auth-storage" = None)
  /\ (status <$> response error <> Some 401%Z ->
        onRejected error w = (w, Rejected error)).
Proof.
  split.
  - intros H. unfold onRejected. rewrite bool_decide_eq_true_2 by exact H.
    split; [reflexivity|]. simpl. apply lookup_delete_eq.
  - intros H. pose proof (onRejected_window error w H) as Hw.
    pose proof (onRejected_rejects error w) as Hr.
    destruct (onRejected error w) as [w' r]. simpl in *. congruence.
Qed.

Lemma interceptor_401_only_witness :
  localStorage (onRejected (Scenario.error_with Undefined 401) Scenario.signed_in_window).1
    !! lit "auth-storage" = None
  /\ onRejected (Scenario.error_with Undefined 500) Scenario.signed_in_window
     = (Scenario.signed_in_window, Rejected (Scenario.error_with Undefined 500)).
Proof.
  split.
  - apply (interceptor_401_only (Scenario.error_with Undefined 401) Scenario.signed_in_window).
    reflexivity.
  - apply (interceptor_401_only (Scenario.error_with Undefined 500) Scenario.signed_in_window).
    simpl. discriminate.
Defined.

(** C7, as stated, fails: for a request that set the silent flag and got
    status 404, the interceptor still rejects, so the caller observes the
    error and no result at all. *)
Lemma silent_404_still_rejected :
  (onRejected (Scenario.error_with (Bool true) 404) Scenario.signed_in_window).2
    = Rejected (Scenario.error_with (Bool true) 404)
  /\ (settle (Fail (Scenario.error_with (Bool true) 404)) Scenario.signed_in_window).2
     = Rejected (Scenario.error_with (Bool true) 404)
  /\ ~ (exists result : value,
          (settle (Fail (Scenario.error_with (Bool true) 404)) Scenario.signed_in_window).2
            = Resolved result).
Proof.
  split; [reflexivity|]. split; [reflexivity|].
  intros [result H]. vm_compute in H. discriminate.
Qed.

(** C7, amended. For every error response, whatever its status and whether
    or not its request set the silent flag, the response interceptor
    rejects with the error unchanged and never turns the failure into a
    result; the silent flag changes nothing in what it returns or does.
    Expected absence is absorbed by the callers: fetchRefinements catches
    the rejection and keeps its state, so the refinements list stays the
    empty list it starts with. *)
Theorem interceptor_always_rejects (error : AxiosError) (w : Window) :
  (onRejected error w).2 = Rejected error
  /\ (settle (Fail error) w).2 = Rejected error
  /\ (forall flag : value,
        onRejected {| config := Some {| silent := flag |};
                      response := response error |} w
        = ((onRejected error w).1,
           Rejected {| config := Some {| silent := flag |};
                       response := response error |}))
  /\ (forall (p : RefinementEditor.Params) (st : RefinementEditor.State),
        (RefinementEditor.fetchRefinements p st (Rejected (AxiosErr error))).1 = st)
  /\ (forall p : RefinementEditor.Params,
        RefinementEditor.refinements
          (RefinementEditor.fetchRefinements p RefinementEditor.initial
             (Rejected (AxiosErr error))).1 = Arr []).
Proof.
  split; [apply onRejected_rejects|].
  split; [apply onRejected_rejects|].
  split; [|split; reflexivity].
  intros flag. unfold onRejected. simpl.
  destruct (bool_decide (status <$> response error = Some 401%Z)); [reflexivity|].
  destruct (_ && _); destruct (_ && _); reflexivity.
Qed.

End Interceptor.

(** ** Logging out *)

Section Logout.

Import AuthStore.

(** C10. logout resets the auth store to exactly
    {user: null, token: null, isAuthenticated: false}, deletes the default
    Authorization header and, where there is a window, removes the
    'auth-storage' key from localStorage, leaving every other header and
    key alone; after it, every route wrapped in PrivateRoute renders a
    redirect to '/login' instead of its child. *)
Theorem logout_clears_session (c : Client) :
  auth (logout c) = {| user := Null; token := Null; isAuthenticated := Bool false |}
  /\ headers_common (logout c) !! "Authorization"%string = None
  /\ (forall k : string, k <> "Authorization"%string ->
        headers_common (logout c) !! k = headers_common c !! k)
  /\ (forall w : Api.Window, window c = Some w ->
        exists w', window (logout c) = Some w'
          /\ Api.localStorage w' !! lit "auth-storage" = None
          /\ (forall k, k <> lit "auth-storage" ->
                Api.localStorage w' !! k = Api.localStorage w !! k)
          /\ Api.location_href w' = Api.location_href w)
  /\ (forall children : App.element,
        App.PrivateRoute (auth (logout c)) children = App.Navigate (lit "/login"))
  /\ (forall (path : jsstring) (children : App.element),
        In (path, App.Private children) App.routes ->
        App.render (auth (logout c)) (App.Private children)
          = App.Navigate (lit "/login")).
Proof.
  split; [reflexivity|].
  split; [apply lookup_delete_eq|].
  split; [intros k Hk; simpl; apply lookup_delete_ne; congruence|].
  split.
  - intros w Hw. simpl. rewrite Hw. simpl. eexists. split; [reflexivity|].
    simpl. split; [apply lookup_delete_eq|].
    split; [|reflexivity].
    intros k Hk. apply lookup_delete_ne. congruence.
  - split; reflexivity.
Qed.

Lemma logout_clears_session_witness :
  headers_common (logout Scenario.signed_in_client) !! "Accept"%string
    = Some (lit "application/json")
  /\ (exists w', window (logout Scenario.signed_in_client) = Some w'
        /\ Api.localStorage w' !! lit "auth-storage" = None)
  /\ App.render (auth (logout Scenario.signed_in_client)) (App.Private (App.Page App.Dashboard))
     = App.Navigate (lit "/login")
  /\ App.render (auth Scenario.signed_in_client) (App.Private (App.Page App.Dashboard))
     = App.Page App.Dashboard.
Proof.
  destruct (logout_clears_session Scenario.signed_in_client) as [_ [_ [H [W [_ R]]]]].
  split.
  - rewrite (H "Accept"%string) by discriminate. vm_compute. reflexivity.
  - split.
    + destruct (W Scenario.signed_in_window eq_refl) as [w' [E [L _]]]. exists w'. auto.
    + split; [|reflexivity].
      apply (R (lit "/dashboard")). simpl. right. right. left. reflexivity.
Defined.

End Logout.

(** ** Saving a document configuration *)

Section BuilderSave.

Lemma non_blank_true (s : jsstring) : non_blank s = true <-> trim s <> [].
Proof. unfold non_blank. destruct (trim s); simpl; split; congruence. Qed.

(** On an array of strings the filter of handleSave keeps exactly the
    titles that are not blank, in order. *)
Lemma filter_not_blank_strings (titles : list jsstring) (i : nat) :
  filter_from WordBuilder.not_blank i (dense (Str <$> titles))
  = Some (Str <$> List.filter non_blank titles).
Proof.
  revert i. induction titles as [|t titles IH]; intros i; simpl; [reflexivity|].
  unfold dense in IH. rewrite IH. fold (non_blank t).
  destruct (non_blank t); reflexivity.
Qed.

(** On any array, if the filter completes, what it keeps are strings that
    are not blank. *)
Lemma filter_not_blank_sound (arr : list (option value)) :
  forall i out,
    filter_from WordBuilder.not_blank i arr = Some out ->
    exists kept, out = Str <$> kept /\ Forall (fun s => trim s <> []) kept.
Proof.
  induction arr as [|e arr IH]; intros i out; simpl.
  - intros [= <-]. exists []. split; [reflexivity | constructor].
  - destruct e as [v|]; [|apply IH].
    destruct v as [| | | |s| |]; simpl; try discriminate.
    destruct (filter_from WordBuilder.not_blank (S i) arr) as [out'|] eqn:E;
      [|discriminate].
    destruct (IH _ _ E) as [kept [-> F]].
    fold (non_blank s). destruct (non_blank s) eqn:Hs; intros [= <-].
    + exists (s :: kept). split; [reflexivity|].
      constructor; [now apply non_blank_true | exact F].
    + exists kept. auto.
Qed.

Lemma length_zero_fmap_Str (kept : list jsstring) :
  Nat.eqb (length (Str <$> kept)) 0 = true <-> kept = [].
Proof. destruct kept; simpl; split; congruence. Qed.

Lemma word_save_requests (projectId : jsstring) (st : WordBuilder.State)
    (post : promise value Api.thrown) (e : Api.effect) :
  In e (WordBuilder.handleSave projectId st post).1.2 ->
  Api.is_request e = true ->
  exists kept,
    kept <> [] /\ Forall (fun s => trim s <> []) kept
    /\ e = word_config_request projectId kept (WordBuilder.context st).
Proof.
  unfold WordBuilder.handleSave, array_filter. simpl.
  destruct (filter_from WordBuilder.not_blank 0 (WordBuilder.outline st))
    as [out|] eqn:E; simpl; [|tauto].
  destruct (filter_not_blank_sound _ _ _ E) as [kept [-> F]].
  destruct (Nat.eqb (length (Str <$> kept)) 0) eqn:Hz; simpl; [tauto|].
  assert (Hk : kept <> []).
  { intros ->. simpl in Hz. discriminate. }
  destruct post as [r|err]; simpl.
  - intros [<-|[<-|[]]] Hr; [|discriminate]. exists kept. auto.
  - intros [<-|[]] Hr. exists kept. auto.
Qed.

Lemma ppt_save_requests (projectId : jsstring) (st : PPTBuilder.State)
    (post : promise value Api.thrown) (e : Api.effect) :
  In e (PPTBuilder.handleSave projectId st post).1.2 ->
  Api.is_request e = true ->
  exists kept,
    kept <> [] /\ Forall (fun s => trim s <> []) kept
    /\ e = ppt_config_request projectId kept (PPTBuilder.context st).
Proof.
  unfold PPTBuilder.handleSave, array_filter. simpl.
  destruct (filter_from WordBuilder.not_blank 0 (PPTBuilder.slideTitles st))
    as [out|] eqn:E; simpl; [|tauto].
  destruct (filter_not_blank_sound _ _ _ E) as [kept [-> F]].
  destruct (Nat.eqb (length (Str <$> kept)) 0) eqn:Hz; simpl; [tauto|].
  assert (Hk : kept <> []).
  { intros ->. simpl in Hz. discriminate. }
  destruct post as [r|err]; simpl.
  - intros [<-|[<-|[]]] Hr; [|discriminate]. exists kept. auto.
  - intros [<-|[]] Hr. exists kept. auto.
Qed.

Lemma word_save_strings (projectId : jsstring) (st : WordBuilder.State)
    (post : promise value Api.thrown) (titles : list jsstring) :
  WordBuilder.outline st = dense (Str <$> titles) ->
  let kept := List.filter non_blank titles in
  let out := WordBuilder.handleSave projectId st post in
  (kept = [] ->
     out.1.2 = []
     /\ WordBuilder.error out.1.1 = Str (lit "Please add at least one section"))
  /\ (kept <> [] ->
        exists rest,
          out.1.2 = word_config_request projectId kept (WordBuilder.context st) :: rest
          /\ Forall (fun e => Api.is_request e = false) rest).
Proof.
  intros Ho kept out. subst out.
  unfold WordBuilder.handleSave, array_filter. simpl.
  rewrite Ho, filter_not_blank_strings. fold kept.
  destruct kept as [|k kept']; simpl.
  - split; [auto | congruence].
  - split; [discriminate|]. intros _.
    destruct post as [r|err]; simpl; eexists; (split; [reflexivity|]);
      repeat constructor.
Qed.

Lemma ppt_save_strings (projectId : jsstring) (st : PPTBuilder.State)
    (post : promise value Api.thrown) (titles : list jsstring) :
  PPTBuilder.slideTitles st = dense (Str <$> titles) ->
  let kept := List.filter non_blank titles in
  let out := PPTBuilder.handleSave projectId st post in
  (kept = [] ->
     out.1.2 = []
     /\ PPTBuilder.error out.1.1 = Str (lit "Please add at least one slide"))
  /\ (kept <> [] ->
        exists rest,
          out.1.2 = ppt_config_request projectId kept (PPTBuilder.context st) :: rest
          /\ Forall (fun e => Api.is_request e = false) rest).
Proof.
  intros Ho kept out. subst out.
  unfold PPTBuilder.handleSave, array_filter. simpl.
  rewrite Ho, filter_not_blank_strings. fold kept.
  destruct kept as [|k kept']; simpl.
  - split; [auto | congruence].
  - split; [discriminate|]. intros _.
    destruct post as [r|err]; simpl; eexists; (split; [reflexivity|]);
      repeat constructor.
Qed.

(** C6. Saving a configuration with an empty outline is a validation
    failure on the client.  For every outline state of the Word builder
    and every slide-title state of the PowerPoint builder, any request
    handleSave issues is the one configuration POST, and the titles in its
    body are non-blank after trimming and at least one; when the list
    holds titles (strings), the body holds exactly the non-blank ones in
    order, and when none remains handleSave issues no request and reports
    'Please add at least one section' (respectively 'Please add at least
    one slide'). *)
Theorem save_needs_a_title (projectId : jsstring) (post : promise value Api.thrown) :
  (forall (st : WordBuilder.State) (e : Api.effect),
      In e (WordBuilder.handleSave projectId st post).1.2 ->
      Api.is_request e = true ->
      exists kept,
        kept <> [] /\ Forall (fun s => trim s <> []) kept
        /\ e = word_config_request projectId kept (WordBuilder.context st))
  /\ (forall (st : WordBuilder.State) (titles : list jsstring),
      WordBuilder.outline st = dense (Str <$> titles) ->
      let kept := List.filter non_blank titles in
      let out := WordBuilder.handleSave projectId st post in
      (kept = [] ->
         out.1.2 = []
         /\ WordBuilder.error out.1.1 = Str (lit "Please add at least one section"))
      /\ (kept <> [] ->
            exists rest,
              out.1.2
              = word_config_request projectId kept (WordBuilder.context st) :: rest
              /\ Forall (fun e => Api.is_request e = false) rest))
  /\ (forall (st : PPTBuilder.State) (e : Api.effect),
      In e (PPTBuilder.handleSave projectId st post).1.2 ->
      Api.is_request e = true ->
      exists kept,
        kept <> [] /\ Forall (fun s => trim s <> []) kept
        /\ e = ppt_config_request projectId kept (PPTBuilder.context st))
  /\ (forall (st : PPTBuilder.State) (titles : list jsstring),
      PPTBuilder.slideTitles st = dense (Str <$> titles) ->
      let kept := List.filter non_blank titles in
      let out := PPTBuilder.handleSave projectId st post in
      (kept = [] ->
         out.1.2 = []
         /\ PPTBuilder.error out.1.1 = Str (lit "Please add at least one slide"))
      /\ (kept <> [] ->
            exists rest,
              out.1.2
              = ppt_config_request projectId kept (PPTBuilder.context st) :: rest
              /\ Forall (fun e => Api.is_request e = false) rest)).
Proof.
  split; [intros st e; apply word_save_requests|].
  split; [intros st titles; apply word_save_strings|].
  split; [intros st e; apply ppt_save_requests|].
  intros st titles; apply ppt_save_strings.
Qed.

End BuilderSave.

(** ** The store: how each request changes the tables *)

Section StoreFrames.

Import Backend.

(** Any property of the store that writing one item preserves is
    preserved by a whole generation batch. *)
Lemma generate_items_preserve (P : Store -> Prop) (llm : Generator)
    (p : Project) (pid : nat) (ctx : text) (generate_all : bool) :
  (forall s ord ttl txt, P s -> P (write_item pid ord ttl txt s)) ->
  forall entries acc,
    P acc.2 ->
    P (fold_left (generate_item llm p pid ctx generate_all) entries acc).2.
Proof.
  intros HP. induction entries as [|[ord ttl] entries IH]; intros acc H; simpl.
  - exact H.
  - apply IH. destruct acc as [[calls report] s]. simpl in *.
    destruct (generate_all || _); [|exact H].
    destruct (llm _); simpl; [apply HP|]; exact H.
Qed.

Lemma generate_preserves (P : Store -> Prop) (caller pid : nat)
    (generate_all : bool) (llm : Generator) (s : Store) :
  (forall s ord ttl txt, P s -> P (write_item pid ord ttl txt s)) ->
  P s ->
  forall report s',
    (generate caller pid generate_all llm s).2 = Success (report, s') -> P s'.
Proof.
  intros HP Hs report s'. unfold generate.
  destruct (authorize caller pid s) as [p|e]; [|discriminate].
  destruct (configurations s !! pid) as [cfg|]; [|discriminate].
  pose proof (generate_items_preserve P llm p pid (context cfg) generate_all HP
                (imap (fun i ttl => (i, ttl)) (titles cfg)) ([], [], s) Hs) as H.
  destruct (fold_left _ _ _) as [[calls rep] s'']. simpl in *.
  intros [= _ <-]. exact H.
Qed.

Lemma same_logs_refl (s : Store) : same_logs s s.
Proof. unfold same_logs. auto. Qed.

Lemma write_item_same_logs (s0 s : Store) (pid ord : nat) (ttl txt : text) :
  same_logs s0 s -> same_logs s0 (write_item pid ord ttl txt s).
Proof.
  unfold same_logs, write_item. intros (Hp & Hr & Hn).
  destruct (find_item pid ord s); simpl; repeat split; auto.
Qed.

Lemma set_content_same_logs (caller id : nat) (txt : text) (s : Store)
    (it' : ContentItem) (s' : Store) :
  set_content caller id txt s = Success (it', s') -> same_logs s s'.
Proof.
  unfold set_content. destruct (items s !! id) as [it|]; [|discriminate].
  destruct (authorize _ _ s); [|discriminate].
  intros [= _ <-]. unfold same_logs. simpl. auto.
Qed.

Lemma write_and_log_same_logs (caller id : nat) (pr : option text)
    (fb : option Feedback) (cm : option text) (now : nat) (txt : text)
    (s : Store) (it' : ContentItem) (r : RefinementRecord) (s' : Store) :
  write_and_log caller id pr fb cm now txt s = Success (it', r, s') ->
  same_logs s s'.
Proof.
  unfold write_and_log.
  destruct (set_content caller id txt s) as [[it1 s1]|e] eqn:E; [|discriminate].
  apply set_content_same_logs in E. destruct E as (Hp & Hr & Hn).
  intros [= _ _ <-]. unfold same_logs. simpl. auto.
Qed.

Lemma refine_same_logs (caller id : nat) (pr ct : option text)
    (fb : option Feedback) (cm : option text) (now : nat) (llm : Generator)
    (s : Store) (it' : ContentItem) (r : RefinementRecord) (s' : Store) :
  (refine caller id pr ct fb cm now llm s).2 = Success (it', r, s') ->
  same_logs s s'.
Proof.
  unfold refine. destruct (items s !! id) as [it|] eqn:Hit; [|discriminate].
  destruct (authorize _ _ s) eqn:Ha; [|discriminate].
  destruct pr as [pr|].
  - destruct (llm _); [apply write_and_log_same_logs | discriminate].
  - destruct ct as [c|]; [apply write_and_log_same_logs|].
    destruct (has_content (content it));
      [apply write_and_log_same_logs | discriminate].
Qed.

Lemma step_log_change (s : Store) (op : Op) : log_change s (step s op).
Proof.
  destruct op; simpl.
  - eapply change_project; reflexivity || exact caller.
  - unfold delete_project, authorize.
    destruct (projects s !! pid) as [p|] eqn:Hp;
      [|apply change_none, same_logs_refl].
    destruct (Nat.eqb (owner p) caller); [|apply change_none, same_logs_refl].
    apply (change_delete _ _ pid); simpl; eauto.
  - unfold save_outline. destruct (authorize caller pid s);
      [|apply change_none, same_logs_refl].
    destruct ts; apply change_none; unfold same_logs; simpl; auto.
  - destruct (generate caller pid generate_all llm s).2 as [[report s']|e] eqn:E;
      [|apply change_none, same_logs_refl].
    apply change_none.
    apply (generate_preserves (same_logs s) caller pid generate_all llm s
             (fun s1 ord ttl txt H => write_item_same_logs s s1 pid ord ttl txt H)
             (same_logs_refl s) report s' E).
  - destruct (set_content caller id txt s) as [[it' s']|e] eqn:E;
      [|apply change_none, same_logs_refl].
    apply change_none. eapply set_content_same_logs, E.
  - destruct (refine _ _ _ _ _ _ _ _ s).2 as [[[it' r] s']|e] eqn:E;
      [|apply change_none, same_logs_refl].
    apply change_none. eapply refine_same_logs, E.
  - destruct (create_revision actor pid now s) as [[rev s']|e] eqn:E;
      [|apply change_none, same_logs_refl].
    eapply change_revision, E.
Qed.

End StoreFrames.

(** ** Revision numbers *)

Section RevisionNumbers.

Import Backend.

Lemma max_list_seq (a n : nat) : max_list (seq a (S n)) = a + n.
Proof.
  revert a. induction n as [|n IH]; intros a.
  - simpl. lia.
  - change (seq a (S (S n))) with (a :: seq (S a) (S n)).
    change (max_list (a :: seq (S a) (S n)))
      with (Nat.max a (max_list (seq (S a) (S n)))).
    rewrite IH. lia.
Qed.

(** "max + 1, or 1 when no revision exists" on a gapless history. *)
Lemma next_number_seq (n : nat) :
  match seq 1 n with
  | [] => 1
  | _ => max_list (seq 1 n) + 1
  end = S n.
Proof.
  destruct n as [|n]; [reflexivity|].
  rewrite max_list_seq. simpl. lia.
Qed.

Lemma revisions_of_eq (pid : nat) (s s' : Store) :
  revisions s' = revisions s -> revisions_of pid s' = revisions_of pid s.
Proof. unfold revisions_of. now intros ->. Qed.

Lemma revisions_of_app (pid : nat) (s s' : Store) (rev : Revision) :
  revisions s' = revisions s ++ [rev] ->
  revisions_of pid s'
  = revisions_of pid s ++ (if Nat.eqb (revision_project rev) pid then [rev] else []).
Proof.
  unfold revisions_of. intros ->. rewrite List.filter_app. simpl.
  destruct (Nat.eqb (revision_project rev) pid); reflexivity.
Qed.

Lemma revisions_of_delete (pid gone : nat) (s s' : Store) :
  revisions s'
  = List.filter (fun r => negb (Nat.eqb (revision_project r) gone)) (revisions s) ->
  revisions_of pid s' = if Nat.eqb gone pid then [] else revisions_of pid s.
Proof.
  unfold revisions_of. intros ->.
  induction (revisions s) as [|r l IH]; simpl.
  - now destruct (Nat.eqb gone pid).
  - destruct (Nat.eqb_spec (revision_project r) gone) as [Hg|Hg]; simpl.
    + rewrite IH. destruct (Nat.eqb_spec gone pid) as [Hp|Hp]; [reflexivity|].
      replace (Nat.eqb (revision_project r) pid) with false; [reflexivity|].
      symmetry. apply Nat.eqb_neq. congruence.
    + rewrite IH. destruct (Nat.eqb_spec gone pid) as [Hp|Hp].
      * replace (Nat.eqb (revision_project r) pid) with false; [reflexivity|].
        symmetry. apply Nat.eqb_neq. congruence.
      * reflexivity.
Qed.

(** What a successful create_revision returns and stores. *)
Lemma create_revision_inv (actor pid now : nat) (s : Store) (rev : Revision)
    (s' : Store) :
  create_revision actor pid now s = Success (rev, s') ->
  (exists p, authorize actor pid s = Success p)
  /\ revision_project rev = pid
  /\ created_by rev = actor
  /\ revision_number rev
     = match revision_numbers pid s with
       | [] => 1
       | _ => max_list (revision_numbers pid s) + 1
       end
  /\ snapshot rev = (fun it => (title it, content it)) <$> items_of pid s
  /\ revisions s' = revisions s ++ [rev]
  /\ projects s' = projects s /\ items s' = items s
  /\ refinements s' = refinements s /\ next_id s' = next_id s.
Proof.
  unfold create_revision, get_items.
  destruct (authorize actor pid s) as [p|e] eqn:Ha; [|discriminate].
  intros [= <- <-]. simpl. split; [eauto|]. repeat split; reflexivity.
Qed.

Lemma numbered_empty : numbered empty_store.
Proof. intros pid. reflexivity. Qed.

Lemma numbered_change (s s' : Store) :
  log_change s s' -> numbered s -> numbered s'.
Proof.
  intros C N pid. specialize (N pid). unfold revision_numbers in *.
  destruct C as [(Hp & Hr & Hn) | caller p Hp Hr Hn | gone Hg Hp Hr Hn
                | actor pid0 now rev Hc].
  - rewrite (revisions_of_eq pid s s' Hr). exact N.
  - rewrite (revisions_of_eq pid s s' Hr). exact N.
  - rewrite (revisions_of_delete pid gone s s' Hr).
    destruct (Nat.eqb gone pid); [reflexivity | exact N].
  - destruct (create_revision_inv _ _ _ _ _ _ Hc)
      as (_ & Hproj & _ & Hnum & _ & Hrev & _).
    rewrite (revisions_of_app pid s s' rev Hrev), Hproj.
    destruct (Nat.eqb_spec pid0 pid) as [->|Hne].
    + unfold revision_numbers in Hnum. rewrite N, next_number_seq in Hnum.
      rewrite fmap_app, length_app. simpl.
      rewrite Nat.add_1_r, seq_S, N, Hnum. reflexivity.
    + rewrite app_nil_r. exact N.
Qed.

Lemma numbered_run (ops : list Op) :
  forall s, numbered s -> numbered (run ops s).
Proof.
  unfold run. induction ops as [|op ops IH]; intros s N; simpl; [exact N|].
  apply IH. eapply numbered_change; [apply step_log_change | exact N].
Qed.

Lemma StronglySorted_seq (a n : nat) : StronglySorted lt (seq a n).
Proof.
  revert a. induction n as [|n IH]; intros a; simpl; constructor.
  - apply IH.
  - apply List.Forall_forall. intros x Hx. apply in_seq in Hx. lia.
Qed.

(** C1. For every project, after any sequence of requests starting from
    the empty store, the revision numbers assigned by create_revision are,
    in the order assigned, exactly 1, 2, ..., n: strictly increasing, with
    no gap, starting at 1, and no two revisions of the project share a
    number.  Each successful call assigns max(existing numbers) + 1, or 1
    when there is none, which is one more than the count so far and is not
    among the existing numbers. *)
Theorem revision_numbers_gapless (ops : list Op) (pid : nat) :
  let s := run ops empty_store in
  revision_numbers pid s = seq 1 (length (revisions_of pid s))
  /\ StronglySorted lt (revision_numbers pid s)
  /\ NoDup (revision_numbers pid s)
  /\ (forall (actor now : nat) (rev : Revision) (s' : Store),
        create_revision actor pid now s = Success (rev, s') ->
        revision_number rev
        = match revision_numbers pid s with
          | [] => 1
          | _ => max_list (revision_numbers pid s) + 1
          end
        /\ revision_number rev = S (length (revisions_of pid s))
        /\ ~ In (revision_number rev) (revision_numbers pid s)
        /\ revision_numbers pid s' = revision_numbers pid s ++ [revision_number rev]).
Proof.
  intros s.
  assert (N : numbered s) by (apply numbered_run, numbered_empty).
  split; [apply N|]. rewrite (N pid).
  split; [apply StronglySorted_seq|].
  split; [apply NoDup_seq|].
  intros actor now rev s' Hc.
  destruct (create_revision_inv _ _ _ _ _ _ Hc)
    as (_ & Hproj & _ & Hnum & _ & Hrev & _).
  assert (Hn : revision_number rev = S (length (revisions_of pid s))).
  { rewrite Hnum, (N pid). apply next_number_seq. }
  split; [rewrite <- (N pid); exact Hnum|].
  split; [exact Hn|].
  split.
  - rewrite Hn. intros Hin. apply in_seq in Hin. lia.
  - unfold revision_numbers at 1.
    rewrite (revisions_of_app pid s s' rev Hrev), Hproj, Nat.eqb_refl.
    rewrite fmap_app. simpl. rewrite <- (N pid). reflexivity.
Qed.

End RevisionNumbers.

(** ** Revisions are immutable *)

Section RevisionSnapshots.

Import Backend.

Lemma fresh_ids_change (s s' : Store) :
  log_change s s' -> fresh_ids s -> fresh_ids s'.
Proof.
  intros C F pid.
  destruct C as [(Hp & Hr & Hn) | caller p Hp Hr Hn | gone Hg Hp Hr Hn
                | actor pid0 now rev Hc].
  - rewrite Hp. intros H. apply F in H. lia.
  - rewrite Hp, Hn. destruct (decide (next_id s = pid)) as [<-|Hne].
    + intros _. lia.
    + rewrite lookup_insert_ne by exact Hne. intros H. apply F in H. lia.
  - rewrite Hp, Hn. destruct (decide (gone = pid)) as [<-|Hne].
    + rewrite lookup_delete_eq. intros [x Hx]. discriminate.
    + rewrite lookup_delete_ne by exact Hne. apply F.
  - destruct (create_revision_inv _ _ _ _ _ _ Hc)
      as (_ & _ & _ & _ & _ & _ & Hp & _ & _ & Hn).
    rewrite Hp, Hn. apply F.
Qed.

Lemma next_id_change (s s' : Store) :
  log_change s s' -> next_id s <= next_id s'.
Proof.
  intros [(Hp & Hr & Hn) | caller p Hp Hr Hn | gone Hg Hp Hr Hn
         | actor pid0 now rev Hc]; try lia.
  destruct (create_revision_inv _ _ _ _ _ _ Hc)
    as (_ & _ & _ & _ & _ & _ & _ & _ & _ & Hn).
  lia.
Qed.

(** One request keeps a revision of a project that still exists, and never
    brings a deleted project back under its old id. *)
Lemma kept_revision_change (pid : nat) (p : Project) (rev : Revision)
    (s s' : Store) :
  revision_project rev = pid ->
  log_change s s' -> kept_revision pid p rev s -> kept_revision pid p rev s'.
Proof.
  intros Hproj C (F & B & K).
  split; [eapply fresh_ids_change; eauto|].
  split; [pose proof (next_id_change s s' C); lia|].
  destruct C as [(Hp & Hr & Hn) | caller p' Hp Hr Hn | gone Hg Hp Hr Hn
                | actor pid0 now rev' Hc].
  - rewrite Hp, Hr. exact K.
  - rewrite Hp, Hr, lookup_insert_ne by lia. exact K.
  - rewrite Hp, Hr. destruct (decide (gone = pid)) as [->|Hne].
    + left. apply lookup_delete_eq.
    + rewrite lookup_delete_ne by exact Hne.
      destruct K as [K|[K1 K2]]; [left; exact K|]. right. split; [exact K1|].
      apply List.filter_In. split; [exact K2|].
      apply negb_true_iff, Nat.eqb_neq. congruence.
  - destruct (create_revision_inv _ _ _ _ _ _ Hc)
      as (_ & _ & _ & _ & _ & Hrev & Hp & _).
    rewrite Hp, Hrev. destruct K as [K|[K1 K2]]; [left; exact K|].
    right. split; [exact K1|]. apply in_or_app. left. exact K2.
Qed.

Lemma kept_revision_run (pid : nat) (p : Project) (rev : Revision)
    (ops : list Op) :
  revision_project rev = pid ->
  forall s, kept_revision pid p rev s -> kept_revision pid p rev (run ops s).
Proof.
  intros Hproj. unfold run.
  induction ops as [|op ops IH]; intros s K; simpl; [exact K|].
  apply IH. eapply kept_revision_change; eauto using step_log_change.
Qed.

Lemma fresh_ids_run (ops : list Op) :
  forall s, fresh_ids s -> fresh_ids (run ops s).
Proof.
  unfold run. induction ops as [|op ops IH]; intros s F; simpl; [exact F|].
  apply IH. eapply fresh_ids_change; eauto using step_log_change.
Qed.

Lemma fresh_ids_empty : fresh_ids empty_store.
Proof. intros pid [x Hx]. simpl in Hx. rewrite lookup_empty in Hx. discriminate. Qed.

(** In a list without two equal numbers, looking a revision up by its
    number finds that very revision. *)
Lemma find_by_number (l : list Revision) (rev : Revision) :
  In rev l ->
  NoDup (revision_number <$> l) ->
  List.find (fun r => Nat.eqb (revision_number r) (revision_number rev)) l
  = Some rev.
Proof.
  induction l as [|r l IH]; simpl; [tauto|].
  intros Hin Hnd. apply NoDup_cons in Hnd as [Hr Hnd].
  destruct (Nat.eqb_spec (revision_number r) (revision_number rev)) as [E|E].
  - destruct Hin as [->|Hin]; [reflexivity|].
    exfalso. apply Hr. rewrite E. apply list_elem_of_In, in_map, Hin.
  - destruct Hin as [->|Hin]; [congruence|]. now apply IH.
Qed.

Lemma get_revision_kept (actor pid : nat) (p : Project) (rev : Revision)
    (s : Store) :
  revision_project rev = pid ->
  owner p = actor ->
  numbered s ->
  projects s !! pid = Some p ->
  In rev (revisions s) ->
  get_revision actor pid (revision_number rev) s = Success rev.
Proof.
  intros Hproj Hown N Hp Hin.
  unfold get_revision, list_revisions, authorize.
  rewrite Hp, Hown, Nat.eqb_refl.
  rewrite find_by_number; [reflexivity| |].
  - apply list_elem_of_In. rewrite merge_sort_Permutation.
    apply list_elem_of_In, List.filter_In. split; [exact Hin|].
    now apply Nat.eqb_eq.
  - rewrite merge_sort_Permutation. fold (revision_numbers pid s).
    rewrite (N pid). apply NoDup_seq.
Qed.

(** C2. A revision's snapshot never changes after creation.  Take any
    revision that create_revision returned in a reachable store: its
    snapshot is the (title, content) pairs of the project's items at that
    moment, and after any further sequence of requests (set_content,
    refine, generation, other revisions, other projects), as long as the
    project still exists, fetching the revision by its number returns the
    revision exactly as it was created, snapshot included. *)
Theorem revision_snapshot_immutable (before after : list Op)
    (actor pid now : nat) (rev : Revision) (s1 : Store) :
  create_revision actor pid now (run before empty_store) = Success (rev, s1) ->
  is_Some (projects (run after s1) !! pid) ->
  snapshot rev
  = (fun it => (title it, content it)) <$> items_of pid (run before empty_store)
  /\ get_revision actor pid (revision_number rev) (run after s1) = Success rev
  /\ (forall r, get_revision actor pid (revision_number rev) (run after s1) = Success r ->
        snapshot r = snapshot rev).
Proof.
  intros Hc Halive.
  destruct (create_revision_inv _ _ _ _ _ _ Hc)
    as ([p Ha] & Hproj & _ & Hnum & Hsnap & Hrev & Hp & _ & _ & Hn).
  split; [exact Hsnap|].
  assert (Hget : get_revision actor pid (revision_number rev) (run after s1)
                 = Success rev).
  { unfold authorize in Ha.
    destruct (projects (run before empty_store) !! pid) as [p0|] eqn:Hp0;
      [|discriminate].
    destruct (Nat.eqb_spec (owner p0) actor) as [Hown|]; [|discriminate].
    assert (F0 : fresh_ids (run before empty_store))
      by apply fresh_ids_run, fresh_ids_empty.
    assert (K1 : kept_revision pid p0 rev s1).
    { split.
      - intros q. rewrite Hp, Hn. apply F0.
      - split.
        + rewrite Hn. apply F0. rewrite Hp0. eauto.
        + right. rewrite Hp, Hrev. split; [exact Hp0|].
          apply in_or_app. right. left. reflexivity. }
    apply (kept_revision_run pid p0 rev after Hproj) in K1.
    destruct K1 as (_ & _ & [K|[K1 K2]]).
    - rewrite K in Halive. destruct Halive as [x Hx]. discriminate.
    - apply (get_revision_kept actor pid p0); auto.
      apply numbered_run.
      eapply numbered_change;
        [eapply change_revision, Hc | apply numbered_run, numbered_empty]. }
  split; [exact Hget|].
  intros r Hr. rewrite Hget in Hr. now inversion Hr.
Qed.

End RevisionSnapshots.

(** ** Content and the generated flag *)

Section GeneratedFlag.

Import Backend.












End GeneratedFlag.

(** ** Refining an item *)

Section Refine.

Import Backend.

Lemma handleRefine_blank (p : RefinementEditor.Params)
    (st : RefinementEditor.State) (post get : promise value Api.thrown) :
  trim (RefinementEditor.prompt st) = [] ->
  RefinementEditor.handleRefine p st post get
  = (RefinementEditor.setError (Str (lit "Please enter a refinement prompt")) st, []).
Proof.
  intros H. unfold RefinementEditor.handleRefine. rewrite H. reflexivity.
Qed.

Lemma handleRefine_sends (p : RefinementEditor.Params)
    (st : RefinementEditor.State) (post get : promise value Api.thrown) :
  trim (RefinementEditor.prompt st) <> [] ->
  exists rest,
    (RefinementEditor.handleRefine p st post get).2 = refine_request p st :: rest
    /\ Forall (fun e => forall url body, e <> Api.Post url body) rest.
Proof.
  intros H. unfold RefinementEditor.handleRefine.
  destruct (trim (RefinementEditor.prompt st)) as [|c t] eqn:E; [congruence|].
  simpl. destruct post as [data|err]; simpl.
  - destruct (Js.get data "content") as [c0|]; simpl.
    + destruct get as [d|e]; simpl; eexists; (split; [reflexivity|]);
        repeat constructor; discriminate.
    + eexists. split; [reflexivity | constructor].
  - eexists. split; [reflexivity | constructor].
Qed.

(** Without a prompt and without content, refining an item that has no
    content is a validation error, and nothing is generated. *)
Lemma refine_nothing_supplied (caller id : nat) (fb : option Feedback)
    (cm : option text) (now : nat) (llm : Generator) (s : Store)
    (it : ContentItem) (p : Project) :
  items s !! id = Some it ->
  authorize caller (project_id it) s = Success p ->
  has_content (content it) = false ->
  refine caller id None None fb cm now llm s = ([], Failure ValidationError).
Proof.
  intros Hit Ha Hc. unfold refine. rewrite Hit, Ha, Hc. reflexivity.
Qed.

(** C4. refine fails with ValidationError when neither a prompt nor
    replacement content is supplied for an item whose content is empty.
    On the client, handleRefine sends no request at all when the prompt is
    empty or whitespace-only and reports 'Please enter a refinement
    prompt'; otherwise it sends one refine request, whose body carries the
    prompt as typed together with the current content, so every refine
    request it sends carries a non-blank prompt. *)
Theorem refine_needs_input :
  (forall (caller id : nat) (fb : option Feedback) (cm : option text) (now : nat)
      (llm : Generator) (s : Store) (it : ContentItem) (p : Project),
      items s !! id = Some it ->
      authorize caller (project_id it) s = Success p ->
      has_content (content it) = false ->
      refine caller id None None fb cm now llm s = ([], Failure ValidationError))
  /\ (forall (p : RefinementEditor.Params) (st : RefinementEditor.State)
        (post get : promise value Api.thrown),
      let out := RefinementEditor.handleRefine p st post get in
      (forallb is_trimmed (RefinementEditor.prompt st) = true ->
         out.2 = []
         /\ RefinementEditor.error out.1 = Str (lit "Please enter a refinement prompt"))
      /\ (forall url body, In (Api.Post url body) out.2 ->
            trim (RefinementEditor.prompt st) <> []
            /\ url = RefinementEditor.refine_endpoint p
            /\ Js.get body "prompt" = Some (Str (RefinementEditor.prompt st))
            /\ Js.get body "content" = Some (RefinementEditor.content st))
      /\ (trim (RefinementEditor.prompt st) <> [] ->
            exists rest,
              out.2 = refine_request p st :: rest
              /\ Forall (fun e => forall url body, e <> Api.Post url body) rest)).
Proof.
  split; [intros; eapply refine_nothing_supplied; eauto|].
  intros p st post get out. subst out. split.
  - intros H. apply trim_nil_iff in H.
    rewrite (handleRefine_blank p st post get H). auto.
  - split; [|apply handleRefine_sends].
    intros url body Hin.
    destruct (trim (RefinementEditor.prompt st)) as [|c t] eqn:E.
    + rewrite (handleRefine_blank p st post get E) in Hin. destruct Hin.
    + destruct (handleRefine_sends p st post get) as [rest [Hout Hrest]];
        [congruence|].
      rewrite Hout in Hin. destruct Hin as [Hin|Hin].
      * unfold refine_request in Hin. injection Hin as <- <-.
        repeat split; try reflexivity. discriminate.
      * rewrite List.Forall_forall in Hrest.
        exfalso. exact (Hrest _ Hin url body eq_refl).
Qed.

End Refine.

(** ** Saving a manual edit *)

Section ManualEdit.

Import Backend.

Lemma handleSave_sends (p : RefinementEditor.Params)
    (st : RefinementEditor.State) (post get : promise value Api.thrown) :
  exists rest,
    (RefinementEditor.handleSave p st post get).2
    = Api.Post (RefinementEditor.refine_endpoint p) (Obj (save_fields st)) :: rest
    /\ Forall (fun e => forall url body, e <> Api.Post url body) rest.
Proof.
  unfold RefinementEditor.handleSave.
  destruct post as [data|err]; simpl.
  - destruct get as [d|e]; simpl; eexists; (split; [reflexivity|]);
      repeat constructor; discriminate.
  - eexists. split; [reflexivity | constructor].
Qed.

Lemma or_null (s : jsstring) :
  or_else (Str s) Null = match s with [] => Null | _ => Str s end.
Proof. destruct s; reflexivity. Qed.

(** The manual path of refine: no generation call, and on success the
    content is the caller's and one record with a null prompt is appended. *)
Lemma refine_manual (caller id : nat) (c : text) (fb : option Feedback)
    (cm : option text) (now : nat) (llm : Generator) (s : Store) :
  (refine caller id None (Some c) fb cm now llm s).1 = []
  /\ (forall it' r s',
        (refine caller id None (Some c) fb cm now llm s).2 = Success (it', r, s') ->
        prompt r = None /\ feedback r = default none fb /\ comments r = cm
        /\ content_item_id r = id
        /\ refinements s' = refinements s ++ [r]
        /\ content it' = Some c /\ items s' !! id = Some it').
Proof.
  unfold refine, write_and_log, set_content.
  destruct (items s !! id) as [it|];
    [|split; [reflexivity | discriminate]].
  destruct (authorize caller (project_id it) s) as [p|e];
    [|split; [reflexivity | discriminate]].
  split; [reflexivity|]. intros it' r s'. cbn [fst snd].
  intros [= <- <- <-]. cbn. repeat split. apply lookup_insert_eq.
Qed.

Lemma refine_manual_succeeds (caller id : nat) (c : text) (fb : option Feedback)
    (cm : option text) (now : nat) (llm : Generator) (s : Store)
    (it : ContentItem) (p : Project) :
  items s !! id = Some it ->
  authorize caller (project_id it) s = Success p ->
  exists it' r s',
    (refine caller id None (Some c) fb cm now llm s).2 = Success (it', r, s').
Proof.
  intros Hit Ha. unfold refine, write_and_log, set_content.
  rewrite Hit, Ha. cbn [fst snd]. eauto.
Qed.

(** C5. The manual-edit path of refine supplies content directly, with no
    prompt, and makes no text-generation call.  For every invocation of
    handleSave the one refine request has a body with the edited content,
    feedback and comments (each null when the editor field is empty) and no
    prompt field; and refine without a prompt and with content makes no
    generation call and, whenever the item exists and the caller owns its
    project, succeeds, stores that content and appends one Refinement
    Record whose prompt is null. *)
Theorem manual_edit_has_no_prompt :
  (forall (p : RefinementEditor.Params) (st : RefinementEditor.State)
      (post get : promise value Api.thrown),
      (exists rest,
          (RefinementEditor.handleSave p st post get).2
          = Api.Post (RefinementEditor.refine_endpoint p) (Obj (save_fields st))
              :: rest
          /\ Forall (fun e => forall url body, e <> Api.Post url body) rest)
      /\ field "prompt" (save_fields st) = None
      /\ field "content" (save_fields st) = Some (RefinementEditor.content st)
      /\ field "feedback" (save_fields st)
         = Some (match RefinementEditor.feedback st with
                 | [] => Null
                 | _ => Str (RefinementEditor.feedback st)
                 end)
      /\ field "comments" (save_fields st)
         = Some (match RefinementEditor.comments st with
                 | [] => Null
                 | _ => Str (RefinementEditor.comments st)
                 end))
  /\ (forall (caller id : nat) (c : text) (fb : option Feedback) (cm : option text)
        (now : nat) (llm : Generator) (s : Store),
      (refine caller id None (Some c) fb cm now llm s).1 = []
      /\ (forall it' r s',
            (refine caller id None (Some c) fb cm now llm s).2
            = Success (it', r, s') ->
            prompt r = None /\ feedback r = default none fb /\ comments r = cm
            /\ content_item_id r = id
            /\ refinements s' = refinements s ++ [r]
            /\ content it' = Some c /\ items s' !! id = Some it')
      /\ (forall it p,
            items s !! id = Some it ->
            authorize caller (project_id it) s = Success p ->
            exists it' r s',
              (refine caller id None (Some c) fb cm now llm s).2
              = Success (it', r, s'))).
Proof.
  split.
  - intros p st post get. split; [apply handleSave_sends|].
    unfold save_fields. simpl. rewrite !or_null. repeat split; reflexivity.
  - intros caller id c fb cm now llm s.
    destruct (refine_manual caller id c fb cm now llm s) as [H1 H2].
    split; [exact H1|]. split; [exact H2|].
    intros it p. apply refine_manual_succeeds.
Qed.

End ManualEdit.

(** ** The scenarios, worked *)

Section Worked.

Import Backend Scenario.

Example lit_login : lit "/login" = [47; 108; 111; 103; 105; 110]%N.
Proof. reflexivity. Qed.

Example trim_strips_unicode_space :
  trim (lit "  a b " ++ [0x00A0; 0x2028]%N) = lit "a b".
Proof. reflexivity. Qed.

(** Generating all three sections with the mock generator. *)
Example generate_all_sections :
  (fun it => (title it, content it, is_generated it))
    <$> items_of 1 (run (setup mock) empty_store)
  = [ (lit "Intro", Some (lit "Intro content"), true);
      (lit "Body", Some (lit "Body content"), true);
      (lit "Conclusion", Some (lit "Conclusion content"), true) ].
Proof. vm_compute. reflexivity. Qed.

(** Refining item 2 with the prompt "shorten". *)
Example refine_shorten :
  match (refine 7 2 (Some (lit "shorten")) None None None 6 mock
           (run (setup mock) empty_store)).2 with
  | Success (it, r, s') =>
      content it = Some (lit "shortened: Intro content")
      /\ prompt r = Some (lit "shorten") /\ feedback r = none
      /\ length (refinements s') = 1
  | Failure _ => False
  end.
Proof. vm_compute. auto. Qed.

(** After deleting the project its items, refinements and revisions are
    NotFound. *)
Example delete_cascades :
  let s := run (setup mock ++ edits ++ [DeleteProject 7 1]) empty_store in
  get_items 7 1 s = Failure NotFound
  /\ list_refinements 7 2 s = Failure NotFound
  /\ list_revisions 7 1 s = Failure NotFound
  /\ revisions_of 1 s = [].
Proof. vm_compute. auto. Qed.

(** Two revisions in a row are numbered 1 and 2. *)
Example two_revisions :
  revision_numbers 1
    (run (setup mock ++ [CreateRevision 7 1 5; CreateRevision 7 1 5]) empty_store)
  = [1; 2].
Proof. vm_compute. reflexivity. Qed.

(** An assignment past the end leaves a hole, which removal skips. *)
Example change_past_the_end :
  WordBuilder.outline
    (WordBuilder.handleSectionChange 2 (Str (lit "x")) WordBuilder.initial)
  = [Some (Str []); None; Some (Str (lit "x"))]
  /\ WordBuilder.outline
       (WordBuilder.handleRemoveSection 0
          (WordBuilder.handleSectionChange 2 (Str (lit "x")) WordBuilder.initial))
     = [Some (Str (lit "x"))].
Proof. split; reflexivity. Qed.

Lemma revision_numbers_gapless_witness :
  exists rev s',
    create_revision 7 1 9 (run (setup mock ++ [CreateRevision 7 1 5]) empty_store)
    = Success (rev, s')
    /\ revision_number rev = 2
    /\ revision_numbers 1 s' = [1; 2].
Proof.
  eexists _, _.
  assert (Hc : create_revision 7 1 9
                 (run (setup mock ++ [CreateRevision 7 1 5]) empty_store)
               = Success _) by (vm_compute; reflexivity).
  split; [exact Hc|].
  destruct (revision_numbers_gapless (setup mock ++ [CreateRevision 7 1 5]) 1)
    as (_ & _ & _ & H).
  destruct (H _ _ _ _ Hc) as (_ & Hn & _ & Happ).
  split; [rewrite Hn | rewrite Happ]; vm_compute; reflexivity.
Defined.

Lemma revision_snapshot_immutable_witness :
  exists rev s1,
    create_revision 7 1 5 (run (setup mock) empty_store) = Success (rev, s1)
    /\ get_revision 7 1 (revision_number rev) (run edits s1) = Success rev
    /\ snapshot rev
       = [ (lit "Intro", Some (lit "Intro content"));
           (lit "Body", Some (lit "Body content"));
           (lit "Conclusion", Some (lit "Conclusion content")) ]
    /\ (fun it => (title it, content it)) <$> items_of 1 (run edits s1)
       = [ (lit "Intro", Some (lit "shortened: Intro content"));
           (lit "Body", Some []);
           (lit "Conclusion", Some (lit "Conclusion content")) ].
Proof.
  eexists _, _.
  assert (Hc : create_revision 7 1 5 (run (setup mock) empty_store) = Success _)
    by (vm_compute; reflexivity).
  split; [exact Hc|].
  destruct (revision_snapshot_immutable (setup mock) edits 7 1 5 _ _ Hc)
    as (Hs & Hg & _).
  { vm_compute. eexists. reflexivity. }
  split; [exact Hg|]. split; [rewrite Hs|]; vm_compute; reflexivity.
Defined.


Lemma refine_needs_input_witness :
  refine 7 2 None None (Some like) None 6 mock (run (setup mute) empty_store)
  = ([], Failure ValidationError)
  /\ (RefinementEditor.handleRefine section_params
        (editor_with "Intro content" "   " "") (Resolved Null) (Resolved (Arr []))).2
     = []
  /\ exists rest,
       (RefinementEditor.handleRefine section_params
          (editor_with "Intro content" "shorten" "")
          (Resolved (Obj [("content"%string, Str (lit "short"))]))
          (Resolved (Arr []))).2
       = refine_request section_params (editor_with "Intro content" "shorten" "")
           :: rest.
Proof.
  destruct refine_needs_input as [B C]. split.
  - eapply (B 7 2 (Some like) None 6 mock (run (setup mute) empty_store));
      vm_compute; reflexivity.
  - split.
    + apply (C section_params (editor_with "Intro content" "   " "")).
      reflexivity.
    + destruct (C section_params (editor_with "Intro content" "shorten" "")
                  (Resolved (Obj [("content"%string, Str (lit "short"))]))
                  (Resolved (Arr []))) as (_ & _ & S).
      destruct S as [rest [E _]]; [vm_compute; discriminate|].
      exists rest. exact E.
Defined.

Lemma manual_edit_has_no_prompt_witness :
  field "prompt" (save_fields (editor_with "edited" "" "like")) = None
  /\ field "feedback" (save_fields (editor_with "edited" "" "like"))
     = Some (Str (lit "like"))
  /\ field "comments" (save_fields (editor_with "edited" "" "like")) = Some Null
  /\ exists it' r s',
       (refine 7 2 None (Some (lit "edited")) (Some like) None 6 mock
          (run (setup mock) empty_store)).2 = Success (it', r, s')
       /\ prompt r = None /\ content it' = Some (lit "edited").
Proof.
  destruct manual_edit_has_no_prompt as [C B].
  destruct (C section_params (editor_with "edited" "" "like")
              (Resolved Null) (Resolved (Arr []))) as (_ & Hp & _ & Hf & Hc).
  split; [exact Hp|]. split; [exact Hf|]. split; [exact Hc|].
  destruct (B 7 2 (lit "edited") (Some like) None 6 mock
              (run (setup mock) empty_store)) as (_ & R & S).
  edestruct S as (it' & r & s' & E); [vm_compute; reflexivity ..|].
  exists it', r, s'. split; [exact E|].
  destruct (R _ _ _ E) as (Hr & _ & _ & _ & _ & Hi & _). auto.
Defined.

Lemma save_needs_a_title_witness :
  (WordBuilder.handleSave (lit "1") (word_outline [""; "   "]) (Resolved Null)).1.2
  = []
  /\ (exists rest,
        (WordBuilder.handleSave (lit "1") (word_outline ["Intro"; " "; "Body"])
           (Resolved Null)).1.2
        = word_config_request (lit "1") [lit "Intro"; lit "Body"] (Str []) :: rest)
  /\ WordBuilder.error
       (WordBuilder.handleSave (lit "1") (word_outline [""; "   "]) (Resolved Null)).1.1
     = Str (lit "Please add at least one section")
  /\ PPTBuilder.error
       (PPTBuilder.handleSave (lit "1") (ppt_titles [""]) (Resolved Null)).1.1
     = Str (lit "Please add at least one slide").
Proof.
  destruct (save_needs_a_title (lit "1") (Resolved Null))
    as (_ & W & _ & P).
  destruct (W (word_outline [""; "   "]) [lit ""; lit "   "] eq_refl) as [E _].
  destruct (W (word_outline ["Intro"; " "; "Body"])
              [lit "Intro"; lit " "; lit "Body"] eq_refl) as [_ K].
  destruct (P (ppt_titles [""]) [lit ""] eq_refl) as [Q _].
  split; [apply E; reflexivity|].
  split.
  - destruct K as [rest [Hr _]]; [vm_compute; discriminate|]. exists rest. exact Hr.
  - split; [apply E | apply Q]; reflexivity.
Defined.

End Worked.

(** * Further properties of the client *)

(** ** Editing the outline *)

Section OutlineEdits.

Lemma spread_dense (l : list value) : spread (dense l) = l.
Proof.
  unfold spread, dense. rewrite List.map_map. simpl. apply List.map_id.
Qed.

Lemma dense_lookup (l : list value) (j : nat) :
  dense l !! j = Some <$> l !! j.
Proof. unfold dense. apply (list_lookup_fmap Some). Qed.

Lemma dense_spread_lookup (arr : list (option value)) (j : nat) :
  dense (spread arr) !! j = (fun e => Some (default Undefined e)) <$> arr !! j.
Proof.
  rewrite dense_lookup. unfold spread.
  rewrite (list_lookup_fmap (default Undefined)).
  destruct (arr !! j); reflexivity.
Qed.

Lemma dense_inj (l l' : list value) : dense l = dense l' -> l = l'.
Proof.
  intros H. rewrite <- (spread_dense l), <- (spread_dense l'). now rewrite H.
Qed.

(** In range, an assignment overwrites one entry of the dense copy. *)
Lemma assign_in_range (arr : list (option value)) (i : nat) (v : value) :
  i < length arr ->
  assign (spread arr) i v = <[i := Some v]> (dense (spread arr)).
Proof.
  intros H. unfold assign. rewrite length_spread.
  destruct (Nat.ltb_spec i (length arr)); [reflexivity | lia].
Qed.

Lemma assign_entries (arr : list (option value)) (i : nat) (v : value) :
  i < length arr ->
  assign (spread arr) i v !! i = Some (Some v)
  /\ length (assign (spread arr) i v) = length arr
  /\ (forall j, j <> i ->
        assign (spread arr) i v !! j
        = (fun e => Some (default Undefined e)) <$> arr !! j).
Proof.
  intros H. rewrite (assign_in_range arr i v H). split.
  - apply list_lookup_insert_eq. now rewrite length_dense, length_spread.
  - split.
    + now rewrite length_insert, length_dense, length_spread.
    + intros j Hj. rewrite list_lookup_insert_ne by congruence.
      apply dense_spread_lookup.
Qed.

(** On a dense array, removal by index deletes exactly that entry, and
    nothing when the index is past the end. *)
Lemma filter_from_delete (index : nat) (l : list value) :
  forall i0,
    filter_from (fun _ j => Some (negb (Nat.eqb j index))) i0 (dense l)
    = Some (if decide (i0 <= index) then delete (index - i0) l else l).
Proof.
  unfold dense. induction l as [|x l IH]; intros i0.
  - simpl. now destruct (decide (i0 <= index)).
  - change (filter_from (fun _ j => Some (negb (Nat.eqb j index))) i0
              (List.map Some (x :: l)))
      with (match filter_from (fun _ j => Some (negb (Nat.eqb j index))) (S i0)
                    (List.map Some l) with
            | Some out => Some (if negb (Nat.eqb i0 index) then x :: out else out)
            | None => None
            end).
    rewrite (IH (S i0)).
    destruct (Nat.eqb_spec i0 index) as [->|Hne]; simpl.
    + rewrite decide_False by lia. rewrite decide_True by lia.
      now rewrite Nat.sub_diag.
    + destruct (decide (i0 <= index)) as [Hle|Hgt].
      * rewrite decide_True by lia.
        replace (index - i0) with (S (index - S i0)) by lia. reflexivity.
      * rewrite decide_False by lia. reflexivity.
Qed.

Lemma array_filter_delete (index : nat) (l : list value) :
  array_filter (fun _ j => Some (negb (Nat.eqb j index))) (dense l)
  = Some (delete index l).
Proof.
  unfold array_filter. rewrite filter_from_delete.
  rewrite decide_True by lia. now rewrite Nat.sub_0_r.
Qed.

(** X1. handleSectionChange and handleSlideChange at the index of an
    existing row put the new value at that index, keep the length, keep
    every other row (a hole reads as undefined) and touch nothing else of
    the page state. *)
Theorem change_overwrites_one_row (i : nat) (v : value) :
  (forall st : WordBuilder.State,
      i < length (WordBuilder.outline st) ->
      let st' := WordBuilder.handleSectionChange i v st in
      WordBuilder.outline st' !! i = Some (Some v)
      /\ length (WordBuilder.outline st') = length (WordBuilder.outline st)
      /\ (forall j, j <> i ->
            WordBuilder.outline st' !! j
            = (fun e => Some (default Undefined e)) <$> WordBuilder.outline st !! j)
      /\ WordBuilder.context st' = WordBuilder.context st
      /\ WordBuilder.error st' = WordBuilder.error st
      /\ WordBuilder.saving st' = WordBuilder.saving st)
  /\ (forall st : PPTBuilder.State,
      i < length (PPTBuilder.slideTitles st) ->
      let st' := PPTBuilder.handleSlideChange i v st in
      PPTBuilder.slideTitles st' !! i = Some (Some v)
      /\ length (PPTBuilder.slideTitles st') = length (PPTBuilder.slideTitles st)
      /\ (forall j, j <> i ->
            PPTBuilder.slideTitles st' !! j
            = (fun e => Some (default Undefined e)) <$> PPTBuilder.slideTitles st !! j)
      /\ PPTBuilder.context st' = PPTBuilder.context st
      /\ PPTBuilder.error st' = PPTBuilder.error st
      /\ PPTBuilder.saving st' = PPTBuilder.saving st).
Proof.
  split; intros st H; simpl;
    destruct (assign_entries _ i v H) as (H1 & H2 & H3); auto 10.
Qed.

Lemma change_overwrites_one_row_witness :
  WordBuilder.outline
    (WordBuilder.handleSectionChange 1 (Str (lit "Body"))
       (Scenario.word_outline ["Intro"; ""; "End"]))
  !! 1 = Some (Some (Str (lit "Body")))
  /\ length (PPTBuilder.slideTitles
               (PPTBuilder.handleSlideChange 0 (Str (lit "Title")) PPTBuilder.initial))
     = 1.
Proof.
  destruct (change_overwrites_one_row 1 (Str (lit "Body"))) as [W _].
  destruct (change_overwrites_one_row 0 (Str (lit "Title"))) as [_ P].
  split.
  - apply (W (Scenario.word_outline ["Intro"; ""; "End"])). simpl. lia.
  - destruct (P PPTBuilder.initial) as (_ & L & _); [simpl; lia|]. exact L.
Defined.

(** X2. On an outline without holes, handleRemoveSection and
    handleRemoveSlide delete exactly the row at the index when the list
    has more than one row, shifting the later rows up; an index past the
    end, or a list of at most one row, leaves the rows as they are. *)
Theorem remove_deletes_one_row (index : nat) (l : list value) :
  (forall st : WordBuilder.State,
      WordBuilder.outline st = dense l ->
      WordBuilder.outline (WordBuilder.handleRemoveSection index st)
      = dense (if Nat.ltb 1 (length l) then delete index l else l))
  /\ (forall st : PPTBuilder.State,
      PPTBuilder.slideTitles st = dense l ->
      PPTBuilder.slideTitles (PPTBuilder.handleRemoveSlide index st)
      = dense (if Nat.ltb 1 (length l) then delete index l else l))
  /\ (length l <= index -> delete index l = l)
  /\ (index < length l -> length (delete index l) = length l - 1).
Proof.
  split; [|split; [|split]].
  - intros st H. unfold WordBuilder.handleRemoveSection.
    rewrite H, length_dense, array_filter_delete.
    now destruct (Nat.ltb 1 (length l)).
  - intros st H. unfold PPTBuilder.handleRemoveSlide.
    rewrite H, length_dense, array_filter_delete.
    now destruct (Nat.ltb 1 (length l)).
  - revert index. induction l as [|x l IH]; intros [|index] H; simpl in *;
      try reflexivity; try lia.
    f_equal. apply IH. lia.
  - intros H. apply length_delete, lookup_lt_is_Some_2, H.
Qed.

Lemma remove_deletes_one_row_witness :
  WordBuilder.outline
    (WordBuilder.handleRemoveSection 1 (Scenario.word_outline ["Intro"; "Body"; "End"]))
  = dense [Str (lit "Intro"); Str (lit "End")]
  /\ delete 5 [Str (lit "Intro"); Str (lit "End")] = [Str (lit "Intro"); Str (lit "End")]
  /\ length (delete 0 [Str (lit "Intro"); Str (lit "End")]) = 1.
Proof.
  destruct (remove_deletes_one_row 1 [Str (lit "Intro"); Str (lit "Body"); Str (lit "End")])
    as [W _].
  destruct (remove_deletes_one_row 5 [Str (lit "Intro"); Str (lit "End")])
    as (_ & _ & O & _).
  destruct (remove_deletes_one_row 0 [Str (lit "Intro"); Str (lit "End")])
    as (_ & _ & _ & I).
  split; [apply (W (Scenario.word_outline ["Intro"; "Body"; "End"]) eq_refl)|].
  split; [apply O; simpl; lia | apply I; simpl; lia].
Defined.

Lemma word_state_eq (st : WordBuilder.State) (o : list (option value)) :
  WordBuilder.outline st = o -> WordBuilder.setOutline o st = st.
Proof. destruct st. simpl. now intros <-. Qed.

Lemma ppt_state_eq (st : PPTBuilder.State) (o : list (option value)) :
  PPTBuilder.slideTitles st = o -> PPTBuilder.setSlideTitles o st = st.
Proof. destruct st. simpl. now intros <-. Qed.

(** X3. Adding a row and then removing that new last row gives back the
    page state, on any non-empty outline without holes; on the empty
    outline the added row stays, since a single row cannot be removed. *)
Theorem add_then_remove_last (l : list value) :
  (forall st : WordBuilder.State,
      WordBuilder.outline st = dense l ->
      (l <> [] ->
         WordBuilder.handleRemoveSection (length l) (WordBuilder.handleAddSection st)
         = st)
      /\ (l = [] ->
            WordBuilder.outline
              (WordBuilder.handleRemoveSection (length l)
                 (WordBuilder.handleAddSection st))
            = [Some (Str [])]))
  /\ (forall st : PPTBuilder.State,
      PPTBuilder.slideTitles st = dense l ->
      (l <> [] ->
         PPTBuilder.handleRemoveSlide (length l) (PPTBuilder.handleAddSlide st) = st)
      /\ (l = [] ->
            PPTBuilder.slideTitles
              (PPTBuilder.handleRemoveSlide (length l) (PPTBuilder.handleAddSlide st))
            = [Some (Str [])])).
Proof.
  split; intros st H.
  - split.
    + intros Hl. unfold WordBuilder.handleAddSection, WordBuilder.handleRemoveSection.
      rewrite H, spread_dense. simpl. rewrite length_dense, length_app. simpl.
      destruct (Nat.ltb_spec 1 (length l + 1)) as [_|Hlt];
        [|destruct l; [congruence | simpl in Hlt; lia]].
      rewrite array_filter_delete, delete_middle, app_nil_r.
      destruct st. simpl in *. now subst.
    + intros ->. unfold WordBuilder.handleAddSection. rewrite H. reflexivity.
  - split.
    + intros Hl. unfold PPTBuilder.handleAddSlide, PPTBuilder.handleRemoveSlide.
      rewrite H, spread_dense. simpl. rewrite length_dense, length_app. simpl.
      destruct (Nat.ltb_spec 1 (length l + 1)) as [_|Hlt];
        [|destruct l; [congruence | simpl in Hlt; lia]].
      rewrite array_filter_delete, delete_middle, app_nil_r.
      destruct st. simpl in *. now subst.
    + intros ->. unfold PPTBuilder.handleAddSlide. rewrite H. reflexivity.
Qed.

Lemma add_then_remove_last_witness :
  WordBuilder.handleRemoveSection 2
    (WordBuilder.handleAddSection (Scenario.word_outline ["Intro"; "Body"]))
  = Scenario.word_outline ["Intro"; "Body"]
  /\ PPTBuilder.handleRemoveSlide 1 (PPTBuilder.handleAddSlide PPTBuilder.initial)
     = PPTBuilder.initial.
Proof.
  destruct (add_then_remove_last [Str (lit "Intro"); Str (lit "Body")]) as [W _].
  destruct (add_then_remove_last [Str []]) as [_ P].
  split.
  - apply (W (Scenario.word_outline ["Intro"; "Body"]) eq_refl). discriminate.
  - apply (P PPTBuilder.initial eq_refl). discriminate.
Defined.

(** One edit from the inputs keeps the outline a non-empty list of
    strings. *)
Lemma word_inputs_keep_strings (st : WordBuilder.State) (e : WordBuilder.edit)
    (titles : list jsstring) :
  WordBuilder.outline st = dense (Str <$> titles) -> titles <> [] ->
  WordBuilder.from_inputs st e ->
  exists titles',
    WordBuilder.outline (WordBuilder.apply_edit st e) = dense (Str <$> titles')
    /\ titles' <> [].
Proof.
  intros H Hne Hin. destruct e as [|index|index v]; simpl in *.
  - exists (titles ++ [[]]). rewrite H, spread_dense, fmap_app.
    split; [reflexivity | now destruct titles].
  - unfold WordBuilder.handleRemoveSection.
    rewrite H, length_dense, array_filter_delete, length_fmap in *.
    destruct (Nat.ltb_spec 1 (length titles)) as [Hlt|_]; simpl.
    + exists (delete index titles). rewrite list_fmap_delete.
      split; [reflexivity|]. intros E. apply (f_equal length) in E.
      rewrite length_delete in E by (apply lookup_lt_is_Some_2; exact Hin).
      simpl in E. lia.
    + exists titles. auto.
  - destruct Hin as [Hi [s ->]]. unfold WordBuilder.handleSectionChange. simpl.
    rewrite assign_in_range by exact Hi. rewrite H, spread_dense.
    exists (<[index := s]> titles). unfold dense.
    rewrite list_fmap_insert, <- (list_fmap_insert Some).
    split; [reflexivity|]. intros E. apply (f_equal length) in E.
    rewrite length_insert in E. destruct titles; [congruence | discriminate].
Qed.

Lemma ppt_inputs_keep_strings (st : PPTBuilder.State) (e : PPTBuilder.edit)
    (titles : list jsstring) :
  PPTBuilder.slideTitles st = dense (Str <$> titles) -> titles <> [] ->
  PPTBuilder.from_inputs st e ->
  exists titles',
    PPTBuilder.slideTitles (PPTBuilder.apply_edit st e) = dense (Str <$> titles')
    /\ titles' <> [].
Proof.
  intros H Hne Hin. destruct e as [|index|index v]; simpl in *.
  - exists (titles ++ [[]]). rewrite H, spread_dense, fmap_app.
    split; [reflexivity | now destruct titles].
  - unfold PPTBuilder.handleRemoveSlide.
    rewrite H, length_dense, array_filter_delete, length_fmap in *.
    destruct (Nat.ltb_spec 1 (length titles)) as [Hlt|_]; simpl.
    + exists (delete index titles). rewrite list_fmap_delete.
      split; [reflexivity|]. intros E. apply (f_equal length) in E.
      rewrite length_delete in E by (apply lookup_lt_is_Some_2; exact Hin).
      simpl in E. lia.
    + exists titles. auto.
  - destruct Hin as [Hi [s ->]]. unfold PPTBuilder.handleSlideChange. simpl.
    rewrite assign_in_range by exact Hi. rewrite H, spread_dense.
    exists (<[index := s]> titles). unfold dense.
    rewrite list_fmap_insert, <- (list_fmap_insert Some).
    split; [reflexivity|]. intros E. apply (f_equal length) in E.
    rewrite length_insert in E. destruct titles; [congruence | discriminate].
Qed.

Lemma word_save_settles (projectId : jsstring) (st : WordBuilder.State)
    (post : promise value Api.thrown) (titles : list jsstring) :
  WordBuilder.outline st = dense (Str <$> titles) ->
  (WordBuilder.handleSave projectId st post).2 = Resolved tt.
Proof.
  intros H. unfold WordBuilder.handleSave, array_filter. simpl.
  rewrite H, filter_not_blank_strings.
  destruct (Nat.eqb _ 0); [reflexivity|]. now destruct post.
Qed.

Lemma ppt_save_settles (projectId : jsstring) (st : PPTBuilder.State)
    (post : promise value Api.thrown) (titles : list jsstring) :
  PPTBuilder.slideTitles st = dense (Str <$> titles) ->
  (PPTBuilder.handleSave projectId st post).2 = Resolved tt.
Proof.
  intros H. unfold PPTBuilder.handleSave, array_filter. simpl.
  rewrite H, filter_not_blank_strings.
  destruct (Nat.eqb _ 0); [reflexivity|]. now destruct post.
Qed.

(** X4. In every state a builder page reaches from its initial state
    through its own inputs (add, remove a rendered row, type into a
    rendered row), the outline is a non-empty list of strings without
    holes, so handleSave never throws there: it always settles normally. *)
Theorem inputs_keep_outline_saveable :
  (forall st : WordBuilder.State,
      WordBuilder.reachable st ->
      (exists titles,
          WordBuilder.outline st = dense (Str <$> titles) /\ titles <> [])
      /\ (forall projectId post,
            (WordBuilder.handleSave projectId st post).2 = Resolved tt))
  /\ (forall st : PPTBuilder.State,
      PPTBuilder.reachable st ->
      (exists titles,
          PPTBuilder.slideTitles st = dense (Str <$> titles) /\ titles <> [])
      /\ (forall projectId post,
            (PPTBuilder.handleSave projectId st post).2 = Resolved tt)).
Proof.
  split; intros st R.
  - assert (T : exists titles,
               WordBuilder.outline st = dense (Str <$> titles) /\ titles <> []).
    { induction R as [|st e R [titles [H Hne]] Hin].
      - exists [[]]. split; [reflexivity | discriminate].
      - eapply word_inputs_keep_strings; eauto. }
    split; [exact T|]. destruct T as [titles [H _]].
    intros projectId post. eapply word_save_settles, H.
  - assert (T : exists titles,
               PPTBuilder.slideTitles st = dense (Str <$> titles) /\ titles <> []).
    { induction R as [|st e R [titles [H Hne]] Hin].
      - exists [[]]. split; [reflexivity | discriminate].
      - eapply ppt_inputs_keep_strings; eauto. }
    split; [exact T|]. destruct T as [titles [H _]].
    intros projectId post. eapply ppt_save_settles, H.
Qed.

Lemma inputs_keep_outline_saveable_witness :
  (WordBuilder.handleSave (lit "1")
     (WordBuilder.apply_edit
        (WordBuilder.apply_edit WordBuilder.initial WordBuilder.AddSection)
        (WordBuilder.SectionChange 1 (Str (lit "Body"))))
     (Resolved Null)).2 = Resolved tt
  /\ (PPTBuilder.handleSave (lit "1")
        (PPTBuilder.apply_edit PPTBuilder.initial (PPTBuilder.RemoveSlide 0))
        (Resolved Null)).2 = Resolved tt.
Proof.
  destruct inputs_keep_outline_saveable as [W P]. split.
  - apply W. apply WordBuilder.reach_edit.
    + apply WordBuilder.reach_edit; [apply WordBuilder.reach_initial | exact I].
    + simpl. split; [lia | eauto].
  - apply P. apply PPTBuilder.reach_edit; [apply PPTBuilder.reach_initial|].
    simpl. lia.
Defined.

End OutlineEdits.

(** ** Loading and saving a configuration *)

Section BuilderConfig.

Lemma truthy_or_else (a b : value) : truthy b = true -> truthy (or_else a b) = true.
Proof. intros H. unfold or_else. destruct (truthy a) eqn:E; assumption. Qed.

Lemma truthy_lit_or (a : value) (c : ascii) (s : string) :
  truthy (or_else a (Str (lit (String c s)))) = true.
Proof. apply truthy_or_else. reflexivity. Qed.

(** X5. fetchConfig of either builder sends the one GET for the
    configuration of its document kind.  It keeps the page state when the
    request fails or the reply has no body; a reply without an outline
    (slide_titles on the PowerPoint page) falls back to the single empty
    row; an array is taken as it is, so an empty array from the server
    leaves the page with an empty list, on which handleSave reports
    'Please add at least one section' ('... slide') without any request,
    remove does nothing and add gives one empty row; a list that is neither
    missing nor an array cannot be rendered. *)
Theorem fetchConfig_outline (projectId : jsstring) (st : WordBuilder.State)
    (pst : PPTBuilder.State) :
  ((forall get,
       (WordBuilder.fetchConfig projectId st get).2
       = [Api.Get (cat [lit "/documents/word/"; projectId; lit "/config"])])
   /\ (forall err,
         (WordBuilder.fetchConfig projectId st (Rejected err)).1
         = WordBuilder.Rendered st)
   /\ (WordBuilder.fetchConfig projectId st (Resolved Null)).1 = WordBuilder.Rendered st
   /\ (forall fields,
         truthy (default Undefined (field "outline" fields)) = false ->
         exists st',
           (WordBuilder.fetchConfig projectId st (Resolved (Obj fields))).1
           = WordBuilder.Rendered st'
           /\ WordBuilder.outline st' = [Some (Str [])]
           /\ WordBuilder.context st'
              = or_else (default Undefined (field "context" fields)) (Str []))
   /\ (forall fields l,
         field "outline" fields = Some (Arr l) ->
         exists st',
           (WordBuilder.fetchConfig projectId st (Resolved (Obj fields))).1
           = WordBuilder.Rendered st'
           /\ WordBuilder.outline st' = dense l
           /\ WordBuilder.context st'
              = or_else (default Undefined (field "context" fields)) (Str [])
           /\ (l = [] ->
                 forall post,
                   (WordBuilder.handleSave projectId st' post).1.2 = []
                   /\ WordBuilder.error (WordBuilder.handleSave projectId st' post).1.1
                      = Str (lit "Please add at least one section")
                   /\ (forall index, WordBuilder.handleRemoveSection index st' = st')
                   /\ WordBuilder.outline (WordBuilder.handleAddSection st')
                      = [Some (Str [])]))
   /\ (forall fields o,
         field "outline" fields = Some o -> truthy o = true ->
         (forall l, o <> Arr l) ->
         (WordBuilder.fetchConfig projectId st (Resolved (Obj fields))).1
         = WordBuilder.Crashed))
  /\ ((forall get,
         (PPTBuilder.fetchConfig projectId pst get).2
         = [Api.Get (cat [lit "/documents/powerpoint/"; projectId; lit "/config"])])
      /\ (forall err,
            (PPTBuilder.fetchConfig projectId pst (Rejected err)).1
            = PPTBuilder.Rendered pst)
      /\ (PPTBuilder.fetchConfig projectId pst (Resolved Null)).1
         = PPTBuilder.Rendered pst
      /\ (forall fields,
            truthy (default Undefined (field "slide_titles" fields)) = false ->
            exists st',
              (PPTBuilder.fetchConfig projectId pst (Resolved (Obj fields))).1
              = PPTBuilder.Rendered st'
              /\ PPTBuilder.slideTitles st' = [Some (Str [])]
              /\ PPTBuilder.context st'
                 = or_else (default Undefined (field "context" fields)) (Str []))
      /\ (forall fields l,
            field "slide_titles" fields = Some (Arr l) ->
            exists st',
              (PPTBuilder.fetchConfig projectId pst (Resolved (Obj fields))).1
              = PPTBuilder.Rendered st'
              /\ PPTBuilder.slideTitles st' = dense l
              /\ PPTBuilder.context st'
                 = or_else (default Undefined (field "context" fields)) (Str [])
              /\ (l = [] ->
                    forall post,
                      (PPTBuilder.handleSave projectId st' post).1.2 = []
                      /\ PPTBuilder.error (PPTBuilder.handleSave projectId st' post).1.1
                         = Str (lit "Please add at least one slide")
                      /\ (forall index, PPTBuilder.handleRemoveSlide index st' = st')
                      /\ PPTBuilder.slideTitles (PPTBuilder.handleAddSlide st')
                         = [Some (Str [])]))
      /\ (forall fields o,
            field "slide_titles" fields = Some o -> truthy o = true ->
            (forall l, o <> Arr l) ->
            (PPTBuilder.fetchConfig projectId pst (Resolved (Obj fields))).1
            = PPTBuilder.Crashed)).
Proof.
  split.
  - split.
    { intros [[| | | | | |fields]|err]; try reflexivity.
      unfold WordBuilder.fetchConfig.
      change (Js.get (Obj fields) "outline")
        with (Some (default Undefined (field "outline" fields))).
      cbv beta iota zeta.
      destruct (or_else (default Undefined (field "outline" fields)) (Arr [Str []]));
        reflexivity. }
    split; [reflexivity|]. split; [reflexivity|]. split; [|split].
    + intros fields H. unfold WordBuilder.fetchConfig.
      change (Js.get (Obj fields) "outline")
        with (Some (default Undefined (field "outline" fields))).
      cbv beta iota zeta. unfold or_else at 1. rewrite H.
      eexists. split; [reflexivity|]. split; reflexivity.
    + intros fields l H. unfold WordBuilder.fetchConfig.
      change (Js.get (Obj fields) "outline")
        with (Some (default Undefined (field "outline" fields))).
      rewrite H. cbn.
      eexists. split; [reflexivity|]. split; [reflexivity|]. split; [reflexivity|].
      intros -> post. repeat split.
    + intros fields o H Ht Hn. unfold WordBuilder.fetchConfig.
      change (Js.get (Obj fields) "outline")
        with (Some (default Undefined (field "outline" fields))).
      rewrite H. change (default Undefined (Some o)) with o. cbv beta iota zeta.
      unfold or_else at 1. rewrite Ht. destruct o; try reflexivity.
      now elim (Hn l).
  - split.
    { intros [[| | | | | |fields]|err]; try reflexivity.
      unfold PPTBuilder.fetchConfig.
      change (Js.get (Obj fields) "slide_titles")
        with (Some (default Undefined (field "slide_titles" fields))).
      cbv beta iota zeta.
      destruct (or_else (default Undefined (field "slide_titles" fields))
                  (Arr [Str []]));
        reflexivity. }
    split; [reflexivity|]. split; [reflexivity|]. split; [|split].
    + intros fields H. unfold PPTBuilder.fetchConfig.
      change (Js.get (Obj fields) "slide_titles")
        with (Some (default Undefined (field "slide_titles" fields))).
      cbv beta iota zeta. unfold or_else at 1. rewrite H.
      eexists. split; [reflexivity|]. split; reflexivity.
    + intros fields l H. unfold PPTBuilder.fetchConfig.
      change (Js.get (Obj fields) "slide_titles")
        with (Some (default Undefined (field "slide_titles" fields))).
      rewrite H. cbn.
      eexists. split; [reflexivity|]. split; [reflexivity|]. split; [reflexivity|].
      intros -> post. repeat split.
    + intros fields o H Ht Hn. unfold PPTBuilder.fetchConfig.
      change (Js.get (Obj fields) "slide_titles")
        with (Some (default Undefined (field "slide_titles" fields))).
      rewrite H. change (default Undefined (Some o)) with o. cbv beta iota zeta.
      unfold or_else at 1. rewrite Ht. destruct o; try reflexivity.
      now elim (Hn l).
Qed.

Lemma fetchConfig_outline_witness :
  (exists st',
      (WordBuilder.fetchConfig (lit "1") WordBuilder.initial
         (Resolved (Obj [("outline"%string, Arr []); ("context"%string, Null)]))).1
      = WordBuilder.Rendered st'
      /\ WordBuilder.outline st' = []
      /\ WordBuilder.context st' = Str [])
  /\ (exists st',
        (PPTBuilder.fetchConfig (lit "1") PPTBuilder.initial
           (Resolved (Obj [("context"%string, Str (lit "tone"))]))).1
        = PPTBuilder.Rendered st'
        /\ PPTBuilder.slideTitles st' = [Some (Str [])]
        /\ PPTBuilder.context st' = Str (lit "tone"))
  /\ (WordBuilder.fetchConfig (lit "1") WordBuilder.initial
        (Resolved (Obj [("outline"%string, Str (lit "Intro"))]))).1
     = WordBuilder.Crashed
  /\ (PPTBuilder.fetchConfig (lit "1") PPTBuilder.initial
        (Resolved (Obj [("slide_titles"%string, Num 3)]))).1
     = PPTBuilder.Crashed.
Proof.
  destruct (fetchConfig_outline (lit "1") WordBuilder.initial PPTBuilder.initial)
    as ((_ & _ & _ & _ & A & C) & (_ & _ & _ & F & _ & PC)).
  split; [|split; [|split]].
  - destruct (A [("outline"%string, Arr []); ("context"%string, Null)] [] eq_refl)
      as (st' & E & O & X & _).
    exists st'. split; [exact E|]. split; [exact O | exact X].
  - apply (F [("context"%string, Str (lit "tone"))]). reflexivity.
  - apply (C [("outline"%string, Str (lit "Intro"))] (Str (lit "Intro")) eq_refl).
    + reflexivity.
    + discriminate.
  - apply (PC [("slide_titles"%string, Num 3)] (Num 3) eq_refl).
    + reflexivity.
    + discriminate.
Defined.

Lemma word_save_frame (projectId : jsstring) (st : WordBuilder.State)
    (post : promise value Api.thrown) :
  let out := WordBuilder.handleSave projectId st post in
  WordBuilder.outline out.1.1 = WordBuilder.outline st
  /\ WordBuilder.context out.1.1 = WordBuilder.context st
  /\ (out.2 = Resolved tt ->
        WordBuilder.saving out.1.1 = false
        /\ ((exists d, post = Resolved d
               /\ out.1.2 <> []
               /\ last out.1.2
                  = Some (Api.NavigateTo (cat [lit "/projects/"; projectId])))
            \/ ((forall url, ~ In (Api.NavigateTo url) out.1.2)
                /\ truthy (WordBuilder.error out.1.1) = true))).
Proof.
  unfold WordBuilder.handleSave. simpl.
  destruct (array_filter WordBuilder.not_blank (WordBuilder.outline st)) as [kept|];
    simpl; [|repeat split; discriminate].
  destruct (Nat.eqb (length kept) 0); simpl.
  - repeat split. right. split; [intros url []|reflexivity].
  - destruct post as [d|err]; simpl; repeat split.
    + left. exists d. repeat split. discriminate.
    + right. split; [|apply truthy_lit_or].
      intros url [Hn|[]]. discriminate.
Qed.

Lemma ppt_save_frame (projectId : jsstring) (st : PPTBuilder.State)
    (post : promise value Api.thrown) :
  let out := PPTBuilder.handleSave projectId st post in
  PPTBuilder.slideTitles out.1.1 = PPTBuilder.slideTitles st
  /\ PPTBuilder.context out.1.1 = PPTBuilder.context st
  /\ (out.2 = Resolved tt ->
        PPTBuilder.saving out.1.1 = false
        /\ ((exists d, post = Resolved d
               /\ out.1.2 <> []
               /\ last out.1.2
                  = Some (Api.NavigateTo (cat [lit "/projects/"; projectId])))
            \/ ((forall url, ~ In (Api.NavigateTo url) out.1.2)
                /\ truthy (PPTBuilder.error out.1.1) = true))).
Proof.
  unfold PPTBuilder.handleSave. simpl.
  destruct (array_filter WordBuilder.not_blank (PPTBuilder.slideTitles st)) as [kept|];
    simpl; [|repeat split; discriminate].
  destruct (Nat.eqb (length kept) 0); simpl.
  - repeat split. right. split; [intros url []|reflexivity].
  - destruct post as [d|err]; simpl; repeat split.
    + left. exists d. repeat split. discriminate.
    + right. split; [|apply truthy_lit_or].
      intros url [Hn|[]]. discriminate.
Qed.

(** X6. handleSave of either builder never edits the outline or the
    context.  Whenever it settles normally it has reset the saving flag,
    and then either the POST resolved and its last act was to navigate to
    the project page, or it did not navigate at all and left a non-empty
    error message on the page. *)
Theorem save_navigates_or_reports (projectId : jsstring)
    (post : promise value Api.thrown) :
  (forall st : WordBuilder.State,
      let out := WordBuilder.handleSave projectId st post in
      WordBuilder.outline out.1.1 = WordBuilder.outline st
      /\ WordBuilder.context out.1.1 = WordBuilder.context st
      /\ (out.2 = Resolved tt ->
            WordBuilder.saving out.1.1 = false
            /\ ((exists d, post = Resolved d
                   /\ out.1.2 <> []
                   /\ last out.1.2
                      = Some (Api.NavigateTo (cat [lit "/projects/"; projectId])))
                \/ ((forall url, ~ In (Api.NavigateTo url) out.1.2)
                    /\ truthy (WordBuilder.error out.1.1) = true))))
  /\ (forall st : PPTBuilder.State,
      let out := PPTBuilder.handleSave projectId st post in
      PPTBuilder.slideTitles out.1.1 = PPTBuilder.slideTitles st
      /\ PPTBuilder.context out.1.1 = PPTBuilder.context st
      /\ (out.2 = Resolved tt ->
            PPTBuilder.saving out.1.1 = false
            /\ ((exists d, post = Resolved d
                   /\ out.1.2 <> []
                   /\ last out.1.2
                      = Some (Api.NavigateTo (cat [lit "/projects/"; projectId])))
                \/ ((forall url, ~ In (Api.NavigateTo url) out.1.2)
                    /\ truthy (PPTBuilder.error out.1.1) = true)))).
Proof.
  split; intros st; [apply word_save_frame | apply ppt_save_frame].
Qed.

Lemma save_navigates_or_reports_witness :
  WordBuilder.saving
    (WordBuilder.handleSave (lit "1") (Scenario.word_outline ["Intro"])
       (Rejected Api.TypeError)).1.1 = false
  /\ PPTBuilder.saving
       (PPTBuilder.handleSave (lit "1") (Scenario.ppt_titles ["Title"])
          (Resolved Null)).1.1 = false.
Proof.
  destruct (save_navigates_or_reports (lit "1") (Rejected Api.TypeError)) as [W _].
  destruct (save_navigates_or_reports (lit "1") (Resolved Null)) as [_ P].
  split.
  - apply (W (Scenario.word_outline ["Intro"])). reflexivity.
  - apply (P (Scenario.ppt_titles ["Title"])). reflexivity.
Defined.

End BuilderConfig.

(** ** The refinement editor: what each handler leaves behind *)

Section EditorOutcomes.

Import RefinementEditor.

(** X7. When handleRefine sends its request, it always ends with the
    refining flag reset and never touches feedback or comments.  If the
    reply carries new content, that content replaces the editor text, the
    prompt is cleared, no error is shown and the refinement history is
    reloaded (kept if the reload fails).  If the request fails, or the
    reply has no body, the editor text and the prompt are kept, a non-empty
    error is shown and nothing is reloaded. *)
Theorem refine_outcome (p : Params) (st : State)
    (post get : promise value Api.thrown) :
  trim (prompt st) <> [] ->
  let out := handleRefine p st post get in
  refining out.1 = false
  /\ feedback out.1 = feedback st /\ comments out.1 = comments st
  /\ (forall data c,
        post = Resolved data -> Js.get data "content" = Some c ->
        content out.1 = c /\ prompt out.1 = [] /\ error out.1 = Str []
        /\ out.2 = [refine_request p st; Api.Get (refinements_endpoint p)]
        /\ (forall d, get = Resolved d -> refinements out.1 = d)
        /\ (forall e, get = Rejected e -> refinements out.1 = refinements st))
  /\ ((forall data, post = Resolved data -> Js.get data "content" = None) ->
        content out.1 = content st /\ prompt out.1 = prompt st
        /\ refinements out.1 = refinements st
        /\ truthy (error out.1) = true
        /\ out.2 = [refine_request p st]).
Proof.
  intros H out. subst out. unfold handleRefine.
  destruct (trim (prompt st)) as [|c0 t]; [congruence|]. clear H.
  cbn [negb truthy is_empty_string].
  destruct post as [data|err].
  - destruct (Js.get data "content") as [c|] eqn:E.
    + destruct get as [d|e]; cbn;
        (split; [reflexivity|]); (split; [reflexivity|]); (split; [reflexivity|]);
        (split; [|intros F; specialize (F data eq_refl); congruence]);
        intros data' c' [= <-]; rewrite E; intros [= <-];
        repeat split; intros ? [=]; congruence.
    + cbn. (split; [reflexivity|]); (split; [reflexivity|]); (split; [reflexivity|]).
      split; [intros data' c' [= <-]; congruence|].
      intros _. repeat split.
  - cbn. (split; [reflexivity|]); (split; [reflexivity|]); (split; [reflexivity|]).
    split; [discriminate|]. intros _. repeat split.
    apply truthy_or_else. reflexivity.
Qed.

Lemma refine_outcome_witness :
  content
    (handleRefine Scenario.section_params
       (Scenario.editor_with "Intro content" "shorten" "")
       (Resolved (Obj [("content"%string, Str (lit "short"))]))
       (Rejected Api.TypeError)).1
  = Str (lit "short")
  /\ prompt
       (handleRefine Scenario.section_params
          (Scenario.editor_with "Intro content" "shorten" "")
          (Resolved Null) (Resolved (Arr []))).1
     = lit "shorten".
Proof.
  split.
  - destruct (refine_outcome Scenario.section_params
                (Scenario.editor_with "Intro content" "shorten" "")
                (Resolved (Obj [("content"%string, Str (lit "short"))]))
                (Rejected Api.TypeError)) as (_ & _ & _ & S & _);
      [vm_compute; discriminate|].
    apply (S _ _ eq_refl eq_refl).
  - destruct (refine_outcome Scenario.section_params
                (Scenario.editor_with "Intro content" "shorten" "")
                (Resolved Null) (Resolved (Arr []))) as (_ & _ & _ & _ & F);
      [vm_compute; discriminate|].
    apply F. intros data [= <-]. reflexivity.
Defined.

(** X8. handleSave of the editor never changes the text, prompt, feedback
    or comments and always ends with the saving flag reset.  It navigates
    to the project page exactly when the POST resolved, as its last act
    and after reloading the history; otherwise it stays on the page with a
    non-empty error and sends nothing after the failed POST. *)
Theorem editor_save_outcome (p : Params) (st : State)
    (post get : promise value Api.thrown) :
  let out := handleSave p st post get in
  content out.1 = content st /\ prompt out.1 = prompt st
  /\ feedback out.1 = feedback st /\ comments out.1 = comments st
  /\ saving out.1 = false
  /\ match post with
     | Resolved _ =>
         out.2 = [Api.Post (refine_endpoint p) (Obj (save_fields st));
                  Api.Get (refinements_endpoint p);
                  Api.NavigateTo (cat [lit "/projects/"; projectId p])]
         /\ error out.1 = Str []
     | Rejected _ =>
         out.2 = [Api.Post (refine_endpoint p) (Obj (save_fields st))]
         /\ truthy (error out.1) = true
     end.
Proof.
  unfold handleSave. destruct post as [d|err]; simpl.
  - destruct get as [d'|e]; simpl; repeat split.
  - repeat split. apply truthy_lit_or.
Qed.

(** X9. handleCreateRevision shows 'Revision created successfully' exactly
    when the POST resolved, whether or not the reload of the revision list
    then succeeds, and in that case leaves the error message it found (it
    clears none); when the POST fails it reports 'Failed to create revision'
    and reloads nothing.  It never changes the editor text. *)
Theorem create_revision_feedback (p : Params) (st : State)
    (post get : promise value Api.thrown) :
  let out := handleCreateRevision p st post get in
  let request :=
    Api.Post (cat [lit "/refinement/project/"; projectId p; lit "/revision"])
      Undefined in
  content out.1 = content st
  /\ (In (Api.Alert (lit "Revision created successfully")) out.2
      <-> exists d, post = Resolved d)
  /\ (forall d, post = Resolved d ->
        error out.1 = error st
        /\ out.2 = [request;
                    Api.Get (cat [lit "/refinement/project/"; projectId p;
                                  lit "/revisions"]);
                    Api.Alert (lit "Revision created successfully")]
        /\ (forall e, get = Rejected e -> revisions out.1 = revisions st)
        /\ (forall d', get = Resolved d' -> revisions out.1 = d'))
  /\ (forall err, post = Rejected err ->
        out = (setError (Str (lit "Failed to create revision")) st, [request])).
Proof.
  unfold handleCreateRevision. destruct post as [d|err].
  - destruct get as [d'|e]; simpl; repeat split; eauto; try congruence;
      try discriminate.
  - simpl. repeat split; try discriminate.
    + intros [H|[]]. discriminate.
    + intros [d H]. discriminate.
Qed.

End EditorOutcomes.

(** ** Printing and reading back an id *)

Section DecimalIds.

Lemma lit_cons (a : ascii) (s : string) : lit (String a s) = N_of_ascii a :: lit s.
Proof. reflexivity. Qed.

Lemma decimal_bounds (c : N) : is_decimal c = true <-> (48 <= c <= 57)%N.
Proof.
  unfold is_decimal. rewrite andb_true_iff, !N.leb_le. tauto.
Qed.

Lemma digits_step (c : N) (rest : jsstring) (acc : option N) :
  is_decimal c = true ->
  digits 10 (c :: rest) acc = digits 10 rest (Some (default 0 acc * 10 + (c - 48)))%N.
Proof.
  intros H. pose proof (proj1 (decimal_bounds c) H) as B.
  simpl. unfold digit_value. fold (is_decimal c). rewrite H.
  replace (N.ltb (c - 48) 10) with true by (symmetry; apply N.ltb_lt; lia).
  reflexivity.
Qed.

Lemma decimal_not_trimmed (c : N) : is_decimal c = true -> is_trimmed c = false.
Proof.
  intros H. apply decimal_bounds in H.
  unfold is_trimmed, is_white_space, is_line_terminator.
  repeat match goal with
         | |- context [N.eqb c ?k] => destruct (N.eqb_spec c k); [lia|]
         end.
  destruct (N.leb_spec 0x2000 c); [lia|]. reflexivity.
Qed.


Lemma uint_decimal (d : Decimal.uint) :
  forallb is_decimal (lit (NilEmpty.string_of_uint d)) = true.
Proof. induction d; [reflexivity|..]; exact IHd. Qed.

Lemma digits_acc (d : Decimal.uint) :
  forall acc : positive,
    digits 10 (lit (NilEmpty.string_of_uint d)) (Some (Npos acc))
    = Some (Npos (Pos.of_uint_acc d acc)).
Proof.
  induction d; intros acc; [reflexivity|..];
    cbn [NilEmpty.string_of_uint Pos.of_uint_acc]; rewrite lit_cons;
    rewrite digits_step by reflexivity; rewrite <- IHd; f_equal; f_equal;
    cbn [default from_option id]; 
    match goal with |- (_ + (N_of_ascii ?a - 48))%N = _ =>
      let v := eval vm_compute in (N_of_ascii a - 48)%N in
      change (N_of_ascii a - 48)%N with v end; lia.
Qed.

Lemma digits_zero (d : Decimal.uint) :
  digits 10 (lit (NilEmpty.string_of_uint d)) (Some 0%N) = Some (Pos.of_uint d).
Proof.
  induction d; [reflexivity|..];
    cbn [NilEmpty.string_of_uint Pos.of_uint]; rewrite lit_cons;
    rewrite digits_step by reflexivity;
    first [ exact IHd | apply digits_acc ].
Qed.

Lemma uint_string (d : Decimal.uint) :
  d <> Decimal.Nil ->
  exists c rest,
    lit (NilEmpty.string_of_uint d) = c :: rest
    /\ is_decimal c = true /\ forallb is_decimal rest = true
    /\ digits 10 (c :: rest) None = Some (Pos.of_uint d).
Proof.
  intros Hd. pose proof (digits_zero d) as Z0.
  pose proof (uint_decimal d) as F.
  destruct (lit (NilEmpty.string_of_uint d)) as [|c rest] eqn:E.
  - destruct d; try discriminate E. congruence.
  - exists c, rest. cbn [forallb] in F. apply andb_true_iff in F as [Fc Fr].
    repeat split; auto.
    rewrite digits_step in * by exact Fc. exact Z0.
Qed.

Lemma parseInt_unsigned (c : N) (rest : jsstring) :
  is_decimal c = true -> forallb is_decimal rest = true ->
  parseInt (c :: rest)
  = from_option (fun n => number_for (Z.of_N n)) NaN (digits 10 (c :: rest) None).
Proof.
  intros Hc Hr. unfold parseInt. cbn [trimStart].
  rewrite (decimal_not_trimmed c Hc).
  pose proof (proj1 (decimal_bounds c) Hc) as B.
  destruct (N.eqb_spec c 45); [lia|]. destruct (N.eqb_spec c 43); [lia|].
  destruct rest as [|c1 rest].
  - destruct (digits 10 [c] None); reflexivity.
  - cbn [forallb] in Hr. apply andb_true_iff in Hr as [H1 _].
    apply decimal_bounds in H1.
    destruct (N.eqb_spec c1 120); [lia|]. destruct (N.eqb_spec c1 88); [lia|].
    rewrite andb_false_r.
    destruct (digits 10 (c :: c1 :: rest) None); reflexivity.
Qed.

Lemma parseInt_negative (c : N) (rest : jsstring) :
  is_decimal c = true -> forallb is_decimal rest = true ->
  parseInt (45%N :: c :: rest)
  = from_option (fun n => number_for (- Z.of_N n)) NaN (digits 10 (c :: rest) None).
Proof.
  intros Hc Hr. unfold parseInt. cbn [trimStart].
  change (is_trimmed 45) with false. cbv iota.
  change (N.eqb 45 45) with true. cbv iota.
  pose proof (proj1 (decimal_bounds c) Hc) as B.
  destruct rest as [|c1 rest].
  - destruct (digits 10 [c] None); reflexivity.
  - cbn [forallb] in Hr. apply andb_true_iff in Hr as [H1 _].
    apply decimal_bounds in H1.
    destruct (N.eqb_spec c1 120); [lia|]. destruct (N.eqb_spec c1 88); [lia|].
    rewrite andb_false_r.
    destruct (digits 10 (c :: c1 :: rest) None); reflexivity.
Qed.

(** Every integer up to 2^53 in absolute value is a double. *)
Lemma round_to_double_small (n : Z) :
  (Z.abs n <= 2 ^ 53)%Z -> round_to_double n = Some n.
Proof.
  intros H. unfold round_to_double.
  assert (L : (2 ^ 53 < Z.shiftl 1 1024)%Z) by (vm_compute; reflexivity).
  destruct (Z.eq_dec (Z.abs n) (2 ^ 53)%Z) as [E|E].
  - rewrite E. destruct n as [|q|q]; simpl in E; try discriminate;
      injection E as ->; vm_compute; reflexivity.
  - assert (Hk : (Z.log2 (Z.abs n) - 52 <= 0)%Z).
    { destruct (Z.eq_dec (Z.abs n) 0%Z) as [Z0|Z0]; [rewrite Z0; simpl; lia|].
      assert (Z.log2 (Z.abs n) < 53)%Z; [|lia].
      apply Z.log2_lt_pow2; lia. }
    cbv zeta. apply Z.leb_le in Hk. rewrite Hk.
    replace (Z.shiftl 1 1024 <=? Z.abs n)%Z with false
      by (symmetry; apply Z.leb_gt; lia).
    f_equal. rewrite Z.mul_comm. apply Z.abs_sgn.
Qed.

Lemma number_for_small (n : Z) : (Z.abs n <= 2 ^ 53)%Z -> number_for n = Integer n.
Proof. intros H. unfold number_for. now rewrite round_to_double_small. Qed.

Lemma to_string_small (n : Z) :
  (Z.abs n <= 2 ^ 53)%Z -> to_string (Num n) = decimal n.
Proof.
  intros H. cbn [to_string]. unfold number_to_string.
  apply Z.leb_le in H. now rewrite H.
Qed.

(** An id that is at most 2^53 in absolute value is read back from its
    printed form. *)
Lemma parseInt_to_string (n : Z) :
  (Z.abs n <= 2 ^ 53)%Z -> parseInt (to_string (Num n)) = Integer n.
Proof.
  intros B. rewrite (to_string_small n B). unfold decimal.
  destruct n as [|p|p]; [reflexivity| |].
  - cbn [Z.to_int NilZero.string_of_int].
    unfold NilZero.string_of_uint.
    pose proof (DecimalPos.Unsigned.to_uint_nonnil p) as Hn.
    destruct (uint_string (Pos.to_uint p) Hn) as (c & rest & E & Hc & Hr & D).
    replace (match Pos.to_uint p with Decimal.Nil => "0"%string | _ => NilEmpty.string_of_uint (Pos.to_uint p) end)
      with (NilEmpty.string_of_uint (Pos.to_uint p))
      by (destruct (Pos.to_uint p); congruence).
    rewrite E, parseInt_unsigned, D by assumption.
    rewrite DecimalPos.Unsigned.of_to. cbn [from_option].
    apply number_for_small. exact B.
  - cbn [Z.to_int NilZero.string_of_int].
    unfold NilZero.string_of_uint.
    pose proof (DecimalPos.Unsigned.to_uint_nonnil p) as Hn.
    destruct (uint_string (Pos.to_uint p) Hn) as (c & rest & E & Hc & Hr & D).
    replace (match Pos.to_uint p with Decimal.Nil => "0"%string | _ => NilEmpty.string_of_uint (Pos.to_uint p) end)
      with (NilEmpty.string_of_uint (Pos.to_uint p))
      by (destruct (Pos.to_uint p); congruence).
    rewrite lit_cons, E. change (N_of_ascii "-") with 45%N.
    rewrite parseInt_negative, D by assumption.
    rewrite DecimalPos.Unsigned.of_to. cbn [from_option].
    apply number_for_small. exact B.
Qed.

(** From 10^21 on a Number prints in exponent form, of which [parseInt]
    reads the leading digit only; and a route id above 2^53 is read as the
    nearest double. *)
Lemma large_ids_do_not_round_trip :
  to_string (Num (10 ^ 21)) = lit "1e+21"
  /\ parseInt (to_string (Num (10 ^ 21))) = Integer 1
  /\ to_string (Num (2 ^ 60)) = lit "1152921504606847000"
  /\ parseInt (lit "9007199254740993") = Integer 9007199254740992.
Proof. repeat split; vm_compute; reflexivity. Qed.

End DecimalIds.

(** ** Opening an item in the editor *)

Section OpenItem.

Import RefinementEditor.

Lemma create_revision_feedback_witness :
  error
    (handleCreateRevision Scenario.section_params
       (setError (Str (lit "Failed to save")) (Scenario.editor_with "text" "" ""))
       (Resolved Null) (Rejected Api.TypeError)).1
  = Str (lit "Failed to save")
  /\ In (Api.Alert (lit "Revision created successfully"))
       (handleCreateRevision Scenario.section_params
          (Scenario.editor_with "text" "" "") (Resolved Null)
          (Rejected Api.TypeError)).2.
Proof.
  split.
  - destruct (create_revision_feedback Scenario.section_params
                (setError (Str (lit "Failed to save"))
                   (Scenario.editor_with "text" "" ""))
                (Resolved Null) (Rejected Api.TypeError)) as (_ & _ & S & _).
    apply (S Null eq_refl).
  - destruct (create_revision_feedback Scenario.section_params
                (Scenario.editor_with "text" "" "")
                (Resolved Null) (Rejected Api.TypeError)) as (_ & A & _).
    apply A. eexists. reflexivity.
Defined.

Lemma has_id_number (p : Params) (fields : list (string * value)) (m n : Z) :
  (Z.abs n <= 2 ^ 53)%Z ->
  id p = to_string (Num n) ->
  field "id" fields = Some (Num m) ->
  has_id p (Obj fields) = Some (Z.eqb m n).
Proof.
  intros B Hp Hf. unfold has_id.
  change (Js.get (Obj fields) "id") with (Some (default Undefined (field "id" fields))).
  rewrite Hf, Hp, (parseInt_to_string n B). reflexivity.
Qed.

Lemma array_find_first (cb : value -> option bool) (before after : list value)
    (item : value) :
  Forall (fun x => cb x = Some false) before ->
  cb item = Some true ->
  array_find cb (before ++ item :: after) = Some item.
Proof.
  intros F H. induction F as [|x before Hx F IH]; simpl.
  - now rewrite H.
  - now rewrite Hx.
Qed.

Lemma array_find_none (cb : value -> option bool) (l : list value) :
  Forall (fun x => cb x = Some false) l -> array_find cb l = Some Undefined.
Proof.
  intros F. induction F as [|x l Hx F IH]; simpl; [reflexivity|]. now rewrite Hx.
Qed.

(** X10. For an item whose id n is an integer of at most 2^53 in absolute
    value, the Refine link that the project page renders for the generated
    item ends in n printed in decimal; the editor opened on that route
    reads the id back with parseInt and, from the list the server returns,
    shows the content of the first item whose id is n (the empty text when
    that content is null): the item that was clicked, as long as the items
    before it have other integer ids.  (Above 2^53 the printed id need not
    read back: from 10^21 on it is printed in exponent form.) *)
Theorem editor_opens_clicked_item (projectId kind : jsstring) (n : Z)
    (fields : list (string * value)) (p : Params) (st : State)
    (before after : list value) :
  (Z.abs n <= 2 ^ 53)%Z ->
  field "id" fields = Some (Num n) ->
  id p = to_string (Num n) ->
  Forall (fun x => exists f m, x = Obj f /\ field "id" f = Some (Num m) /\ m <> n)
    before ->
  (forall preview link,
      ProjectDetail.item_body projectId kind (Obj fields)
      = Some (ProjectDetail.Generated preview link) ->
      link = cat [lit "/projects/"; projectId; lit "/refine/"; kind; lit "/";
                  decimal n])
  /\ parseInt (id p) = Integer n
  /\ let out :=
       fetchContent p st (Resolved (Arr (before ++ Obj fields :: after))) in
     content out.1 = or_else (default Undefined (field "content" fields)) (Str [])
     /\ error out.1 = error st
     /\ loading out.1 = false.
Proof.
  intros B Hf Hp Hb. split; [|split].
  - intros preview link. rewrite <- (to_string_small n B).
    unfold ProjectDetail.item_body.
    change (Js.get (Obj fields) "is_generated")
      with (Some (default Undefined (field "is_generated" fields))).
    cbv beta iota.
    destruct (truthy (default Undefined (field "is_generated" fields)));
      [|discriminate].
    destruct (ProjectDetail.preview_of (get_opt (Obj fields) "content"));
      [|discriminate].
    intros [= _ <-]. unfold get_opt.
    change (Js.get (Obj fields) "id") with (Some (default Undefined (field "id" fields))).
    rewrite Hf. reflexivity.
  - rewrite Hp. apply parseInt_to_string, B.
  - unfold fetchContent.
    rewrite (array_find_first (has_id p) before after (Obj fields)).
    + cbn. repeat split.
    + eapply Forall_impl; [exact Hb|]. intros x (f & m & -> & Hm & Hne).
      rewrite (has_id_number p f m n B Hp Hm). f_equal. apply Z.eqb_neq. exact Hne.
    + rewrite (has_id_number p fields n n B Hp Hf). f_equal. apply Z.eqb_refl.
Qed.

Lemma editor_opens_clicked_item_witness :
  content
    (fetchContent
       {| projectId := lit "1"; type := lit "section"; id := lit "12" |} initial
       (Resolved
          (Arr [Obj [("id"%string, Num 3); ("content"%string, Str (lit "three"))];
                Obj [("id"%string, Num 12); ("content"%string, Null)];
                Obj [("id"%string, Num 12); ("content"%string, Str (lit "late"))]]))).1
  = Str [].
Proof.
  destruct (editor_opens_clicked_item (lit "1") (lit "section") 12
              [("id"%string, Num 12); ("content"%string, Null)]
              {| projectId := lit "1"; type := lit "section"; id := lit "12" |}
              initial
              [Obj [("id"%string, Num 3); ("content"%string, Str (lit "three"))]]
              [Obj [("id"%string, Num 12); ("content"%string, Str (lit "late"))]])
    as (_ & _ & C & _).
  - vm_compute. discriminate.
  - reflexivity.
  - reflexivity.
  - constructor; [|constructor]. eexists _, 3%Z. repeat split. discriminate.
  - exact C.
Defined.

Lemma has_other_id (p : Params) (f : list (string * value)) (n : Z) :
  parseInt (id p) = Integer n -> field "id" f <> Some (Num n) ->
  has_id p (Obj f) = Some false.
Proof.
  intros Hp Hf. unfold has_id.
  change (Js.get (Obj f) "id") with (Some (default Undefined (field "id" f))).
  rewrite Hp. destruct (field "id" f) as [[| | |m| | |]|]; try reflexivity.
  simpl. f_equal. apply Z.eqb_neq. congruence.
Qed.

Lemma has_no_id (p : Params) (f : list (string * value)) :
  (forall n, parseInt (id p) <> Integer n) -> has_id p (Obj f) = Some false.
Proof.
  intros Hp. unfold has_id.
  change (Js.get (Obj f) "id") with (Some (default Undefined (field "id" f))).
  destruct (parseInt (id p)) as [|neg|n]; [| |now elim (Hp n)];
    destruct (default Undefined (field "id" f)); reflexivity.
Qed.

(** X11. fetchContent always ends with the loading flag reset and sends
    the one GET, to the sections list for type 'section' and to the slides
    list for any other type.  The route's id is read with parseInt, as a
    Number: when no item of the returned list has that Number as its id, or
    the route's id is not a finite number at all, the editor text is kept
    and no error is shown; when the request fails or the reply is not a
    list, the text is kept and 'Failed to load content' is shown. *)
Theorem fetchContent_edges (p : Params) (st : State)
    (get : promise value Api.thrown) :
  let out := fetchContent p st get in
  loading out.1 = false
  /\ out.2 = [Api.Get (content_endpoint p)]
  /\ (type p = lit "section" ->
        content_endpoint p
        = cat [lit "/generation/project/"; projectId p; lit "/sections"])
  /\ (type p <> lit "section" ->
        content_endpoint p
        = cat [lit "/generation/project/"; projectId p; lit "/slides"])
  /\ (forall l, get = Resolved (Arr l) ->
        Forall (fun x => has_id p x = Some false) l ->
        out.1 = setLoading false st)
  /\ (forall l n, get = Resolved (Arr l) ->
        parseInt (id p) = Integer n ->
        Forall (fun x => exists f, x = Obj f /\ field "id" f <> Some (Num n)) l ->
        out.1 = setLoading false st)
  /\ (forall l, get = Resolved (Arr l) ->
        (forall n, parseInt (id p) <> Integer n) ->
        Forall (fun x => exists f, x = Obj f) l ->
        out.1 = setLoading false st)
  /\ ((forall l, get <> Resolved (Arr l)) ->
        content out.1 = content st
        /\ error out.1 = Str (lit "Failed to load content")).
Proof.
  unfold fetchContent, content_endpoint, is_section.
  split.
  { destruct get as [[| | | | |l|]|err]; try reflexivity.
    destruct (array_find (has_id p) l) as [item|]; [|reflexivity].
    destruct (truthy item); reflexivity. }
  split.
  { destruct get as [[| | | | |l|]|err]; try reflexivity.
    destruct (array_find (has_id p) l) as [item|]; [|reflexivity].
    destruct (truthy item); reflexivity. }
  split; [intros H; now rewrite bool_decide_eq_true_2|].
  split; [intros H; now rewrite bool_decide_eq_false_2|].
  split; [|split; [|split]].
  - intros l -> F. rewrite (array_find_none _ _ F). reflexivity.
  - intros l n -> Hp F. rewrite (array_find_none (has_id p) l); [reflexivity|].
    eapply Forall_impl; [exact F|]. intros x (f & -> & Hf).
    now apply (has_other_id p f n).
  - intros l -> Hp F. rewrite (array_find_none (has_id p) l); [reflexivity|].
    eapply Forall_impl; [exact F|]. intros x (f & ->).
    now apply has_no_id.
  - intros H. destruct get as [[| | | | |l|]|err]; try (split; reflexivity).
    now elim (H l).
Qed.

Lemma fetchContent_edges_witness :
  (fetchContent Scenario.section_params (Scenario.editor_with "kept" "" "")
     (Resolved (Arr [Obj [("id"%string, Num 7)]]))).1
  = setLoading false (Scenario.editor_with "kept" "" "")
  /\ error
       (fetchContent Scenario.section_params (Scenario.editor_with "kept" "" "")
          (Resolved (Obj []))).1
     = Str (lit "Failed to load content").
Proof.
  split.
  - destruct (fetchContent_edges Scenario.section_params
                (Scenario.editor_with "kept" "" "")
                (Resolved (Arr [Obj [("id"%string, Num 7)]])))
      as (_ & _ & _ & _ & _ & N & _).
    apply (N _ 2%Z eq_refl); [reflexivity|].
    constructor; [|constructor]. eexists. split; [reflexivity | discriminate].
  - destruct (fetchContent_edges Scenario.section_params
                (Scenario.editor_with "kept" "" "") (Resolved (Obj [])))
      as (_ & _ & _ & _ & _ & _ & _ & E).
    apply E. discriminate.
Defined.

(** A route id of more digits than a double holds is read as the nearest
    double: the editor opened on '9007199254740993' shows the item whose id
    is 9007199254740992. *)
Lemma route_id_is_read_as_a_double :
  content
    (fetchContent
       {| projectId := lit "1"; type := lit "section";
          id := lit "9007199254740993" |} initial
       (Resolved
          (Arr [Obj [("id"%string, Num 9007199254740992);
                     ("content"%string, Str (lit "shown"))]]))).1
  = Str (lit "shown").
Proof. vm_compute. reflexivity. Qed.

End OpenItem.

(** ** The project page *)

Section ProjectPage.

Import ProjectDetail.

Lemma warn_iff (err : Api.thrown) :
  (exists args, In (Dom.Warn args) (warn_unless_expected err))
  <-> Dom.status_of err <> Num 404 /\ Dom.status_of err <> Num 400.
Proof.
  unfold warn_unless_expected, is_number.
  destruct (Dom.status_of err) as [| | |n| | |] eqn:E; simpl;
    try (split; [intros _; split; discriminate | intros _; eexists; left; reflexivity]).
  destruct (Z.eqb_spec n 404) as [->|H4]; simpl.
  - split; [intros [args []] | intros [H _]; congruence].
  - destruct (Z.eqb_spec n 400) as [->|H0]; simpl.
    + split; [intros [args []] | intros [_ H]; congruence].
    + split; [intros _; split; congruence | intros _; eexists; left; reflexivity].
Qed.

Lemma warn_no_request (err : Api.thrown) (e : Dom.event) :
  In e (warn_unless_expected err) -> Dom.is_request e = false.
Proof.
  unfold warn_unless_expected. destruct (_ && _); [|intros []].
  intros [<-|[]]. reflexivity.
Qed.

Lemma word_not_powerpoint (v : value) :
  is_string v (lit "word") = true -> is_string v (lit "powerpoint") = false.
Proof.
  destruct v; simpl; try discriminate. intros H.
  apply bool_decide_eq_true_1 in H. subst. reflexivity.
Qed.

Lemma fetch_none (projectId : jsstring) (st : State) (get : promise value Api.thrown) :
  truthy (project st) = false
  \/ (is_string (project_type st) (lit "word") = false
      /\ is_string (project_type st) (lit "powerpoint") = false) ->
  fetchContent projectId st get = (st, []).
Proof.
  unfold fetchContent. intros [H|[H1 H2]].
  - now rewrite H.
  - rewrite H1, H2. now destruct (truthy (project st)).
Qed.

Lemma fetch_word (projectId : jsstring) (st : State) (get : promise value Api.thrown) :
  truthy (project st) = true ->
  is_string (project_type st) (lit "word") = true ->
  fetchContent projectId st get
  = match get with
    | Resolved d => (setSections (or_else d (Arr [])) st, [sections_request projectId])
    | Rejected err => (st, sections_request projectId :: warn_unless_expected err)
    end.
Proof. unfold fetchContent. intros -> ->. reflexivity. Qed.

Lemma fetch_ppt (projectId : jsstring) (st : State) (get : promise value Api.thrown) :
  truthy (project st) = true ->
  is_string (project_type st) (lit "powerpoint") = true ->
  fetchContent projectId st get
  = match get with
    | Resolved d => (setSlides (or_else d (Arr [])) st, [slides_request projectId])
    | Rejected err => (st, slides_request projectId :: warn_unless_expected err)
    end.
Proof.
  unfold fetchContent. intros -> H.
  destruct (is_string (project_type st) (lit "word")) eqn:W.
  - apply word_not_powerpoint in W. congruence.
  - rewrite H. reflexivity.
Qed.

Lemma fetch_cases (projectId : jsstring) (st : State) (get : promise value Api.thrown) :
  fetchContent projectId st get = (st, [])
  \/ (is_string (project_type st) (lit "word") = true
      /\ fetchContent projectId st get
         = match get with
           | Resolved d =>
               (setSections (or_else d (Arr [])) st, [sections_request projectId])
           | Rejected err =>
               (st, sections_request projectId :: warn_unless_expected err)
           end)
  \/ (is_string (project_type st) (lit "powerpoint") = true
      /\ fetchContent projectId st get
         = match get with
           | Resolved d =>
               (setSlides (or_else d (Arr [])) st, [slides_request projectId])
           | Rejected err =>
               (st, slides_request projectId :: warn_unless_expected err)
           end).
Proof.
  destruct (truthy (project st)) eqn:P; [|left; apply fetch_none; auto].
  destruct (is_string (project_type st) (lit "word")) eqn:W;
    [right; left; split; [reflexivity | now apply fetch_word]|].
  destruct (is_string (project_type st) (lit "powerpoint")) eqn:S;
    [right; right; split; [reflexivity | now apply fetch_ppt]|].
  left. apply fetch_none. auto.
Qed.

(** X12. fetchContent of the project page does nothing while no project is
    loaded; otherwise it asks for the sections of a 'word' project, for the
    slides of a 'powerpoint' project and for nothing for any other type.
    A null or empty reply becomes the empty list.  A failed request changes
    nothing on the page and shows no error; it is logged as a console
    warning exactly when its status is neither 404 nor 400. *)
Theorem project_content_fetch (projectId : jsstring) (st : State)
    (get : promise value Api.thrown) :
  let out := fetchContent projectId st get in
  project out.1 = project st /\ error out.1 = error st
  /\ (truthy (project st) = false -> out = (st, []))
  /\ (forall e, In e out.2 -> Dom.is_request e = true ->
        (e = sections_request projectId
         /\ is_string (project_type st) (lit "word") = true)
        \/ (e = slides_request projectId
            /\ is_string (project_type st) (lit "powerpoint") = true))
  /\ (forall d, get = Resolved d -> truthy (project st) = true ->
        (is_string (project_type st) (lit "word") = true ->
           out = (setSections (or_else d (Arr [])) st, [sections_request projectId]))
        /\ (is_string (project_type st) (lit "powerpoint") = true ->
              out = (setSlides (or_else d (Arr [])) st, [slides_request projectId])))
  /\ (forall err, get = Rejected err ->
        out.1 = st
        /\ (out.2 <> [] ->
              ((exists args, In (Dom.Warn args) out.2)
               <-> Dom.status_of err <> Num 404 /\ Dom.status_of err <> Num 400))).
Proof.
  intros out. subst out.
  split; [|split; [|split; [|split; [|split]]]].
  - destruct (fetch_cases projectId st get) as [E|[[_ E]|[_ E]]]; rewrite E;
      try reflexivity; destruct get; reflexivity.
  - destruct (fetch_cases projectId st get) as [E|[[_ E]|[_ E]]]; rewrite E;
      try reflexivity; destruct get; reflexivity.
  - intros H. apply fetch_none. auto.
  - intros e. destruct (fetch_cases projectId st get) as [E|[[W E]|[S E]]];
      rewrite E; [intros []| |]; destruct get as [d|err]; simpl.
    + intros [<-|[]] _. left. auto.
    + intros [<-|H] He; [left; auto|]. apply warn_no_request in H. congruence.
    + intros [<-|[]] _. right. auto.
    + intros [<-|H] He; [right; auto|]. apply warn_no_request in H. congruence.
  - intros d -> P. split; intros H.
    + now rewrite fetch_word.
    + now rewrite fetch_ppt.
  - intros err ->.
    destruct (fetch_cases projectId st (Rejected err)) as [E|[[_ E]|[_ E]]];
      rewrite E; simpl; (split; [reflexivity|]).
    + intros H. now elim H.
    + intros _. rewrite <- warn_iff. split.
      * intros [args [H|H]]; [discriminate | eauto].
      * intros [args H]. exists args. right. exact H.
    + intros _. rewrite <- warn_iff. split.
      * intros [args [H|H]]; [discriminate | eauto].
      * intros [args H]. exists args. right. exact H.
Qed.

Lemma project_content_fetch_witness :
  fetchContent (lit "1") initial (Resolved (Arr [])) = (initial, [])
  /\ fetchContent (lit "1") Scenario.word_project (Resolved Null)
     = (setSections (Arr []) Scenario.word_project, [sections_request (lit "1")])
  /\ (exists args,
        In (Dom.Warn args)
          (fetchContent (lit "1") Scenario.word_project
             (Rejected (Api.AxiosErr (Scenario.error_with Undefined 500)))).2)
  /\ ~ (exists args,
          In (Dom.Warn args)
            (fetchContent (lit "1") Scenario.word_project
               (Rejected (Api.AxiosErr (Scenario.error_with Undefined 404)))).2).
Proof.
  split; [|split; [|split]].
  - apply (project_content_fetch (lit "1") initial (Resolved (Arr []))). reflexivity.
  - destruct (project_content_fetch (lit "1") Scenario.word_project (Resolved Null))
      as (_ & _ & _ & _ & R & _).
    destruct (R Null eq_refl eq_refl) as [W _]. apply W. reflexivity.
  - destruct (project_content_fetch (lit "1") Scenario.word_project
                (Rejected (Api.AxiosErr (Scenario.error_with Undefined 500))))
      as (_ & _ & _ & _ & _ & F).
    destruct (F _ eq_refl) as [_ W]. apply W; [discriminate|].
    split; discriminate.
  - destruct (project_content_fetch (lit "1") Scenario.word_project
                (Rejected (Api.AxiosErr (Scenario.error_with Undefined 404))))
      as (_ & _ & _ & _ & _ & F).
    destruct (F _ eq_refl) as [_ W]. intros H. apply W in H; [|discriminate].
    destruct H as [H _]. now apply H.
Defined.

Lemma fetch_ignores_flags (projectId : jsstring) (st : State)
    (get : promise value Api.thrown) :
  (fetchContent projectId (setGenerating true (setError (Str []) st)) get).2
  = (fetchContent projectId st get).2
  /\ sections (fetchContent projectId (setGenerating true (setError (Str []) st)) get).1
     = sections (fetchContent projectId st get).1
  /\ slides (fetchContent projectId (setGenerating true (setError (Str []) st)) get).1
     = slides (fetchContent projectId st get).1
  /\ error (fetchContent projectId (setGenerating true (setError (Str []) st)) get).1
     = Str [].
Proof.
  unfold fetchContent, project_type. cbn [project setGenerating setError].
  destruct (truthy (project st)); cbn [negb]; cbv iota; [|auto].
  destruct (is_string (get_opt (project st) "project_type") (lit "word"));
    [destruct get; cbn; auto|].
  destruct (is_string (get_opt (project st) "project_type") (lit "powerpoint"));
    [destruct get; cbn; auto|].
  cbn. auto.
Qed.

(** X13. handleGenerate always sends the generation POST with
    generate_all set to true and always ends with the generating flag
    reset.  When the POST resolves, the error is cleared and the content is
    fetched again exactly as fetchContent does; when it fails, nothing is
    fetched, the lists are kept and a non-empty error is shown. *)
Theorem generate_outcome (projectId : jsstring) (st : State)
    (post get : promise value Api.thrown) :
  let out := handleGenerate projectId st post get in
  generating out.1 = false /\ project out.1 = project st
  /\ (forall d, post = Resolved d ->
        out.2 = generate_request projectId :: (fetchContent projectId st get).2
        /\ sections out.1 = sections (fetchContent projectId st get).1
        /\ slides out.1 = slides (fetchContent projectId st get).1
        /\ error out.1 = Str [])
  /\ (forall err, post = Rejected err ->
        out.2 = [generate_request projectId]
        /\ sections out.1 = sections st /\ slides out.1 = slides st
        /\ truthy (error out.1) = true).
Proof.
  intros out. subst out. unfold handleGenerate. fold (generate_request projectId).
  destruct post as [d|err].
  - destruct (fetch_ignores_flags projectId st get) as (E1 & E2 & E3 & E4).
    pose proof (project_content_fetch projectId
                  (setGenerating true (setError (Str []) st)) get) as (P & _).
    destruct (fetchContent projectId (setGenerating true (setError (Str []) st)) get)
      as [st' evs]. cbn in *.
    split; [reflexivity|]. split; [exact P|]. split; [|discriminate].
    intros d' _. rewrite E1, E2, E3, E4. auto.
  - cbn. split; [reflexivity|]. split; [reflexivity|]. split; [discriminate|].
    intros err' _. repeat split. apply truthy_or_else. reflexivity.
Qed.

Lemma generate_outcome_witness :
  (handleGenerate (lit "1") Scenario.word_project (Resolved Null)
     (Resolved (Arr [Obj [("id"%string, Num 2)]]))).2
  = [generate_request (lit "1"); sections_request (lit "1")]
  /\ sections (handleGenerate (lit "1") Scenario.word_project
                 (Rejected Api.TypeError) (Resolved Null)).1
     = Arr [].
Proof.
  split.
  - destruct (generate_outcome (lit "1") Scenario.word_project (Resolved Null)
                (Resolved (Arr [Obj [("id"%string, Num 2)]]))) as (_ & _ & S & _).
    destruct (S Null eq_refl) as [E _]. exact E.
  - destruct (generate_outcome (lit "1") Scenario.word_project
                (Rejected Api.TypeError) (Resolved Null)) as (_ & _ & _ & F).
    destruct (F _ eq_refl) as (_ & E & _). exact E.
Defined.

(** X14. An item of the project page shows 'Not generated yet' and no
    Refine link exactly when its is_generated flag is falsy.  A generated
    item with text shows at most its first 200 code units followed by
    '...'; a generated item with empty or null content shows 'No content
    generated yet' and still offers the Refine link; content that is truthy
    but not a string, or a null item, makes rendering throw. *)
Theorem item_rendering (projectId kind : jsstring) (fields : list (string * value)) :
  let flag := default Undefined (field "is_generated" fields) in
  let text := default Undefined (field "content" fields) in
  let link :=
    cat [lit "/projects/"; projectId; lit "/refine/"; kind; lit "/";
         to_string (default Undefined (field "id" fields))] in
  (truthy flag = false -> item_body projectId kind (Obj fields) = Some NotGenerated)
  /\ (truthy flag = true -> forall s, text = Str s -> s <> [] ->
        item_body projectId kind (Obj fields)
        = Some (Generated (take 200 s ++ lit "...") link)
        /\ length (take 200 s ++ lit "...") = Nat.min 200 (length s) + 3
        /\ take 200 s `prefix_of` s)
  /\ (truthy flag = true -> truthy text = false ->
        item_body projectId kind (Obj fields)
        = Some (Generated (lit "No content generated yet") link))
  /\ (truthy flag = true -> truthy text = true -> (forall s, text <> Str s) ->
        item_body projectId kind (Obj fields) = None)
  /\ item_body projectId kind Null = None
  /\ item_body projectId kind Undefined = None.
Proof.
  intros flag text link. unfold item_body.
  change (Js.get (Obj fields) "is_generated") with (Some flag).
  change (get_opt (Obj fields) "content") with text.
  change (get_opt (Obj fields) "id") with (default Undefined (field "id" fields)).
  fold link. cbv beta iota.
  split; [intros ->; reflexivity|].
  split; [|split; [|split; [|split; reflexivity]]].
  - intros -> s -> Hs. unfold preview_of.
    destruct s as [|c s]; [congruence|]. cbn [truthy is_empty_string negb].
    split; [reflexivity|]. split.
    + rewrite length_app, length_take. reflexivity.
    + apply prefix_take.
  - intros -> Ht. unfold preview_of. rewrite Ht. reflexivity.
  - intros -> Ht Hn. unfold preview_of. rewrite Ht.
    destruct text; try reflexivity. now elim (Hn s).
Qed.

Lemma item_rendering_witness :
  item_body (lit "1") (lit "section")
    (Obj [("id"%string, Num 2); ("is_generated"%string, Bool true);
          ("content"%string, Str [])])
  = Some (Generated (lit "No content generated yet") (lit "/projects/1/refine/section/2"))
  /\ item_body (lit "1") (lit "slide")
       (Obj [("id"%string, Num 3); ("is_generated"%string, Bool true);
             ("content"%string, Str (lit "Hello"))])
     = Some (Generated (lit "Hello...") (lit "/projects/1/refine/slide/3"))
  /\ item_body (lit "1") (lit "slide")
       (Obj [("id"%string, Num 3); ("is_generated"%string, Bool true);
             ("content"%string, Num 5)])
     = None.
Proof.
  split; [|split].
  - destruct (item_rendering (lit "1") (lit "section")
                [("id"%string, Num 2); ("is_generated"%string, Bool true);
                 ("content"%string, Str [])]) as (_ & _ & N & _).
    apply N; reflexivity.
  - destruct (item_rendering (lit "1") (lit "slide")
                [("id"%string, Num 3); ("is_generated"%string, Bool true);
                 ("content"%string, Str (lit "Hello"))]) as (_ & G & _).
    destruct (G eq_refl (lit "Hello") eq_refl) as [E _]; [discriminate|]. exact E.
  - destruct (item_rendering (lit "1") (lit "slide")
                [("id"%string, Num 3); ("is_generated"%string, Bool true);
                 ("content"%string, Num 5)]) as (_ & _ & _ & T & _).
    apply T; [reflexivity | reflexivity | discriminate].
Defined.

(** X15. handleExport never requests anything when no project is loaded
    and reports 'Failed to export document'.  With a project it requests
    the Word export and names the download '.docx' when the project type
    is 'word', and for every other type requests the PowerPoint export and
    names the download '.pptx'; the file is downloaded only after the GET
    resolved, and a failed GET is reported with the same message. *)
Theorem export_pairs_endpoint_and_extension (projectId : jsstring) (st : State)
    (get : promise value Api.thrown) :
  let out := handleExport projectId st get in
  let word := is_string (project_type st) (lit "word") in
  let endpoint :=
    cat [lit "/export/project/"; projectId;
         if word then lit "/word" else lit "/powerpoint"] in
  let filename :=
    cat [to_string (get_opt (project st) "name");
         if word then lit ".docx" else lit ".pptx"] in
  project out.1 = project st
  /\ (project st = Null \/ project st = Undefined ->
        out = (setError (Str (lit "Failed to export document")) st, []))
  /\ (project st <> Null -> project st <> Undefined ->
        (forall data, get = Resolved data ->
           out = (st, [Dom.GetBlob endpoint; Dom.Download filename data]))
        /\ (forall err, get = Rejected err ->
              out = (setError (Str (lit "Failed to export document")) st,
                     [Dom.GetBlob endpoint]))).
Proof.
  intros out word endpoint filename. subst out. unfold handleExport.
  split; [|split].
  - destruct (Js.get (project st) "project_type"); [|reflexivity].
    destruct get; reflexivity.
  - intros [-> | ->]; reflexivity.
  - intros H1 H2.
    assert (E : Js.get (project st) "project_type" = Some (project_type st)).
    { unfold project_type, get_opt. destruct (project st); try reflexivity; congruence. }
    rewrite E. subst endpoint filename word.
    split.
    + intros data ->. destruct (is_string (project_type st) (lit "word")); cbn;
        unfold cat; cbn; rewrite ?app_nil_r, <- ?app_assoc; reflexivity.
    + intros err ->. destruct (is_string (project_type st) (lit "word")); cbn;
        unfold cat; cbn; rewrite ?app_nil_r, <- ?app_assoc; reflexivity.
Qed.

Lemma export_pairs_endpoint_and_extension_witness :
  handleExport (lit "1") initial (Resolved Null)
  = (setError (Str (lit "Failed to export document")) initial, [])
  /\ handleExport (lit "1") Scenario.other_project (Resolved (Str (lit "bytes")))
     = (Scenario.other_project,
        [Dom.GetBlob (lit "/export/project/1/powerpoint");
         Dom.Download (lit "Sheet.pptx") (Str (lit "bytes"))]).
Proof.
  split.
  - apply (export_pairs_endpoint_and_extension (lit "1") initial (Resolved Null)).
    left. reflexivity.
  - destruct (export_pairs_endpoint_and_extension (lit "1") Scenario.other_project
                (Resolved (Str (lit "bytes")))) as (_ & _ & E).
    destruct E as [E _]; [discriminate | discriminate |].
    apply (E _ eq_refl).
Defined.

End ProjectPage.

(** ** The dashboard *)

Section DashboardPage.

(** X16. handleDelete of the dashboard first asks for confirmation and
    sends nothing unless it is given.  After a confirmed delete that
    succeeds it reloads the project list (ending with the loading flag
    reset); when the delete fails it shows 'Failed to delete project',
    keeps the list and reloads nothing. *)
Theorem delete_needs_confirmation (projectId : value) (confirmed : bool)
    (st : Dashboard.State) (del get : promise value Api.thrown) :
  let out := Dashboard.handleDelete projectId confirmed st del get in
  let asked := Dom.Confirm (lit "Are you sure you want to delete this project?") in
  let request := Dom.Delete (cat [lit "/projects/"; to_string projectId]) in
  (confirmed = false -> out = (st, [asked]))
  /\ (forall e, In e out.2 -> Dom.is_request e = true -> confirmed = true)
  /\ (confirmed = true ->
        (forall err, del = Rejected err ->
           out = (Dashboard.setError (Str (lit "Failed to delete project")) st,
                  [asked; request]))
        /\ (forall d, del = Resolved d ->
              out.2 = [asked; request; Dom.Api (Api.Get (lit "/projects"))]
              /\ Dashboard.loading out.1 = false
              /\ (forall d', get = Resolved d' ->
                    Dashboard.projects out.1 = d'
                    /\ Dashboard.error out.1 = Dashboard.error st)
              /\ (forall err, get = Rejected err ->
                    Dashboard.projects out.1 = Dashboard.projects st
                    /\ Dashboard.error out.1 = Str (lit "Failed to load projects")))).
Proof.
  intros out asked request. subst out. unfold Dashboard.handleDelete.
  fold asked. fold request. destruct confirmed; cbn [negb]; cbv iota.
  - split; [discriminate|]. split; [reflexivity|]. intros _.
    split.
    + intros err ->. reflexivity.
    + intros d ->. unfold Dashboard.fetchProjects. destruct get as [d'|err]; cbn.
      * split; [reflexivity|]. split; [reflexivity|].
        split; [intros d2 [= <-]; split; reflexivity | intros err [=]].
      * split; [reflexivity|]. split; [reflexivity|].
        split; [intros d2 [=] | intros err2 _; split; reflexivity].
  - split; [reflexivity|]. split; [|discriminate].
    intros e [<-|[]]. discriminate.
Qed.

Lemma delete_needs_confirmation_witness :
  Dashboard.handleDelete (Num 4) false Dashboard.initial (Resolved Null) (Resolved Null)
  = (Dashboard.initial,
     [Dom.Confirm (lit "Are you sure you want to delete this project?")])
  /\ (Dashboard.handleDelete (Num 4) true Dashboard.initial (Resolved Null)
        (Resolved (Arr []))).2
     = [Dom.Confirm (lit "Are you sure you want to delete this project?");
        Dom.Delete (lit "/projects/4"); Dom.Api (Api.Get (lit "/projects"))].
Proof.
  split.
  - apply (delete_needs_confirmation (Num 4) false Dashboard.initial
             (Resolved Null) (Resolved Null)). reflexivity.
  - destruct (delete_needs_confirmation (Num 4) true Dashboard.initial
                (Resolved Null) (Resolved (Arr []))) as (_ & _ & C).
    destruct (C eq_refl) as [_ S]. destruct (S Null eq_refl) as [E _]. exact E.
Defined.

End DashboardPage.

(** ** The session: token, store and storage *)

Section Session.

Variable JSON_parse : jsstring -> option value.
Variable JSON_stringify : value -> jsstring.

Lemma onRequest_cases (w : Api.Window) (h : gmap string jsstring) :
  Api.onRequest JSON_parse w h = h
  \/ exists (stored : jsstring) parsed tok,
       Api.localStorage w !! lit "auth-storage" = Some stored
       /\ stored <> []
       /\ JSON_parse stored = Some parsed
       /\ Js.get parsed "token" = Some tok
       /\ truthy tok = true
       /\ Api.onRequest JSON_parse w h = <["Authorization"%string := bearer tok]> h.
Proof.
  unfold Api.onRequest.
  destruct (Api.localStorage w !! lit "auth-storage") as [stored|] eqn:E; [|auto].
  destruct (truthy (Str stored)) eqn:T; [|auto].
  destruct (JSON_parse stored) as [parsed|] eqn:P; [|auto].
  destruct (Js.get parsed "token") as [tok|] eqn:G; [|auto].
  destruct (truthy tok) eqn:K; [|auto].
  right. exists stored, parsed, tok. repeat split; auto.
  intros ->. discriminate.
Qed.

(** X17. The request interceptor never changes a header other than
    Authorization, and sets Authorization only from a stored session that
    is non-empty, parses and carries a truthy token, to 'Bearer ' followed
    by that token; a missing, empty or unparsable entry leaves the request
    as it is.  After a 401 response has been handled, and after logout, it
    adds nothing. *)
Theorem request_token_from_storage (w : Api.Window) (h : gmap string jsstring) :
  (forall k : string, k <> "Authorization"%string ->
      Api.onRequest JSON_parse w h !! k = h !! k)
  /\ (Api.onRequest JSON_parse w h = h
      \/ exists (stored : jsstring) parsed tok,
           Api.localStorage w !! lit "auth-storage" = Some stored
           /\ stored <> []
           /\ JSON_parse stored = Some parsed
           /\ Js.get parsed "token" = Some tok
           /\ truthy tok = true
           /\ Api.onRequest JSON_parse w h = <["Authorization"%string := bearer tok]> h)
  /\ (forall (stored : jsstring) fields tok,
        Api.localStorage w !! lit "auth-storage" = Some stored ->
        stored <> [] ->
        JSON_parse stored = Some (Obj fields) ->
        field "token" fields = Some tok -> truthy tok = true ->
        Api.onRequest JSON_parse w h !! "Authorization"%string = Some (bearer tok))
  /\ (forall error,
        Api.status <$> Api.response error = Some 401%Z ->
        Api.onRequest JSON_parse (Api.onRejected error w).1 h = h)
  /\ (forall (c : AuthStore.Client) w',
        AuthStore.window (AuthStore.logout c) = Some w' ->
        Api.onRequest JSON_parse w' h = h).
Proof.
  split; [|split; [apply onRequest_cases|split; [|split]]].
  - intros k Hk. destruct (onRequest_cases w h) as [->|(s & p & t & _ & _ & _ & _ & _ & ->)];
      [reflexivity|]. apply lookup_insert_ne. congruence.
  - intros stored fields tok E Hs P F T. unfold Api.onRequest. rewrite E.
    destruct stored as [|c s]; [congruence|]. cbn [truthy is_empty_string negb].
    rewrite P.
    change (Js.get (Obj fields) "token") with (Some (default Undefined (field "token" fields))).
    rewrite F. cbn [default from_option]. unfold id. rewrite T. apply lookup_insert_eq.
  - intros error H. unfold Api.onRejected. rewrite bool_decide_eq_true_2 by exact H.
    unfold Api.onRequest. cbn [fst Api.localStorage]. now rewrite lookup_delete_eq.
  - intros c w'. unfold AuthStore.logout. cbn [AuthStore.window].
    destruct (AuthStore.window c) as [w0|]; [|discriminate].
    cbn. intros [= <-]. unfold Api.onRequest. cbn [Api.localStorage].
    now rewrite lookup_delete_eq.
Qed.


Import AuthStore.

(** What a failed request leaves of the client: the store and the headers
    are not touched; the window is as it was unless the answer was a 401. *)
Lemma after_failure_cases (err : Api.thrown) (c : Client) :
  auth (after_failure err c) = auth c
  /\ headers_common (after_failure err c) = headers_common c
  /\ (Dom.status_of err = Num 401%Z ->
        window (after_failure err c) = redirected <$> window c)
  /\ (Dom.status_of err <> Num 401%Z -> after_failure err c = c).
Proof.
  split; [reflexivity|]. split; [reflexivity|].
  destruct c as [h a [w|]]; unfold after_failure; cbn [window headers_common auth];
    [|split; reflexivity].
  destruct err as [e|]; [|split; [discriminate | reflexivity]].
  cbn [fmap option_fmap option_map Api.intercepted Dom.status_of].
  unfold Api.onRejected.
  destruct (Api.response e) as [r|] eqn:R; cbn [fmap option_fmap option_map].
  - destruct (decide (Api.status r = 401%Z)) as [E|E].
    + rewrite E, bool_decide_eq_true_2 by reflexivity.
      split; [reflexivity|]. intros H. now elim H.
    + rewrite bool_decide_eq_false_2 by congruence.
      split; [intros [= H]; now elim E|]. intros _.
      destruct (_ && _); reflexivity.
  - rewrite bool_decide_eq_false_2 by discriminate.
    split; [discriminate|]. intros _. destruct (_ && _); reflexivity.
Qed.

(** X18. When the login request fails, login resolves with success false
    and a non-empty error and leaves the store and the headers as they
    were; the window is left as it was too unless the answer was a 401, in
    which case the response interceptor has removed the stored session and
    sent the browser to '/login'.  A reply without a body changes nothing.
    When the login request succeeds but fetching the user fails, the store
    is left as it was and login still reports failure, but the default
    Authorization header has already been set to the new token and stays;
    the window fares as after a failed login request.  When both requests
    succeed the store holds the token and the user with isAuthenticated
    true, the header is set and the serialized state is stored under
    'auth-storage'. *)
Theorem login_outcome (username password : jsstring) (c : Client)
    (post get : promise value Api.thrown) :
  let out := login JSON_stringify username password c post get in
  let c' := out.1.1 in
  let r := out.1.2 in
  (forall err, post = Rejected err ->
      auth c' = auth c /\ headers_common c' = headers_common c
      /\ (Dom.status_of err = Num 401%Z -> window c' = redirected <$> window c)
      /\ (Dom.status_of err <> Num 401%Z -> c' = c)
      /\ out.2 = [login_request username password]
      /\ r = Obj [("success"%string, Bool false);
                  ("error"%string, or_else (Api.detail err) (Str (lit "Login failed")))])
  /\ (forall data, post = Resolved data -> Js.get data "access_token" = None ->
        c' = c /\ out.2 = [login_request username password]
        /\ r = Obj [("success"%string, Bool false);
                    ("error"%string, Str (lit "Login failed"))])
  /\ (forall data tok err,
        post = Resolved data -> Js.get data "access_token" = Some tok ->
        get = Rejected err ->
        auth c' = auth c
        /\ headers_common c' = <["Authorization"%string := bearer tok]> (headers_common c)
        /\ (Dom.status_of err = Num 401%Z -> window c' = redirected <$> window c)
        /\ (Dom.status_of err <> Num 401%Z -> window c' = window c)
        /\ out.2 = [login_request username password;
                    Dom.Api (Api.Get (lit "/auth/me"))]
        /\ Js.get r "success" = Some (Bool false)
        /\ truthy (get_opt r "error") = true)
  /\ (forall data tok u,
        post = Resolved data -> Js.get data "access_token" = Some tok ->
        get = Resolved u ->
        r = Obj [("success"%string, Bool true)]
        /\ auth c' = {| user := u; token := tok; isAuthenticated := Bool true |}
        /\ headers_common c' !! "Authorization"%string = Some (bearer tok)
        /\ (forall w, window c = Some w ->
              exists w', window c' = Some w'
                /\ Api.localStorage w' !! lit "auth-storage"
                   = Some (JSON_stringify (login_state tok u))
                /\ Api.location_href w' = Api.location_href w))
  /\ (Js.get r "success" = Some (Bool true)
      \/ (Js.get r "success" = Some (Bool false)
          /\ truthy (get_opt r "error") = true
          /\ auth c' = auth c)).
Proof.
  intros out c' r. subst out c' r. unfold login.
  fold (login_request username password).
  destruct post as [data|err].
  - destruct (Js.get data "access_token") as [tok|] eqn:G.
    + destruct get as [u|err]; cbn [fst snd].
      * split; [discriminate|]. split; [intros d [= <-]; congruence|].
        split; [intros d t e _ _ [=]|].
        split; [|left; reflexivity].
        intros d t u' [= <-] H [= <-]. rewrite G in H. injection H as <-.
        split; [reflexivity|]. split; [reflexivity|].
        split; [apply lookup_insert_eq|].
        intros w Hw. cbn [window with_header]. rewrite Hw. cbn.
        eexists. split; [reflexivity|]. split; [apply lookup_insert_eq | reflexivity].
      * split; [discriminate|]. split; [intros d [= <-]; congruence|].
        split.
        { intros d t e [= <-] H [= <-]. rewrite G in H. injection H as <-.
          destruct (after_failure_cases err (with_header tok c)) as (_ & _ & W & U).
          split; [reflexivity|]. split; [reflexivity|].
          split; [exact W|]. split; [intros Hs; now rewrite (U Hs)|].
          split; [reflexivity|]. split; [reflexivity|].
          apply truthy_or_else. reflexivity. }
        split; [intros d t u _ _ [=]|].
        right. split; [reflexivity|]. split; [apply truthy_or_else; reflexivity|].
        reflexivity.
    + cbn [fst snd]. split; [discriminate|].
      split; [intros d _ _; repeat split|].
      split; [intros d t e [= <-]; congruence|].
      split; [intros d t u [= <-]; congruence|].
      right. repeat split.
  - cbn [fst snd]. split.
    { intros e [= <-].
      destruct (after_failure_cases err c) as (_ & _ & W & U).
      repeat split; assumption. }
    split; [discriminate|]. split; [discriminate|]. split; [discriminate|].
    right. split; [reflexivity|]. split; [apply truthy_or_else; reflexivity|].
    reflexivity.
Qed.

(** X19. After a successful login the session survives a reload of the
    page: when the platform's JSON functions give the stored state back,
    loading the module again restores the same store and the same
    Authorization header, provided the token is truthy.  With a falsy token
    the login leaves the store authenticated but a reload starts signed
    out.  After logout a reload always starts signed out with the default
    headers. *)
Theorem session_survives_reload (username password : jsstring) (c : Client)
    (data tok u : value) (w : Api.Window) (defaults : gmap string jsstring) :
  Js.get data "access_token" = Some tok ->
  window c = Some w ->
  JSON_stringify (login_state tok u) <> [] ->
  JSON_parse (JSON_stringify (login_state tok u)) = Some (login_state tok u) ->
  let c' := (login JSON_stringify username password c (Resolved data) (Resolved u)).1.1 in
  (truthy tok = true ->
     load JSON_parse defaults (window c')
     = {| headers_common := <["Authorization"%string := bearer tok]> defaults;
          auth := auth c'; window := window c' |})
  /\ (truthy tok = false ->
        isAuthenticated (auth c') = Bool true
        /\ load JSON_parse defaults (window c')
           = {| headers_common := defaults; auth := initial; window := window c' |})
  /\ load JSON_parse defaults (window (logout c'))
     = {| headers_common := defaults; auth := initial; window := window (logout c') |}.
Proof.
  unfold login_state. intros G Hw Hne Hrt. cbv zeta. unfold login. rewrite G.
  cbn [fst snd]. cbn [window with_header auth]. rewrite Hw.
  cbn [fmap option_fmap option_map].
  unfold load, initializeAuth. cbn [window Api.localStorage].
  rewrite lookup_insert_eq.
  match goal with
  | |- context [truthy (Str ?s)] =>
      replace (truthy (Str s)) with true
        by (simpl; destruct s; [now elim Hne | reflexivity])
  end.
  rewrite Hrt.
  match goal with
  | |- context [Js.get ?o "token"] => change (Js.get o "token") with (Some tok)
  end.
  split; [|split].
  - intros ->. reflexivity.
  - intros ->. split; reflexivity.
  - unfold logout. cbn [window fmap option_fmap option_map Api.localStorage].
    rewrite lookup_delete_eq. reflexivity.
Qed.

Lemma set_idempotent (state : value) (a : AuthState) :
  set state (set state a) = set state a.
Proof.
  destruct state; try reflexivity. unfold set. cbn [user token isAuthenticated].
  destruct (field "user" fields), (field "token" fields),
    (field "isAuthenticated" fields); reflexivity.
Qed.

Lemma initializeAuth_cases (c : Client) :
  initializeAuth JSON_parse c = c
  \/ (exists w (stored : jsstring),
        window c = Some w
        /\ Api.localStorage w !! lit "auth-storage" = Some stored
        /\ stored <> []
        /\ (JSON_parse stored = None
            \/ JSON_parse stored = Some Null \/ JSON_parse stored = Some Undefined)
        /\ initializeAuth JSON_parse c = forget_storage c)
  \/ (exists w (stored : jsstring) state tok,
        window c = Some w
        /\ Api.localStorage w !! lit "auth-storage" = Some stored
        /\ stored <> []
        /\ JSON_parse stored = Some state
        /\ Js.get state "token" = Some tok /\ truthy tok = true
        /\ initializeAuth JSON_parse c
           = {| headers_common :=
                  <["Authorization"%string := bearer tok]> (headers_common c);
                auth := set state (auth c); window := window c |}).
Proof.
  unfold initializeAuth.
  destruct (window c) as [w|] eqn:W; [|auto].
  destruct (Api.localStorage w !! lit "auth-storage") as [stored|] eqn:E; [|auto].
  destruct (truthy (Str stored)) eqn:T; [|auto].
  assert (Hs : stored <> []) by (intros ->; discriminate).
  destruct (JSON_parse stored) as [state|] eqn:P.
  - destruct (Js.get state "token") as [tok|] eqn:G.
    + destruct (truthy tok) eqn:K; [|auto].
      right. right. exists w, stored, state, tok. repeat split; auto.
      cbn [with_header headers_common auth window]. now rewrite W.
    + right. left. exists w, stored. repeat split; auto.
      destruct state; try discriminate; auto.
  - right. left. exists w, stored. repeat split; auto.
Qed.

(** X20. initializeAuth is idempotent and does nothing without a window.
    A stored entry that does not parse, or parses to null, is removed and
    the store and headers are left alone; a stored object without a truthy
    token is ignored and kept; a stored object with a truthy token sets the
    Authorization header and is merged into the store, so that an object
    lacking isAuthenticated leaves that flag as it was. *)
Theorem initializeAuth_edges (c : Client) :
  initializeAuth JSON_parse (initializeAuth JSON_parse c) = initializeAuth JSON_parse c
  /\ (window c = None -> initializeAuth JSON_parse c = c)
  /\ (forall w (stored : jsstring),
        window c = Some w ->
        Api.localStorage w !! lit "auth-storage" = Some stored -> stored <> [] ->
        (JSON_parse stored = None \/ JSON_parse stored = Some Null ->
           let c' := initializeAuth JSON_parse c in
           auth c' = auth c /\ headers_common c' = headers_common c
           /\ exists w', window c' = Some w'
                /\ Api.localStorage w' !! lit "auth-storage" = None)
        /\ (forall fields,
              JSON_parse stored = Some (Obj fields) ->
              truthy (default Undefined (field "token" fields)) = false ->
              initializeAuth JSON_parse c = c)
        /\ (forall fields tok,
              JSON_parse stored = Some (Obj fields) ->
              field "token" fields = Some tok -> truthy tok = true ->
              let c' := initializeAuth JSON_parse c in
              headers_common c' !! "Authorization"%string = Some (bearer tok)
              /\ token (auth c') = tok
              /\ window c' = window c
              /\ (field "isAuthenticated" fields = None ->
                    isAuthenticated (auth c') = isAuthenticated (auth c)))).
Proof.
  split; [|split].
  - destruct (initializeAuth_cases c)
      as [E|[(w & s & W & L & Hs & P & E)|(w & s & st & tok & W & L & Hs & P & G & T & E)]].
    + now rewrite E.
    + rewrite E. unfold initializeAuth, forget_storage. cbn [window].
      rewrite W. cbn [fmap option_fmap option_map Api.localStorage].
      now rewrite lookup_delete_eq.
    + rewrite E. unfold initializeAuth. cbn [window]. rewrite W, L.
      destruct s as [|ch s]; [congruence|]. cbn [truthy is_empty_string negb].
      rewrite P, G, T. unfold with_header. cbn [headers_common auth window].
      rewrite insert_insert_eq, set_idempotent. reflexivity.
  - intros W. unfold initializeAuth. now rewrite W.
  - intros w stored W L Hs. unfold initializeAuth. rewrite W, L.
    destruct stored as [|ch s]; [congruence|]. cbn [truthy is_empty_string negb].
    split; [|split].
    + intros [P|P]; rewrite P; cbn; rewrite W; cbn;
        (split; [reflexivity|]); (split; [reflexivity|]);
        eexists; (split; [reflexivity|]); apply lookup_delete_eq.
    + intros fields P T. rewrite P.
      change (Js.get (Obj fields) "token")
        with (Some (default Undefined (field "token" fields))).
      cbv beta iota. now rewrite T.
    + intros fields tok P F T. rewrite P.
      change (Js.get (Obj fields) "token")
        with (Some (default Undefined (field "token" fields))).
      rewrite F. change (default Undefined (Some tok)) with tok. cbv beta iota zeta.
      rewrite T. cbn [headers_common auth window with_header set token isAuthenticated].
      split; [apply lookup_insert_eq|]. rewrite F.
      split; [reflexivity|]. split; [congruence|].
      intros ->. reflexivity.
Qed.

Lemma or_else_twice (a b : value) : or_else (or_else a b) b = or_else a b.
Proof.
  unfold or_else. destruct (truthy a) eqn:A; [now rewrite A|].
  now destruct (truthy b).
Qed.

Lemma handleSubmit_failed (st : Login.State) (e : value) (issued : list Dom.event) :
  Login.handleSubmit
    (fun _ _ => (Resolved (Obj [("success"%string, Bool false); ("error"%string, e)]),
                 issued)) st
  = (Login.setLoading false
       (Login.setError (or_else e (Str (lit "Login failed")))
          (Login.setLoading true (Login.setError (Str []) st))),
     Dom.PreventDefault :: issued).
Proof. reflexivity. Qed.

Lemma handleSubmit_succeeded (st : Login.State) (issued : list Dom.event) :
  Login.handleSubmit
    (fun _ _ => (Resolved (Obj [("success"%string, Bool true)]), issued)) st
  = (Login.setLoading false (Login.setLoading true (Login.setError (Str []) st)),
     (Dom.PreventDefault :: issued) ++ [Dom.Api (Api.NavigateTo (lit "/dashboard"))]).
Proof. reflexivity. Qed.

(** X21. Submitting the login page always ends with the loading flag
    reset and keeps the typed username and password.  Either the login
    request resolved with a body and the user request resolved: then it
    navigates to '/dashboard' as its last act, shows no error, and the
    private routes render their children.  Or it makes no navigate call,
    leaves the store as it was and shows a non-empty error, which is the
    detail of the failed request when that is truthy and 'Login failed'
    otherwise; the window is then left as it was, unless the failed
    request was answered 401: in that case the response interceptor has
    removed the stored session and sent the browser to '/login'. *)
Theorem login_page_outcome (st : Login.State) (c : Client)
    (post get : promise value Api.thrown) :
  let out := Login.submit JSON_stringify st c post get in
  let st' := out.1.1 in
  let c' := out.1.2 in
  Login.loading st' = false
  /\ Login.username st' = Login.username st /\ Login.password st' = Login.password st
  /\ ((exists data tok u,
          post = Resolved data /\ Js.get data "access_token" = Some tok
          /\ get = Resolved u
          /\ out.2 = [Dom.PreventDefault;
                      Dom.PostForm (lit "/auth/login")
                        [(lit "username", Login.username st);
                         (lit "password", Login.password st)];
                      Dom.Api (Api.Get (lit "/auth/me"));
                      Dom.Api (Api.NavigateTo (lit "/dashboard"))]
          /\ Login.error st' = Str []
          /\ (forall children, App.PrivateRoute (auth c') children = children))
      \/ ((forall url, ~ In (Dom.Api (Api.NavigateTo url)) out.2)
          /\ truthy (Login.error st') = true
          /\ auth c' = auth c
          /\ exists err,
               (post = Rejected err \/ get = Rejected err
                \/ (err = Api.TypeError /\ exists data, post = Resolved data
                                            /\ Js.get data "access_token" = None))
               /\ Login.error st' = or_else (Api.detail err) (Str (lit "Login failed"))
               /\ (Dom.status_of err = Num 401%Z -> window c' = redirected <$> window c)
               /\ (Dom.status_of err <> Num 401%Z -> window c' = window c))).
Proof.
  intros out st' c'. subst out st' c'. unfold Login.submit, login.
  destruct post as [data|err].
  - destruct (Js.get data "access_token") as [tok|] eqn:G.
    + destruct get as [u|err]; cbv beta iota zeta.
      * rewrite handleSubmit_succeeded. cbn [fst snd].
        split; [reflexivity|]. split; [reflexivity|]. split; [reflexivity|].
        left. exists data, tok, u. repeat split; auto.
      * rewrite handleSubmit_failed, or_else_twice. cbn [fst snd].
        split; [reflexivity|]. split; [reflexivity|]. split; [reflexivity|].
        right. split; [intros url [H|[H|[H|[]]]]; discriminate|].
        split; [apply truthy_or_else; reflexivity|]. split; [reflexivity|].
        exists err. split; [right; left; reflexivity|]. split; [reflexivity|].
        destruct (after_failure_cases err (with_header tok c)) as (_ & _ & W & U).
        split; [exact W|]. intros Hs. now rewrite (U Hs).
    + cbv beta iota zeta. rewrite handleSubmit_failed, or_else_twice. cbn [fst snd].
      split; [reflexivity|]. split; [reflexivity|]. split; [reflexivity|].
      right. split; [intros url [H|[H|[]]]; discriminate|].
      split; [reflexivity|]. split; [reflexivity|]. exists Api.TypeError.
      split; [right; right; split; [reflexivity|]; exists data; now split|].
      split; [reflexivity|]. split; [discriminate | reflexivity].
  - cbv beta iota zeta. rewrite handleSubmit_failed, or_else_twice. cbn [fst snd].
    split; [reflexivity|]. split; [reflexivity|]. split; [reflexivity|].
    right. split; [intros url [H|[H|[]]]; discriminate|].
    split; [apply truthy_or_else; reflexivity|]. split; [reflexivity|].
    exists err. split; [left; reflexivity|]. split; [reflexivity|].
    destruct (after_failure_cases err c) as (_ & _ & W & U).
    split; [exact W|]. intros Hs. now rewrite (U Hs).
Qed.

End Session.

Section SessionWorked.

Import AuthStore Scenario.

Lemma request_token_from_storage_witness :
  Api.onRequest parse_sample (window_storing "<session of ann>") ∅
    !! "Authorization"%string = Some (lit "Bearer t")
  /\ Api.onRequest parse_sample
       (Api.onRejected (error_with Undefined 401) (window_storing "<session of ann>")).1
       ∅ = ∅
  /\ Api.onRequest parse_sample (window_storing "<session of ann>")
       {[ "Accept"%string := lit "text/html" ]} !! "Accept"%string
     = Some (lit "text/html").
Proof.
  split; [|split].
  - destruct (request_token_from_storage parse_sample
                (window_storing "<session of ann>") ∅) as (_ & _ & S & _).
    apply (S (lit "<session of ann>")
             [("token"%string, Str (lit "t")); ("user"%string, ann);
              ("isAuthenticated"%string, Bool true)] (Str (lit "t")));
      try reflexivity. discriminate.
  - destruct (request_token_from_storage parse_sample
                (window_storing "<session of ann>") ∅) as (_ & _ & _ & R & _).
    apply R. reflexivity.
  - destruct (request_token_from_storage parse_sample
                (window_storing "<session of ann>")
                {[ "Accept"%string := lit "text/html" ]}) as (O & _).
    rewrite O by discriminate. reflexivity.
Defined.

Lemma login_outcome_witness :
  headers_common
    (login stringify_sample (lit "ann") (lit "pw") fresh_client
       (Resolved token_reply) (Rejected Api.TypeError)).1.1
    !! "Authorization"%string = Some (lit "Bearer t")
  /\ auth (login stringify_sample (lit "ann") (lit "pw") fresh_client
             (Resolved token_reply) (Rejected Api.TypeError)).1.1
     = initial
  /\ auth (login stringify_sample (lit "ann") (lit "pw") fresh_client
             (Resolved token_reply) (Resolved ann)).1.1
     = {| user := ann; token := Str (lit "t"); isAuthenticated := Bool true |}
  /\ (login stringify_sample (lit "ann") (lit "pw") fresh_client
        (Rejected Api.TypeError) (Resolved ann)).1.1 = fresh_client
  /\ window
       (login stringify_sample (lit "ann") (lit "wrong") signed_in_client
          (Rejected (Api.AxiosErr (error_with Undefined 401))) (Resolved ann)).1.1
     = Some {| Api.localStorage := ∅; Api.location_href := lit "/login" |}.
Proof.
  destruct (login_outcome stringify_sample (lit "ann") (lit "pw") fresh_client
              (Resolved token_reply) (Rejected Api.TypeError)) as (_ & _ & M & _).
  destruct (M token_reply (Str (lit "t")) Api.TypeError eq_refl eq_refl eq_refl)
    as (A & H & _).
  destruct (login_outcome stringify_sample (lit "ann") (lit "pw") fresh_client
              (Resolved token_reply) (Resolved ann)) as (_ & _ & _ & S & _).
  destruct (S token_reply (Str (lit "t")) ann eq_refl eq_refl eq_refl) as (_ & U & _).
  destruct (login_outcome stringify_sample (lit "ann") (lit "pw") fresh_client
              (Rejected Api.TypeError) (Resolved ann)) as (F & _).
  destruct (F Api.TypeError eq_refl) as (_ & _ & _ & C & _).
  destruct (login_outcome stringify_sample (lit "ann") (lit "wrong") signed_in_client
              (Rejected (Api.AxiosErr (error_with Undefined 401))) (Resolved ann))
    as (E & _).
  destruct (E _ eq_refl) as (_ & _ & R & _).
  split; [rewrite H; apply lookup_insert_eq|]. split; [exact A|]. split; [exact U|].
  split; [apply C; discriminate|].
  rewrite (R eq_refl). vm_compute. reflexivity.
Defined.

Lemma session_survives_reload_witness :
  auth
    (load parse_sample ∅
       (window (login stringify_sample (lit "ann") (lit "pw") fresh_client
                  (Resolved token_reply) (Resolved ann)).1.1))
  = {| user := ann; token := Str (lit "t"); isAuthenticated := Bool true |}.
Proof.
  destruct (session_survives_reload parse_sample stringify_sample
              (lit "ann") (lit "pw") fresh_client token_reply (Str (lit "t")) ann
              {| Api.localStorage := ∅; Api.location_href := lit "/login" |} ∅
              eq_refl eq_refl ltac:(discriminate) eq_refl)
    as (R & _).
  rewrite (R eq_refl). reflexivity.
Defined.

Lemma initializeAuth_edges_witness :
  (exists w',
      window (initializeAuth parse_sample
                {| headers_common := ∅; auth := initial;
                   window := Some (window_storing "not json") |}) = Some w'
      /\ Api.localStorage w' !! lit "auth-storage" = None)
  /\ isAuthenticated
       (auth (initializeAuth parse_sample
                {| headers_common := ∅; auth := initial;
                   window := Some (window_storing "<token only>") |}))
     = Bool false
  /\ headers_common
       (initializeAuth parse_sample
          {| headers_common := ∅; auth := initial;
             window := Some (window_storing "<token only>") |})
     !! "Authorization"%string = Some (lit "Bearer t").
Proof.
  split; [|split].
  - destruct (initializeAuth_edges parse_sample
                {| headers_common := ∅; auth := initial;
                   window := Some (window_storing "not json") |}) as (_ & _ & E).
    destruct (E (window_storing "not json") (lit "not json") eq_refl eq_refl)
      as (C & _); [discriminate|].
    destruct C as (_ & _ & X); [left; reflexivity|]. exact X.
  - destruct (initializeAuth_edges parse_sample
                {| headers_common := ∅; auth := initial;
                   window := Some (window_storing "<token only>") |}) as (_ & _ & E).
    destruct (E (window_storing "<token only>") (lit "<token only>") eq_refl eq_refl)
      as (_ & _ & P); [discriminate|].
    destruct (P [("token"%string, Str (lit "t"))] (Str (lit "t")) eq_refl eq_refl eq_refl)
      as (_ & _ & _ & K).
    rewrite K; reflexivity.
  - destruct (initializeAuth_edges parse_sample
                {| headers_common := ∅; auth := initial;
                   window := Some (window_storing "<token only>") |}) as (_ & _ & E).
    destruct (E (window_storing "<token only>") (lit "<token only>") eq_refl eq_refl)
      as (_ & _ & P); [discriminate|].
    destruct (P [("token"%string, Str (lit "t"))] (Str (lit "t")) eq_refl eq_refl eq_refl)
      as (H & _).
    exact H.
Defined.

Lemma login_page_outcome_witness :
  Login.loading
    (Login.submit stringify_sample Login.initial fresh_client
       (Rejected Api.TypeError) (Resolved ann)).1.1 = false
  /\ Login.error
       (Login.submit stringify_sample Login.initial fresh_client
          (Rejected Api.TypeError) (Resolved ann)).1.1 = Str (lit "Login failed")
  /\ (Api.location_href
        <$> window
              (Login.submit stringify_sample Login.initial signed_in_client
                 (Rejected (Api.AxiosErr (error_with Undefined 401)))
                 (Resolved ann)).1.2)
     = Some (lit "/login").
Proof.
  destruct (login_page_outcome stringify_sample Login.initial fresh_client
              (Rejected Api.TypeError) (Resolved ann)) as (L & _ & _ & O).
  split; [exact L|]. split; [reflexivity|].
  destruct (login_page_outcome stringify_sample Login.initial signed_in_client
              (Rejected (Api.AxiosErr (error_with Undefined 401))) (Resolved ann))
    as (_ & _ & _ & [(d & t & u & [=] & _)|(_ & _ & _ & err & Hc & _ & R & _)]).
  destruct Hc as [[= <-]|[[=]|(_ & d & [=] & _)]].
  rewrite (R eq_refl). reflexivity.
Defined.

End SessionWorked.

(** ** The navigation bar *)

Section NavigationBar.

(** X22. The navigation bar and PrivateRoute read the same flag: the bar
    offers Dashboard and Logout exactly when the private routes render
    their children, and otherwise offers only Login and Sign Up while the
    private routes redirect to '/login'.  handleLogout navigates to
    '/login', which App serves without protection, and leaves the bar in
    its signed-out form. *)
Theorem navbar_agrees_with_private_route (store : AuthStore.AuthState) :
  (truthy (AuthStore.isAuthenticated store) = true ->
     In Navbar.LogoutButton (Navbar.right store)
     /\ In (Navbar.Link (lit "/dashboard") (lit "Dashboard")) (Navbar.right store)
     /\ Navbar.logo store = lit "/dashboard"
     /\ forall children, App.PrivateRoute store children = children)
  /\ (truthy (AuthStore.isAuthenticated store) = false ->
        Navbar.right store
        = [Navbar.Link (lit "/login") (lit "Login");
           Navbar.Link (lit "/signup") (lit "Sign Up")]
        /\ Navbar.logo store = lit "/login"
        /\ forall children,
             App.PrivateRoute store children = App.Navigate (lit "/login"))
  /\ (forall c : AuthStore.Client,
        let out := Navbar.handleLogout c in
        out.2 = [Dom.Api (Api.NavigateTo (lit "/login"))]
        /\ Navbar.right (AuthStore.auth out.1)
           = [Navbar.Link (lit "/login") (lit "Login");
              Navbar.Link (lit "/signup") (lit "Sign Up")]
        /\ In (lit "/login", App.Plain (App.Page App.Login)) App.routes).
Proof.
  split; [|split].
  - intros H. unfold Navbar.right, Navbar.logo, App.PrivateRoute. rewrite H.
    repeat split; simpl; auto.
  - intros H. unfold Navbar.right, Navbar.logo, App.PrivateRoute. rewrite H.
    repeat split.
  - intros c. repeat split. left. reflexivity.
Qed.

Lemma navbar_agrees_with_private_route_witness :
  In Navbar.LogoutButton (Navbar.right (AuthStore.auth Scenario.signed_in_client))
  /\ Navbar.logo AuthStore.initial = lit "/login".
Proof.
  destruct (navbar_agrees_with_private_route
              (AuthStore.auth Scenario.signed_in_client)) as (A & _).
  destruct (navbar_agrees_with_private_route AuthStore.initial) as (_ & B & _).
  split.
  - apply A. reflexivity.
  - apply B. reflexivity.
Defined.

End NavigationBar.

(** ** Creating a project *)

Section ProjectForm.

Lemma field_not_key (k : string) (fields : list (string * value)) :
  ~ In k (keys fields) -> field k fields = None.
Proof.
  unfold keys. induction fields as [|[k' w] rest IH]; simpl; [reflexivity|].
  intros H. rewrite IH by tauto.
  destruct (String.eqb_spec k k'); [|reflexivity]. subst. tauto.
Qed.

Lemma field_of_key (k : string) (fields : list (string * value)) :
  In k (keys fields) -> is_Some (field k fields).
Proof.
  unfold keys. induction fields as [|[k' w] rest IH]; simpl; [tauto|].
  intros [->|H].
  - rewrite String.eqb_refl. destruct (field k rest); eauto.
  - destruct (IH H) as [x ->]. eauto.
Qed.

Lemma keys_overwrite (k : string) (v : value) (fields : list (string * value)) :
  In k (keys fields) -> keys (overwrite k v fields) = keys fields.
Proof.
  unfold keys. induction fields as [|[k' w] rest IH]; simpl; [tauto|].
  destruct (String.eqb_spec k k') as [->|Hne]; simpl; [reflexivity|].
  intros [H|H]; [congruence|]. f_equal. now apply IH.
Qed.

Lemma field_overwrite_same (k : string) (v : value) (fields : list (string * value)) :
  NoDup (keys fields) -> field k (overwrite k v fields) = Some v.
Proof.
  unfold keys. induction fields as [|[k' w] rest IH]; simpl.
  - intros _. now rewrite String.eqb_refl.
  - intros H. apply NoDup_cons in H as [Hk Hnd].
    destruct (String.eqb_spec k k') as [->|Hne]; simpl.
    + rewrite field_not_key by (rewrite <- list_elem_of_In; exact Hk).
      now rewrite String.eqb_refl.
    + now rewrite IH.
Qed.

Lemma field_overwrite_other (k k' : string) (v : value)
    (fields : list (string * value)) :
  k' <> k -> field k' (overwrite k v fields) = field k' fields.
Proof.
  intros Hne. induction fields as [|[k0 w] rest IH]; simpl.
  - destruct (String.eqb_spec k' k); [congruence | reflexivity].
  - destruct (String.eqb_spec k k0) as [->|H0]; simpl.
    + destruct (String.eqb_spec k' k0); [congruence | reflexivity].
    + now rewrite IH.
Qed.

Lemma field_cons (k k0 : string) (w : value) (rest : list (string * value)) :
  field k ((k0, w) :: rest)
  = match field k rest with
    | Some x => Some x
    | None => if String.eqb k k0 then Some w else None
    end.
Proof. reflexivity. Qed.

Lemma field_insert_same (i : N) (k : string) (v : value)
    (fields : list (string * value)) :
  field k fields = None -> field k (insert_index i k v fields) = Some v.
Proof.
  induction fields as [|[k0 w] rest IH]; cbn [insert_index].
  - intros _. rewrite field_cons. simpl. now rewrite String.eqb_refl.
  - intros H.
    destruct (array_index k0) as [j|]; [destruct (N.ltb j i)|].
    + rewrite field_cons in H. rewrite field_cons.
      destruct (field k rest) eqn:R; [discriminate|]. now rewrite (IH eq_refl).
    + rewrite field_cons, H, String.eqb_refl. reflexivity.
    + rewrite field_cons, H, String.eqb_refl. reflexivity.
Qed.

Lemma field_insert_other (i : N) (k k' : string) (v : value)
    (fields : list (string * value)) :
  k' <> k -> field k' (insert_index i k v fields) = field k' fields.
Proof.
  intros Hne. apply String.eqb_neq in Hne.
  induction fields as [|[k0 w] rest IH]; cbn [insert_index].
  - rewrite field_cons. simpl. now rewrite Hne.
  - destruct (array_index k0) as [j|]; [destruct (N.ltb j i)|].
    + rewrite !field_cons, IH. reflexivity.
    + rewrite (field_cons k' k), Hne.
      generalize (field k' ((k0, w) :: rest)). intros [x|]; reflexivity.
    + rewrite (field_cons k' k), Hne.
      generalize (field k' ((k0, w) :: rest)). intros [x|]; reflexivity.
Qed.

Lemma keys_set_field (k : string) (v : value) (fields : list (string * value)) :
  In k (keys fields) -> keys (set_field k v fields) = keys fields.
Proof.
  intros H. unfold set_field. destruct (field_of_key k fields H) as [x ->].
  destruct (array_index k); now apply keys_overwrite.
Qed.

Lemma field_set_same (k : string) (v : value) (fields : list (string * value)) :
  NoDup (keys fields) -> field k (set_field k v fields) = Some v.
Proof.
  intros H. unfold set_field.
  destruct (array_index k) as [i|]; [destruct (field k fields) eqn:F|];
    first [ now apply field_overwrite_same | now apply field_insert_same ].
Qed.

Lemma field_set_other (k k' : string) (v : value) (fields : list (string * value)) :
  k' <> k -> field k' (set_field k v fields) = field k' fields.
Proof.
  intros H. unfold set_field.
  destruct (array_index k) as [i|]; [destruct (field k fields)|];
    first [ now apply field_overwrite_other | now apply field_insert_other ].
Qed.

Lemma typed_keys (entries : list (string * jsstring)) :
  forall st,
    keys (CreateProject.formData st) = form_keys ->
    Forall (fun e => In e.1 form_keys) entries ->
    keys (CreateProject.formData (fold_left type_in entries st)) = form_keys.
Proof.
  induction entries as [|[k v] entries IH]; intros st H F; simpl; [exact H|].
  apply Forall_cons in F as [Hk F]. apply IH; [|exact F].
  unfold type_in, CreateProject.handleChange. simpl.
  rewrite keys_set_field; [exact H | now rewrite H].
Qed.

Lemma form_keys_nodup : NoDup form_keys.
Proof. apply (bool_decide_unpack _). reflexivity. Qed.

(** X23. Whatever is typed into the three inputs of the project form, in
    any order and any number of times, the form keeps exactly the fields
    name, description and project_type in that order; each field holds the
    text typed last into its input, or its initial value if nothing was
    typed there; and typing never sets an error or the loading flag. *)
Theorem form_holds_last_input (entries : list (string * jsstring)) :
  Forall (fun e => In e.1 form_keys) entries ->
  let st := fold_left type_in entries CreateProject.initial in
  keys (CreateProject.formData st) = form_keys
  /\ (forall before k v after,
        entries = before ++ (k, v) :: after ->
        ~ In k (fst <$> after) ->
        field k (CreateProject.formData st) = Some (Str v))
  /\ (forall k, ~ In k (fst <$> entries) ->
        field k (CreateProject.formData st)
        = field k (CreateProject.formData CreateProject.initial))
  /\ CreateProject.error st = Str [] /\ CreateProject.loading st = false.
Proof.
  intros F st. subst st. split; [now apply typed_keys|].
  assert (Other : forall es st k, ~ In k (fst <$> es) ->
            field k (CreateProject.formData (fold_left type_in es st))
            = field k (CreateProject.formData st)).
  { induction es as [|[k0 v0] es IH]; intros st k H; simpl; [reflexivity|].
    simpl in H. rewrite IH by tauto. unfold type_in, CreateProject.handleChange.
    simpl. apply field_set_other. intros ->. tauto. }
  split; [|split].
  - intros before k v after -> Hk. rewrite fold_left_app. simpl.
    rewrite Other by exact Hk.
    unfold type_in at 1, CreateProject.handleChange. simpl.
    apply field_set_same.
    apply Forall_app in F as [Fb _].
    rewrite (typed_keys before CreateProject.initial eq_refl Fb).
    apply form_keys_nodup.
  - intros k Hk. now apply Other.
  - clear. induction entries as [|e es IH] using rev_ind; [split; reflexivity|].
    rewrite fold_left_app. simpl. exact IH.
Qed.

Lemma form_holds_last_input_witness :
  field "name"
    (CreateProject.formData
       (fold_left type_in
          [("name"%string, lit "Repo"); ("project_type"%string, lit "powerpoint");
           ("name"%string, lit "Report")] CreateProject.initial))
  = Some (Str (lit "Report"))
  /\ field "description"
       (CreateProject.formData
          (fold_left type_in
             [("name"%string, lit "Repo"); ("project_type"%string, lit "powerpoint");
              ("name"%string, lit "Report")] CreateProject.initial))
     = Some (Str []).
Proof.
  assert (Forall (fun e : string * jsstring => In e.1 form_keys)
            [("name"%string, lit "Repo"); ("project_type"%string, lit "powerpoint");
             ("name"%string, lit "Report")]) as F
    by (repeat constructor; simpl; auto).
  destruct (form_holds_last_input _ F) as (_ & L & O & _).
  split.
  - apply (L [("name"%string, lit "Repo"); ("project_type"%string, lit "powerpoint")]
             "name"%string (lit "Report") []); [reflexivity|]. intros [].
  - rewrite O; [reflexivity|]. simpl. intros [H|[H|[H|[]]]]; discriminate.
Defined.

(** X24. handleSubmit of the project form posts the form as typed and
    always ends with the loading flag reset and the form unchanged.  When
    the reply has a body it navigates, with the reply's id printed into the
    path, to the Word builder if project_type is 'word' and to the
    PowerPoint builder for every other value; when the request fails or the
    reply has no body it does not navigate and shows a non-empty error. *)
Theorem create_project_outcome (st : CreateProject.State)
    (post : promise value Api.thrown) :
  let out := CreateProject.handleSubmit st post in
  let request := Dom.Api (Api.Post (lit "/projects") (Obj (CreateProject.formData st))) in
  CreateProject.loading out.1 = false
  /\ CreateProject.formData out.1 = CreateProject.formData st
  /\ (forall data projectId,
        post = Resolved data -> Js.get data "id" = Some projectId ->
        CreateProject.error out.1 = Str []
        /\ (field "project_type" (CreateProject.formData st) = Some (Str (lit "word")) ->
              out.2 = [Dom.PreventDefault; request;
                       Dom.Api (Api.NavigateTo
                                  (cat [lit "/projects/"; to_string projectId;
                                        lit "/word-builder"]))])
        /\ (field "project_type" (CreateProject.formData st) <> Some (Str (lit "word")) ->
              out.2 = [Dom.PreventDefault; request;
                       Dom.Api (Api.NavigateTo
                                  (cat [lit "/projects/"; to_string projectId;
                                        lit "/ppt-builder"]))]))
  /\ ((forall data, post = Resolved data -> Js.get data "id" = None) ->
        out.2 = [Dom.PreventDefault; request]
        /\ truthy (CreateProject.error out.1) = true).
Proof.
  intros out request. subst out. unfold CreateProject.handleSubmit.
  cbn [CreateProject.formData CreateProject.setLoading CreateProject.setError].
  fold request.
  destruct post as [data|err].
  - destruct (Js.get data "id") as [pid|] eqn:G.
    + cbn [fst snd CreateProject.loading CreateProject.formData CreateProject.error
           CreateProject.setLoading CreateProject.setError].
      split; [reflexivity|]. split; [reflexivity|]. split.
      * intros d p [= <-] H. rewrite G in H. injection H as <-.
        split; [reflexivity|]. split.
        -- intros ->. reflexivity.
        -- intros Hn.
           replace (is_string (default Undefined
                      (field "project_type" (CreateProject.formData st))) (lit "word"))
             with false; [reflexivity|].
           symmetry. destruct (field "project_type" (CreateProject.formData st))
             as [[| | | |s| |]|]; try reflexivity.
           simpl. apply bool_decide_eq_false_2. intros ->. now apply Hn.
      * intros H. specialize (H data eq_refl). congruence.
    + cbn. split; [reflexivity|]. split; [reflexivity|].
      split; [intros d p [= <-]; congruence|]. intros _. split; reflexivity.
  - cbn [fst snd CreateProject.loading CreateProject.formData CreateProject.error
           CreateProject.setLoading CreateProject.setError].
    split; [reflexivity|]. split; [reflexivity|]. split; [discriminate|].
    intros _. split; [reflexivity|]. apply truthy_or_else. reflexivity.
Qed.

Lemma create_project_outcome_witness :
  (CreateProject.handleSubmit
     (type_in CreateProject.initial ("project_type"%string, lit "powerpoint"))
     (Resolved (Obj [("id"%string, Num 12)]))).2
  = [Dom.PreventDefault;
     Dom.Api (Api.Post (lit "/projects")
                (Obj [("name"%string, Str []); ("description"%string, Str []);
                      ("project_type"%string, Str (lit "powerpoint"))]));
     Dom.Api (Api.NavigateTo (lit "/projects/12/ppt-builder"))]
  /\ truthy (CreateProject.error
               (CreateProject.handleSubmit CreateProject.initial (Resolved Null)).1)
     = true.
Proof.
  split.
  - destruct (create_project_outcome
                (type_in CreateProject.initial ("project_type"%string, lit "powerpoint"))
                (Resolved (Obj [("id"%string, Num 12)]))) as (_ & _ & S & _).
    destruct (S _ (Num 12) eq_refl eq_refl) as (_ & _ & P).
    apply P. discriminate.
  - destruct (create_project_outcome CreateProject.initial (Resolved Null))
      as (_ & _ & _ & F).
    apply F. intros data [= <-]. reflexivity.
Defined.

End ProjectForm.
